(** * AndroidBuyer: the buyer map screen (Home.tsx) and the detail screen
      (ParkingDetails.tsx), embedded shallowly.

    The two React components are modelled as pure functions over explicit
    state.  JavaScript values are a small tagged union, records are finite
    maps from property names to values, and the few conversions whose result
    depends on the engine's number formatting, number parsing and date
    parsing are collected in one interface, [JsRuntime]. *)

From Stdlib Require Import QArith Qround Qabs Qminmax ZArith Ascii Lia Lqa.
From stdpp Require Import base option list strings pretty gmap.

Local Open Scope Z_scope.
Local Open Scope string_scope.
Local Open Scope list_scope.

(** ** Numbers

    A JavaScript number is NaN, an infinity, or a finite value.  Finite values
    are carried as rationals, and [0] and [-0] are one value.  The price
    summary computes in binary64: each of its operations is rounded to the
    nearest double, ties to even ([roundDouble] below), and a number it
    reads from a record stands for the double nearest to it, as a decimal
    literal does.  Time stamps are whole numbers of milliseconds below
    2^53, whose differences are exact, and they are only compared; pointer
    coordinates and heights are only added, subtracted and compared. *)

Inductive JsNumber : Type :=
  | NaN
  | PosInf
  | NegInf
  | Fin (q : Q).

Definition num_isFinite (n : JsNumber) : bool :=
  match n with Fin _ => true | _ => false end.

(** [a < b], [a <= b], [a > b] of JavaScript: false as soon as a side is NaN. *)
Definition num_lt (a b : JsNumber) : bool :=
  match a, b with
  | NaN, _ | _, NaN => false
  | _, NegInf => false
  | NegInf, _ => true
  | PosInf, _ => false
  | Fin _, PosInf => true
  | Fin x, Fin y => negb (Qle_bool y x)
  end.

Definition num_le (a b : JsNumber) : bool :=
  match a, b with
  | NaN, _ | _, NaN => false
  | NegInf, _ => true
  | _, PosInf => true
  | _, NegInf => false
  | PosInf, _ => false
  | Fin x, Fin y => Qle_bool x y
  end.

Definition num_gt (a b : JsNumber) : bool := num_lt b a.

Definition num_zero : JsNumber := Fin 0.

(** The sign of a finite rational, as [Z]: -1, 0 or 1. *)
Definition Qsgn (q : Q) : Z := Z.sgn (Qnum q).

(** An infinity times a finite value of the given sign. *)
Definition inf_times (positive : bool) (s : Z) : JsNumber :=
  match s with
  | Z0 => NaN
  | Zpos _ => if positive then PosInf else NegInf
  | Zneg _ => if positive then NegInf else PosInf
  end.

Definition num_mul (a b : JsNumber) : JsNumber :=
  match a, b with
  | NaN, _ | _, NaN => NaN
  | Fin x, Fin y => Fin (Qred (x * y))
  | PosInf, Fin y => inf_times true (Qsgn y)
  | NegInf, Fin y => inf_times false (Qsgn y)
  | Fin x, PosInf => inf_times true (Qsgn x)
  | Fin x, NegInf => inf_times false (Qsgn x)
  | PosInf, PosInf | NegInf, NegInf => PosInf
  | PosInf, NegInf | NegInf, PosInf => NegInf
  end.

Definition num_sub (a b : JsNumber) : JsNumber :=
  match a, b with
  | NaN, _ | _, NaN => NaN
  | Fin x, Fin y => Fin (Qred (x - y))
  | PosInf, PosInf | NegInf, NegInf => NaN
  | PosInf, _ => PosInf
  | NegInf, _ => NegInf
  | Fin _, PosInf => NegInf
  | Fin _, NegInf => PosInf
  end.

(** Division by a finite, strictly positive constant (the code divides by
    100 and by 60000 only). *)
Definition num_div_pos (a : JsNumber) (d : positive) : JsNumber :=
  match a with
  | Fin x => Fin (Qred (x / inject_Z (Zpos d)))
  | other => other
  end.

(** [Math.min] and [Math.max] on two arguments. *)
Definition Math_min (a b : JsNumber) : JsNumber :=
  match a, b with
  | NaN, _ | _, NaN => NaN
  | _, _ => if num_le a b then a else b
  end.

Definition Math_max (a b : JsNumber) : JsNumber :=
  match a, b with
  | NaN, _ | _, NaN => NaN
  | _, _ => if num_le a b then b else a
  end.

(** *** binary64

    The spacing of the subnormal doubles is 2^-1074, the unit below.  A
    magnitude under 2^53 units is rounded to a whole number of units; from
    there on, a magnitude whose integer part has [k + 1] bits is rounded to a
    multiple of [2 ^ (k - 52)] units, which keeps 53 significant bits.  A
    result of 2^2098 units, that is 2^1024, or more is an infinity. *)

(** The nearest integer, the even one on a tie. *)
Definition roundHalfEven (x : Q) : Z :=
  let f := Qfloor x in
  match (x - inject_Z f ?= 1 # 2)%Q with
  | Lt => f
  | Eq => if Z.even f then f else f + 1
  | Gt => f + 1
  end.

Definition doubleScale : Z := 2 ^ 1074.

Definition doubleShift (t : Q) : Z := Z.max 0 (Z.log2 (Qfloor t) - 52).

(** The double nearest to a magnitude of [t] units, in units. *)
Definition roundUnits (t : Q) : Z :=
  let s := doubleShift t in
  roundHalfEven (t / inject_Z (2 ^ s)) * 2 ^ s.

(** The double nearest to [q]. *)
Definition roundDouble (q : Q) : JsNumber :=
  let u := roundUnits (Qabs q * inject_Z doubleScale) in
  if (2 ^ 2098 <=? u)%Z then (if Qle_bool 0 q then PosInf else NegInf)
  else Fin (Qred (inject_Z (Qsgn q * u) / inject_Z doubleScale)).

(** A number read from a record, as the double it stands for. *)
Definition asDouble (n : JsNumber) : JsNumber :=
  match n with
  | Fin q => roundDouble q
  | other => other
  end.

(** [a * b], [a - b] and [a / d] on doubles: the exact result, rounded. *)
Definition dbl_mul (a b : JsNumber) : JsNumber :=
  match a, b with
  | Fin x, Fin y => roundDouble (x * y)
  | _, _ => num_mul a b
  end.

Definition dbl_sub (a b : JsNumber) : JsNumber :=
  match a, b with
  | Fin x, Fin y => roundDouble (x - y)
  | _, _ => num_sub a b
  end.

Definition dbl_div_pos (a : JsNumber) (d : positive) : JsNumber :=
  match a with
  | Fin x => roundDouble (x / inject_Z (Zpos d))
  | other => other
  end.

(** [+(x.toFixed(2))]: [toFixed] picks the integer [n] with [n / 100] closest
    to the exact value of [x], the larger one on a tie, after taking the sign
    off, and the unary plus reads the decimal text back as the double
    nearest to [n / 100]; from 1e21 on [toFixed] prints the number itself,
    and NaN and the infinities print as such, so parsing the text back
    returns them unchanged. *)
Definition round2 (q : Q) : Q :=
  let n := Qfloor (Qabs q * 100 + (1 # 2)) in
  (Qsgn q * n # 100)%Q.

Definition toFixed2 (a : JsNumber) : JsNumber :=
  match a with
  | Fin q =>
      if Qle_bool (inject_Z (10 ^ 21)) (Qabs q) then Fin q else roundDouble (round2 q)
  | other => other
  end.

(** ** Values and records *)

(** The discount summary [computePriceMeta] returns; it is stored on a space
    under the property [__price]. *)
Record PriceMeta : Type := mkPriceMeta {
  basePrice : JsNumber;
  discountedPrice : JsNumber;
  discountPercent : JsNumber;
  hasDiscount : bool;
}.

(** The values a property of a space or of a socket payload holds.
    [JBoxed repr] is any other object (a boxed identifier, an array, a nested
    record): the code under study only converts such a value to a string or
    tests its type and truthiness, so it is represented by the text its
    [toString()] returns. *)
Inductive JsValue : Type :=
  | JUndefined
  | JNull
  | JBool (b : bool)
  | JNum (n : JsNumber)
  | JStr (s : string)
  | JBoxed (repr : string)
  | JPrice (p : PriceMeta).

(** A plain object: own enumerable properties by name.  A property may be
    present with the value [JUndefined]. *)
Abbreviation JsObject := (gmap string JsValue).

(** [o.k]: a missing property reads as [undefined]. *)
Definition get (o : JsObject) (k : string) : JsValue :=
  default JUndefined (o !! k).

(** [{ ...a, ...b }]: the properties of [b] win. *)
Definition spread (a b : JsObject) : JsObject := b ∪ a.

(** [Boolean(v)], also the test of [if (v)], [!v], [a || b] and [a && b]. *)
Definition truthy (v : JsValue) : bool :=
  match v with
  | JUndefined | JNull => false
  | JBool b => b
  | JNum NaN => false
  | JNum (Fin q) => negb (Qeq_bool q 0)
  | JNum _ => true
  | JStr s => negb (String.eqb s "")
  | JBoxed _ | JPrice _ => true
  end.

(** [a || b] and [a ?? b]. *)
Definition js_or (a b : JsValue) : JsValue := if truthy a then a else b.

Definition nullish (v : JsValue) : bool :=
  match v with JUndefined | JNull => true | _ => false end.

Definition js_coalesce (a b : JsValue) : JsValue := if nullish a then b else a.

(** [typeof v === 'number'], ['undefined'], ['string'], ['object']. *)
Definition is_number (v : JsValue) : bool :=
  match v with JNum _ => true | _ => false end.

Definition is_undefined (v : JsValue) : bool :=
  match v with JUndefined => true | _ => false end.

Definition is_string (v : JsValue) : bool :=
  match v with JStr _ => true | _ => false end.

Definition is_object (v : JsValue) : bool :=
  match v with JNull | JBoxed _ | JPrice _ => true | _ => false end.

(** [v === s] for a string [s]: strict equality holds for an equal string
    only. *)
Definition strict_eq_string (v : JsValue) (s : string) : bool :=
  match v with JStr t => String.eqb t s | _ => false end.

(** ** The engine's conversions

    [Number::toString], [StringToNumber] and the parsing of a date string by
    [new Date(s)] (its time value in milliseconds, [None] for an invalid
    date) are the engine's; every definition below takes them from this
    interface and every theorem holds for all their implementations. *)
Class JsRuntime : Type := {
  NumberToString : JsNumber -> string;
  StringToNumber : string -> JsNumber;
  DateParse : string -> option Z;
}.

Section Conversions.
Context `{rt : JsRuntime}.

(** [String(v)]. *)
Definition ToString (v : JsValue) : string :=
  match v with
  | JUndefined => "undefined"
  | JNull => "null"
  | JBool true => "true"
  | JBool false => "false"
  | JNum n => NumberToString n
  | JStr s => s
  | JBoxed repr => repr
  | JPrice _ => "[object Object]"
  end.

(** [Number(v)]; an object is converted through its string form. *)
Definition ToNumber (v : JsValue) : JsNumber :=
  match v with
  | JUndefined => NaN
  | JNull => num_zero
  | JBool true => Fin 1
  | JBool false => num_zero
  | JNum n => n
  | JStr s => StringToNumber s
  | JBoxed repr => StringToNumber repr
  | JPrice _ => NaN
  end.
End Conversions.

(** [s.toLowerCase()] on the ASCII letters.  Lowered text is only ever
    compared with ["submitted"], and no character outside ASCII lowers to
    one of its letters, so the comparison is the one the engine makes. *)
Definition lower_ascii (c : ascii) : ascii :=
  let n := nat_of_ascii c in
  if (65 <=? n)%nat && (n <=? 90)%nat then ascii_of_nat (n + 32) else c.

Fixpoint toLowerCase (s : string) : string :=
  match s with
  | EmptyString => EmptyString
  | String c rest => String (lower_ascii c) (toLowerCase rest)
  end.

(** [s.length]: the number of UTF-16 code units of the text.  A string of
    the model holds the UTF-8 bytes of the text: a byte that continues a
    character (10xxxxxx) adds nothing, the first byte of a character of four
    bytes (11110xxx, a character outside the basic plane, which UTF-16
    writes as a surrogate pair) adds two units, every other first byte
    one. *)
Definition codeUnits (c : ascii) : nat :=
  let n := nat_of_ascii c in
  if (n <? 128)%nat then 1%nat
  else if (n <? 192)%nat then 0%nat
  else if (n <? 240)%nat then 1%nat
  else 2%nat.

Fixpoint utf16Length (s : string) : nat :=
  match s with
  | EmptyString => 0%nat
  | String c rest => (codeUnits c + utf16Length rest)%nat
  end.

(** ** Home.tsx: the buyer map screen *)

Module Home.

Section WithRuntime.
Context `{rt : JsRuntime}.

(** What a call of the parking service resolves to, or any value handed to
    [onlyApproved]: an array of space records, or something that is not an
    array ([null], [undefined], a string, ...). *)
Inductive MaybeArray : Type :=
  | NotArray (v : JsValue)
  | ArrayOf (l : list JsObject).

(** The numeric base price, lines 151-152: the local [base] of
    [computePriceMeta], before it is rounded for display. *)
Definition basePriceRaw (space : JsObject) : JsNumber :=
  let baseRaw :=
    js_coalesce (js_coalesce (js_coalesce (get space "priceParking")
                                          (get space "pricePerHour"))
                             (get space "price"))
                (JNum num_zero) in
  let n := asDouble (ToNumber baseRaw) in
  if truthy (JNum n) then n else num_zero.

(** The clamped discount, lines 153-155: the local [clamped]. *)
Definition clampedDiscount (space : JsObject) : JsNumber :=
  let rawDiscount := js_coalesce (get space "discount") (JNum num_zero) in
  let discount := asDouble (ToNumber rawDiscount) in
  if num_isFinite discount
  then Math_max num_zero (Math_min (Fin 100) discount)
  else num_zero.

(** [computePriceMeta], lines 150-163. *)
Definition computePriceMeta (space : JsObject) : PriceMeta :=
  let base := basePriceRaw space in
  let clamped := clampedDiscount space in
  let discounted :=
    toFixed2 (dbl_mul base (dbl_sub (Fin 1) (dbl_div_pos clamped 100))) in
  {| basePrice := toFixed2 base;
     discountedPrice := discounted;
     discountPercent := clamped;
     hasDiscount := num_gt clamped num_zero && num_lt discounted base |}.

(** The predicate of [onlyApproved]'s filter, lines 168-172. *)
Definition approved (s : JsObject) : bool :=
  let status := toLowerCase (ToString (js_or (get s "status") (JStr ""))) in
  let online :=
    if negb (is_undefined (get s "isOnline")) then truthy (get s "isOnline") else false in
  String.eqb status "submitted" && online.

(** [onlyApproved], lines 166-173. *)
Definition onlyApproved (spaces : MaybeArray) : list JsObject :=
  match spaces with
  | NotArray _ => []
  | ArrayOf l => List.filter approved l
  end.

(** *** Component state

    Only the state the data flow reads or writes is kept: the viewport, the
    search box, the bottom sheets, the loading flag and the modal flags are
    presentation state and are left out. *)

Record Coord : Type := mkCoord { lat : JsNumber; lng : JsNumber }.

Inductive ToastLevel : Type := TError | TInfo | TSuccess.

Record Toast : Type := mkToast { level : ToastLevel; text : string }.

(** A call of the parking service; an omitted or [undefined] argument is
    [None]. *)
Inductive Request : Type :=
  | GetAllSpaces (reqStart reqEnd : option string) (onlineOnly : option bool)
  | GetNearbySpaces (reqLat reqLng : JsNumber) (reqStart reqEnd : option string)
      (onlineOnly : option bool).

(** How the awaited call ends. *)
Inductive Response : Type :=
  | Rejects
  | Resolves (v : MaybeArray).

Record Amenities : Type := mkAmenities {
  covered : bool; security : bool; charging : bool; cctv : bool; wheelchair : bool;
}.

Record Filters : Type := mkFilters {
  amenities : Amenities;
  priceRange : JsNumber * JsNumber;
  isPriceFilterActive : bool;
}.

(** [toasts] and [requests] log, oldest first, the notifications shown and
    the service calls made.  [spacesReplaced] records that [parkingSpaces]
    holds a new array since the effect that depends on it last ran. *)
Record State : Type := mkState {
  parkingSpaces : list JsObject;
  filteredSpaces : list JsObject;
  selectedSpace : option JsObject;
  currentLocation : option Coord;
  startTime : option string;
  endTime : option string;
  filters : Filters;
  toasts : list Toast;
  requests : list Request;
  spacesReplaced : bool;
}.

Definition initialFilters : Filters :=
  {| amenities := mkAmenities false false false false false;
     priceRange := (Fin 0, Fin 1000);
     isPriceFilterActive := false |}.

(** The [useState] initial values. *)
Definition initialState : State :=
  {| parkingSpaces := []; filteredSpaces := []; selectedSpace := None;
     currentLocation := None; startTime := None; endTime := None;
     filters := initialFilters; toasts := []; requests := [];
     spacesReplaced := false |}.

Definition setParkingSpaces (l : list JsObject) (st : State) : State :=
  mkState l (filteredSpaces st) (selectedSpace st) (currentLocation st)
    (startTime st) (endTime st) (filters st) (toasts st) (requests st) true.

Definition setFilteredSpaces (l : list JsObject) (st : State) : State :=
  mkState (parkingSpaces st) l (selectedSpace st) (currentLocation st)
    (startTime st) (endTime st) (filters st) (toasts st) (requests st)
    (spacesReplaced st).

Definition setSelectedSpace (o : option JsObject) (st : State) : State :=
  mkState (parkingSpaces st) (filteredSpaces st) o (currentLocation st)
    (startTime st) (endTime st) (filters st) (toasts st) (requests st)
    (spacesReplaced st).

Definition setCurrentLocation (c : option Coord) (st : State) : State :=
  mkState (parkingSpaces st) (filteredSpaces st) (selectedSpace st) c
    (startTime st) (endTime st) (filters st) (toasts st) (requests st)
    (spacesReplaced st).

Definition setStartTime (t : option string) (st : State) : State :=
  mkState (parkingSpaces st) (filteredSpaces st) (selectedSpace st)
    (currentLocation st) t (endTime st) (filters st) (toasts st) (requests st)
    (spacesReplaced st).

Definition setEndTime (t : option string) (st : State) : State :=
  mkState (parkingSpaces st) (filteredSpaces st) (selectedSpace st)
    (currentLocation st) (startTime st) t (filters st) (toasts st) (requests st)
    (spacesReplaced st).

Definition setFilters (f : Filters) (st : State) : State :=
  mkState (parkingSpaces st) (filteredSpaces st) (selectedSpace st)
    (currentLocation st) (startTime st) (endTime st) f (toasts st) (requests st)
    (spacesReplaced st).

Definition toast (lv : ToastLevel) (msg : string) (st : State) : State :=
  mkState (parkingSpaces st) (filteredSpaces st) (selectedSpace st)
    (currentLocation st) (startTime st) (endTime st) (filters st)
    (toasts st ++ [mkToast lv msg]) (requests st) (spacesReplaced st).

Definition issue (r : Request) (st : State) : State :=
  mkState (parkingSpaces st) (filteredSpaces st) (selectedSpace st)
    (currentLocation st) (startTime st) (endTime st) (filters st) (toasts st)
    (requests st ++ [r]) (spacesReplaced st).

(** The effect of lines 176-178, [setFilteredSpaces(parkingSpaces)] with
    dependency [parkingSpaces]: it runs after a render in which
    [parkingSpaces] is a new array. *)
Definition syncFilteredSpaces (st : State) : State :=
  if spacesReplaced st then
    mkState (parkingSpaces st) (parkingSpaces st) (selectedSpace st)
      (currentLocation st) (startTime st) (endTime st) (filters st) (toasts st)
      (requests st) false
  else st.

(** A [string | null] state variable used as a condition. *)
Definition truthyTime (t : option string) : bool :=
  match t with Some s => negb (String.eqb s "") | None => false end.

(** [startTime && endTime]: a time window is active. *)
Definition windowActive (start end_ : option string) : bool :=
  truthyTime start && truthyTime end_.

(** *** The realtime handler, lines 184-288 *)

(** [data.parkingId || data._id || data.id]. *)
Definition eventId (data : JsObject) : JsValue :=
  js_or (js_or (get data "parkingId") (get data "_id")) (get data "id").

(** Lines 187-188. *)
Definition resolveAvailableSpots (data : JsObject) : JsValue :=
  if is_number (get data "availableSpots") then get data "availableSpots"
  else js_or (get data "available") (get data "availableSpots").

(** The identifier of a stored space, lines 193, 237 and 276. *)
Definition spaceId (s : JsObject) : JsValue :=
  if truthy (get s "_id") then
    (if is_string (get s "_id") then get s "_id" else JStr (ToString (get s "_id")))
  else get s "id".

(** [Array.prototype.findIndex]; [None] is the result [-1]. *)
Fixpoint findIndex (p : JsObject -> bool) (l : list JsObject) : option nat :=
  match l with
  | [] => None
  | x :: rest => if p x then Some 0%nat else S <$> findIndex p rest
  end.

Definition matchesId (pid : string) (s : JsObject) : bool :=
  strict_eq_string (spaceId s) pid.

(** [typeof availableSpots === 'number' && availableSpots <= 0]. *)
Definition numberAtMostZero (v : JsValue) : bool :=
  match v with JNum n => num_le n num_zero | _ => false end.

(** [...(typeof availableSpots === 'number' ? { availableSpots } : {})]. *)
Definition spotsPatch (availableSpots : JsValue) : JsObject :=
  if is_number availableSpots then {[ "availableSpots" := availableSpots ]} else ∅.

(** [{ ...data, __price: data.__price ?? computePriceMeta(data) }]. *)
Definition withPrice (s : JsObject) : JsObject :=
  <[ "__price" := js_coalesce (get s "__price") (JPrice (computePriceMeta s)) ]> s.

(** The updater handed to [setParkingSpaces], lines 190-232.  [None] is
    [return prev] (the same array, no new state); [Some l] is a new array. *)
Definition updateParkingSpaces (start end_ : option string) (data : JsObject)
    (prev : list JsObject) : option (list JsObject) :=
  let parkingId := eventId data in
  let availableSpots := resolveAvailableSpots data in
  let pid := ToString parkingId in
  let idx := findIndex (matchesId pid) prev in
  let incomingStatus := toLowerCase (ToString (js_or (get data "status") (JStr ""))) in
  let incomingOnline :=
    if negb (is_undefined (get data "isOnline")) then truthy (get data "isOnline")
    else true in
  if (negb (String.eqb incomingStatus "") && negb (String.eqb incomingStatus "submitted"))
     || negb incomingOnline
  then
    match idx with
    | Some i => Some (delete i prev)
    | None => None
    end
  else if windowActive start end_ && numberAtMostZero availableSpots
  then
    match idx with
    | Some i => Some (delete i prev)
    | None => None
    end
  else
    match idx with
    | Some i =>
        Some (alter (fun entry => spread (spread entry data) (spotsPatch availableSpots)) i prev)
    | None =>
        if (truthy (get data "status")
            && negb (String.eqb (toLowerCase (ToString (get data "status"))) "submitted"))
           || (negb (is_undefined (get data "isOnline")) && negb (truthy (get data "isOnline")))
        then None
        else if windowActive start end_ && numberAtMostZero availableSpots
        then None
        else Some (withPrice data :: prev)
    end.

(** The updater handed to [setFilteredSpaces], lines 234-272: a second copy
    of the same text. *)
Definition updateFilteredSpaces (start end_ : option string) (data : JsObject)
    (prev : list JsObject) : option (list JsObject) :=
  let parkingId := eventId data in
  let availableSpots := resolveAvailableSpots data in
  let pid := ToString parkingId in
  let idx := findIndex (matchesId pid) prev in
  let incomingStatus := toLowerCase (ToString (js_or (get data "status") (JStr ""))) in
  let incomingOnline :=
    if negb (is_undefined (get data "isOnline")) then truthy (get data "isOnline")
    else true in
  if (negb (String.eqb incomingStatus "") && negb (String.eqb incomingStatus "submitted"))
     || negb incomingOnline
  then
    match idx with
    | Some i => Some (delete i prev)
    | None => None
    end
  else if windowActive start end_ && numberAtMostZero availableSpots
  then
    match idx with
    | Some i => Some (delete i prev)
    | None => None
    end
  else
    match idx with
    | Some i =>
        Some (alter (fun entry => spread (spread entry data) (spotsPatch availableSpots)) i prev)
    | None =>
        if (truthy (get data "status")
            && negb (String.eqb (toLowerCase (ToString (get data "status"))) "submitted"))
           || (negb (is_undefined (get data "isOnline")) && negb (truthy (get data "isOnline")))
        then None
        else if windowActive start end_ && numberAtMostZero availableSpots
        then None
        else Some (withPrice data :: prev)
    end.

(** The updater handed to [setSelectedSpace], lines 274-287. *)
Definition updateSelectedSpace (start end_ : option string) (data : JsObject)
    (prev : option JsObject) : option JsObject :=
  let parkingId := eventId data in
  let availableSpots := resolveAvailableSpots data in
  match prev with
  | None => prev
  | Some p =>
      if strict_eq_string (spaceId p) (ToString parkingId) then
        if (truthy (get data "status")
            && negb (String.eqb (toLowerCase (ToString (get data "status"))) "submitted"))
           || (negb (is_undefined (get data "isOnline")) && negb (truthy (get data "isOnline")))
        then None
        else if windowActive start end_ && numberAtMostZero availableSpots
        then None
        else Some (spread (spread p (spotsPatch availableSpots)) data)
      else prev
  end.

(** [handleParkingUpdate], lines 184-288, registered for both
    [parking-updated] and [parking-released].  The payload is [None] when it
    is falsy (line 185) and a record otherwise.  A list updater that returns
    its argument leaves the state variable, and its identity, as it is. *)
Definition handleParkingUpdate (data : option JsObject) (st : State) : State :=
  match data with
  | None => st
  | Some d =>
      let st1 :=
        match updateParkingSpaces (startTime st) (endTime st) d (parkingSpaces st) with
        | Some l => setParkingSpaces l st
        | None => st
        end in
      let st2 :=
        match updateFilteredSpaces (startTime st) (endTime st) d (filteredSpaces st) with
        | Some l => setFilteredSpaces l st1
        | None => st1
        end in
      setSelectedSpace (updateSelectedSpace (startTime st) (endTime st) d (selectedSpace st)) st2
  end.

(** *** Time-window validation, lines 118-137 *)

(** The time value of a [Date]: NaN for an invalid date. *)
Definition timeValue (d : option Z) : JsNumber :=
  match d with Some ms => Fin (inject_Z ms) | None => NaN end.

Definition msgPastStart : string := "Start time cannot be in the past".
Definition msgEndAfterStart : string := "End time must be after start time".
Definition msgMinDuration : string := "Minimum booking duration is 30 minutes".

(** [validateTimeSelection]; [now] is the clock read by [new Date()], in
    milliseconds.  The result pairs the returned boolean with the state
    after the notification, if any. *)
Definition validateTimeSelection (now : Z) (start end_ : string) (st : State)
    : bool * State :=
  let startDate := timeValue (DateParse start) in
  let endDate := timeValue (DateParse end_) in
  let nowDate := Fin (inject_Z now) in
  if num_lt startDate nowDate then (false, toast TError msgPastStart st)
  else if num_le endDate startDate then (false, toast TError msgEndAfterStart st)
  else
    let diffMinutes := num_div_pos (num_sub endDate startDate) 60000 in
    if num_lt diffMinutes (Fin 30) then (false, toast TError msgMinDuration st)
    else (true, st).

(** *** Loading spaces from the service *)

(** [Number(s.availableSpots) > 0]. *)
Definition hasSpots (s : JsObject) : bool :=
  num_gt (ToNumber (get s "availableSpots")) num_zero.

(** [if (startTime && endTime) allowed = allowed.filter(...)]. *)
Definition filterByWindow (st : State) (allowed : list JsObject) : list JsObject :=
  if windowActive (startTime st) (endTime st) then List.filter hasSpots allowed
  else allowed.

(** [(spaces || []).map((s) => ({ ...s, __price: ... }))]: a falsy value
    stands for the empty array, and a truthy value that is not an array has
    no [map], so the call throws ([None]). *)
Definition mapWithPrice (spaces : MaybeArray) : option (list JsObject) :=
  match spaces with
  | ArrayOf l => Some (withPrice <$> l)
  | NotArray v => if truthy v then None else Some []
  end.

Definition msgLoadFailed : string := "Failed to load parking markers.".

(** The second half of [loadDefaultParkingMarkers], lines 419-430: the call
    of [getNearbySpaces], and the [catch] block when it fails. *)
Definition loadNearbyMarkers (c : Coord) (nearby : Response) (st : State) : State :=
  let st := issue (GetNearbySpaces (lat c) (lng c) (startTime st) (endTime st) (Some true)) st in
  match nearby with
  | Rejects => toast TError msgLoadFailed (setParkingSpaces [] st)
  | Resolves spaces =>
      setParkingSpaces (filterByWindow st (withPrice <$> onlyApproved spaces)) st
  end.

(** [loadDefaultParkingMarkers], lines 401-434.  [hasGetAll] is the test of
    line 404 on the service object; [all] and [nearby] are the outcomes of
    the two awaited calls, the second read only when the call is made. *)
Definition loadDefaultParkingMarkers (c : Coord) (hasGetAll : bool)
    (all nearby : Response) (st : State) : State :=
  if hasGetAll then
    let st := issue (GetAllSpaces (startTime st) (endTime st) (Some true)) st in
    match all with
    | Resolves (ArrayOf (x :: l)) =>
        setParkingSpaces
          (filterByWindow st (withPrice <$> onlyApproved (ArrayOf (x :: l)))) st
    | _ => loadNearbyMarkers c nearby st
    end
  else loadNearbyMarkers c nearby st.

(** How the geolocation lookup of the first effect ends (lines 314-399):
    a position, no capability or permission, or an error callback. *)
Inductive Geolocation : Type :=
  | GeoPosition (c : Coord)
  | GeoUnavailable
  | GeoFailed.

Definition defaultLocation : Coord :=
  {| lat := Fin (286139 # 10000); lng := Fin (77209 # 1000) |}.

Definition msgEnableLocation : string :=
  "Could not get your location. Please enable location services.".

(** The mount effect: [init], [getUserLocation], [setDefaultLocation]. *)
Definition init (geo : Geolocation) (hasGetAll : bool) (all nearby : Response)
    (st : State) : State :=
  match geo with
  | GeoPosition c =>
      loadDefaultParkingMarkers c hasGetAll all nearby (setCurrentLocation (Some c) st)
  | GeoUnavailable =>
      loadDefaultParkingMarkers defaultLocation hasGetAll all nearby
        (setCurrentLocation (Some defaultLocation) st)
  | GeoFailed =>
      loadDefaultParkingMarkers defaultLocation hasGetAll all nearby
        (setCurrentLocation (Some defaultLocation) (toast TError msgEnableLocation st))
  end.

Definition msgNoLocation : string := "Current location not available.".

(** [handleGoToCurrentLocation], lines 555-567. *)
Definition handleGoToCurrentLocation (hasGetAll : bool) (all nearby : Response)
    (st : State) : State :=
  match currentLocation st with
  | Some c => loadDefaultParkingMarkers c hasGetAll all nearby st
  | None => toast TInfo msgNoLocation st
  end.

(** [handleSearchByCurrentLocation], lines 461-477: the success notification
    is shown while the load it started is still pending. *)
Definition handleSearchByCurrentLocation (hasGetAll : bool) (all nearby : Response)
    (st : State) : State :=
  match currentLocation st with
  | Some c =>
      loadDefaultParkingMarkers c hasGetAll all nearby
        (toast TSuccess "Showing parking spaces around you" st)
  | None => toast TInfo msgNoLocation st
  end.

(** The button that empties the search box, lines 813-818. *)
Definition clearSearch (hasGetAll : bool) (all nearby : Response) (st : State) : State :=
  match currentLocation st with
  | Some c => loadDefaultParkingMarkers c hasGetAll all nearby st
  | None => st
  end.

Record GeocodingResult : Type := mkGeocodingResult {
  latitude : JsNumber;
  longitude : JsNumber;
  address : string;
}.

(** [address.split(',')[0]]. *)
Fixpoint beforeComma (s : string) : string :=
  match s with
  | EmptyString => EmptyString
  | String c rest => if Ascii.eqb c "," then EmptyString else String c (beforeComma rest)
  end.

Definition msgSelectFailed : string :=
  "Failed to fetch parking spaces for the selected location.".

Definition msgNoneFound : string :=
  "No parking spaces found in this area. Try increasing the search radius or remove time filter.".

(** [handleLocationSelect], lines 619-650. *)
Definition handleLocationSelect (result : GeocodingResult) (nearby : Response)
    (st : State) : State :=
  let st :=
    issue (GetNearbySpaces (latitude result) (longitude result)
             (startTime st) (endTime st) (Some true)) st in
  match nearby with
  | Rejects => toast TError msgSelectFailed st
  | Resolves spaces =>
      match mapWithPrice spaces with
      | None => toast TError msgSelectFailed st
      | Some spacesWithPrice =>
          let allowed := filterByWindow st (onlyApproved (ArrayOf spacesWithPrice)) in
          let st := setParkingSpaces allowed st in
          match allowed with
          | [] => toast TInfo msgNoneFound st
          | _ :: _ =>
              toast TSuccess
                ("Found " ++ NumberToString (Fin (inject_Z (Z.of_nat (length allowed))))
                 ++ " parking spaces near " ++ beforeComma (address result)) st
          end
      end
  end.

Definition msgApplyFailed : string := "Unable to apply time filter.".

(** The request of the two time-filter buttons: nearby when a location is
    known, the whole listing otherwise. *)
Definition windowRequest (st : State) (start end_ : option string)
    (onlineOnly : option bool) : Request :=
  match currentLocation st with
  | Some c => GetNearbySpaces (lat c) (lng c) start end_ onlineOnly
  | None => GetAllSpaces start end_ onlineOnly
  end.

(** The [try] block of the [Apply Time Filter] button, lines 1082-1105.  The
    notification texts of the two buttons are given without their leading
    pictograph. *)
Definition applyTimeFilterFetch (resp : Response) (st : State) : State :=
  let st := issue (windowRequest st (startTime st) (endTime st) (Some true)) st in
  match resp with
  | Rejects => toast TError msgApplyFailed st
  | Resolves spaces =>
      match mapWithPrice spaces with
      | None => toast TError msgApplyFailed st
      | Some spacesWithPrice =>
          toast TSuccess "Time filter applied successfully!"
            (setParkingSpaces
               (filterByWindow st (onlyApproved (ArrayOf spacesWithPrice))) st)
      end
  end.

(** The [Apply Time Filter] button, lines 1080-1106: line 1081 returns when
    both bounds are set and their validation fails. *)
Definition applyTimeFilter (now : Z) (resp : Response) (st : State) : State :=
  match startTime st, endTime st with
  | Some start, Some end_ =>
      if windowActive (Some start) (Some end_) then
        match validateTimeSelection now start end_ st with
        | (false, st') => st'
        | (true, st') => applyTimeFilterFetch resp st'
        end
      else applyTimeFilterFetch resp st
  | _, _ => applyTimeFilterFetch resp st
  end.

(** The [Clear] button, lines 1115-1134.  There is no [catch]: a failed call
    leaves the state as it is after the two resets. *)
Definition clearTimeFilter (resp : Response) (st : State) : State :=
  let st := setEndTime None (setStartTime None st) in
  let st := issue (windowRequest st None None None) st in
  match resp with
  | Rejects => st
  | Resolves spaces =>
      match mapWithPrice spaces with
      | None => st
      | Some spacesWithPrice =>
          toast TInfo "Time filter cleared"
            (setParkingSpaces (onlyApproved (ArrayOf spacesWithPrice)) st)
      end
  end.

(** The start-time input, lines 1038-1044, and the end-time input, line 1068. *)
Definition changeStartTime (newStartTime : string) (st : State) : State :=
  let st' := setStartTime (Some newStartTime) st in
  match endTime st with
  | Some e =>
      if negb (String.eqb e "") && negb (String.eqb newStartTime "")
         && num_le (timeValue (DateParse e)) (timeValue (DateParse newStartTime))
      then setEndTime (Some "") st'
      else st'
  | None => st'
  end.

Definition changeEndTime (newEndTime : string) (st : State) : State :=
  setEndTime (Some newEndTime) st.

(** *** The amenity and price filter, lines 512-527 *)

Inductive Amenity : Type := Covered | Security | Charging | Cctv | Wheelchair.

Definition toggleAmenity (a : Amenity) (m : Amenities) : Amenities :=
  match a with
  | Covered => mkAmenities (negb (covered m)) (security m) (charging m) (cctv m) (wheelchair m)
  | Security => mkAmenities (covered m) (negb (security m)) (charging m) (cctv m) (wheelchair m)
  | Charging => mkAmenities (covered m) (security m) (negb (charging m)) (cctv m) (wheelchair m)
  | Cctv => mkAmenities (covered m) (security m) (charging m) (negb (cctv m)) (wheelchair m)
  | Wheelchair => mkAmenities (covered m) (security m) (charging m) (cctv m) (negb (wheelchair m))
  end.

Definition handleFilterToggle (a : Amenity) (st : State) : State :=
  setFilters
    {| amenities := toggleAmenity a (amenities (filters st));
       priceRange := priceRange (filters st);
       isPriceFilterActive := isPriceFilterActive (filters st) |} st.

Definition handlePriceRangeChange (min max : JsNumber) (st : State) : State :=
  setFilters
    {| amenities := amenities (filters st);
       priceRange := (min, max);
       isPriceFilterActive := true |} st.

Definition clearAllFilters (st : State) : State := setFilters initialFilters st.

(** *** The component as a transition system

    One action is one handler run to completion, followed by the render and
    the effect it triggers. *)
Inductive Action : Type :=
  | Init (geo : Geolocation) (hasGetAll : bool) (all nearby : Response)
  | GoToCurrentLocation (hasGetAll : bool) (all nearby : Response)
  | SearchByCurrentLocation (hasGetAll : bool) (all nearby : Response)
  | ClearSearch (hasGetAll : bool) (all nearby : Response)
  | LocationSelect (result : GeocodingResult) (nearby : Response)
  | ApplyTimeFilter (now : Z) (resp : Response)
  | ClearTimeFilter (resp : Response)
  | ChangeStartTime (v : string)
  | ChangeEndTime (v : string)
  | SocketEvent (data : option JsObject)
  | SelectSpace (space : option JsObject)
  | FilterToggle (a : Amenity)
  | PriceRangeChange (min max : JsNumber)
  | ClearAllFilters.

Definition handler (a : Action) : State -> State :=
  match a with
  | Init geo g all nearby => init geo g all nearby
  | GoToCurrentLocation g all nearby => handleGoToCurrentLocation g all nearby
  | SearchByCurrentLocation g all nearby => handleSearchByCurrentLocation g all nearby
  | ClearSearch g all nearby => clearSearch g all nearby
  | LocationSelect result nearby => handleLocationSelect result nearby
  | ApplyTimeFilter now resp => applyTimeFilter now resp
  | ClearTimeFilter resp => clearTimeFilter resp
  | ChangeStartTime v => changeStartTime v
  | ChangeEndTime v => changeEndTime v
  | SocketEvent data => handleParkingUpdate data
  | SelectSpace space => setSelectedSpace space
  | FilterToggle a => handleFilterToggle a
  | PriceRangeChange min max => handlePriceRangeChange min max
  | ClearAllFilters => clearAllFilters
  end.

Definition step (st : State) (a : Action) : State :=
  syncFilteredSpaces (handler a st).

Definition run (actions : list Action) (st : State) : State :=
  fold_left step actions st.

End WithRuntime.

End Home.

(** ** ParkingDetails.tsx: the detail screen *)

Module ParkingDetails.

Section WithRuntime.
Context `{rt : JsRuntime}.

(** Lines 1444-1447. *)
Definition resolveAvailableSpots (data : JsObject) : JsValue :=
  if is_number (get data "availableSpots") then get data "availableSpots"
  else js_coalesce (get data "available") (get data "availableSpots").

(** Lines 1451-1454: an object identifier is replaced by its [toString()]. *)
Definition displayedId (space : JsObject) : JsValue :=
  if truthy (get space "_id") && is_object (get space "_id")
  then JStr (ToString (get space "_id"))
  else get space "_id".

(** [handleParkingUpdate], lines 1442-1459, for the displayed [space]; the
    effect subscribes it only while a space is displayed, and subscribes a
    fresh one whenever [space] changes, so the [prev] of line 1457 is [space].
    The result is the displayed space after the event.  A falsy payload
    ([None]) either throws at the first property read or fails the guard of
    line 1449; no state is written in either case. *)
Definition handleParkingUpdate (data : option JsObject) (space : JsObject) : JsObject :=
  match data with
  | None => space
  | Some d =>
      let parkingId := Home.eventId d in
      let availableSpots := resolveAvailableSpots d in
      if negb (truthy parkingId) || negb (is_number availableSpots) then space
      else if String.eqb (ToString parkingId) (ToString (displayedId space))
      then <[ "availableSpots" := availableSpots ]> space
      else space
  end.

End WithRuntime.

End ParkingDetails.

(** ** An engine for evaluating examples

    Integers print in decimal, digit strings parse as integers, and a date
    of the form [YYYY-MM-DDTHH:mm], the value of a [datetime-local] input, is
    read in UTC.  The examples below use no other conversion. *)

Definition digitValue (c : ascii) : option Z :=
  let n := Z.of_nat (nat_of_ascii c) in
  if ((48 <=? n) && (n <=? 57))%Z then Some (n - 48) else None.

Fixpoint digitsValue (acc : Z) (s : string) : option Z :=
  match s with
  | EmptyString => Some acc
  | String c rest =>
      match digitValue c with
      | Some d => digitsValue (10 * acc + d) rest
      | None => None
      end
  end.

Definition exampleNumberToString (n : JsNumber) : string :=
  match n with
  | NaN => "NaN"
  | PosInf => "Infinity"
  | NegInf => "-Infinity"
  | Fin q => pretty (Qfloor q)
  end.

Definition exampleStringToNumber (s : string) : JsNumber :=
  match digitsValue 0 s with
  | Some z => Fin (inject_Z z)
  | None => NaN
  end.

(** Days from 1970-01-01 to the given civil date. *)
Definition daysFromCivil (y m d : Z) : Z :=
  let y' := if (m <=? 2)%Z then y - 1 else y in
  let era := y' / 400 in
  let yoe := y' - era * 400 in
  let mp := (m + 9) mod 12 in
  let doy := (153 * mp + 2) / 5 + d - 1 in
  let doe := yoe * 365 + yoe / 4 - yoe / 100 + doy in
  era * 146097 + doe - 719468.

Definition exampleDateParse (s : string) : option Z :=
  if negb (String.length s =? 16)%nat then None else
  match digitsValue 0 (String.substring 0 4 s), digitsValue 0 (String.substring 5 2 s),
        digitsValue 0 (String.substring 8 2 s), digitsValue 0 (String.substring 11 2 s),
        digitsValue 0 (String.substring 14 2 s) with
  | Some y, Some m, Some d, Some hh, Some mm =>
      if String.eqb (String.substring 4 1 s) "-" && String.eqb (String.substring 7 1 s) "-"
         && String.eqb (String.substring 10 1 s) "T" && String.eqb (String.substring 13 1 s) ":"
         && (1 <=? m)%Z && (m <=? 12)%Z && (1 <=? d)%Z && (d <=? 31)%Z
         && (hh <=? 23)%Z && (mm <=? 59)%Z
      then Some (daysFromCivil y m d * 86400000 + (hh * 60 + mm) * 60000)
      else None
  | _, _, _, _, _ => None
  end.

Definition exampleRuntime : JsRuntime :=
  {| NumberToString := exampleNumberToString;
     StringToNumber := exampleStringToNumber;
     DateParse := exampleDateParse |}.


(** ** Home.tsx: the filter badge, the location search and the bottom sheets *)

Module HomeControls.

(** [getActiveFilterCount], lines 528-532. *)
Definition getActiveFilterCount (f : Home.Filters) : nat :=
  let m := Home.amenities f in
  let activeAmenities :=
    length (List.filter (fun b : bool => b)
              [Home.covered m; Home.security m; Home.charging m; Home.cctv m;
               Home.wheelchair m]) in
  (activeAmenities + (if Home.isPriceFilterActive f then 1 else 0))%nat.

(** *** The location search, lines 580-617 *)

(** A feature of the geocoder's answer: [center] is [[longitude, latitude]]. *)
Record Feature : Type := mkFeature {
  center : JsNumber * JsNumber;
  place_name : string;
}.

(** How the geocoding call ends; an answer that cannot be read throws inside
    the [try] like a rejected call. *)
Inductive GeocodeResponse : Type :=
  | GeocodeRejects
  | GeocodeResolves (features : list Feature).

Record GeocodeRequest : Type := mkGeocodeRequest {
  geocodeQuery : string;
  proximity : option Home.Coord;
}.

(** The search state with the notifications shown and the geocoding calls
    made, oldest first. *)
Record SearchState : Type := mkSearchState {
  searchQuery : string;
  isSearchFilterActive : bool;
  searchResults : list Home.GeocodingResult;
  showSearchResults : bool;
  searchToasts : list Home.Toast;
  geocodeRequests : list GeocodeRequest;
}.

Definition toResult (f : Feature) : Home.GeocodingResult :=
  {| Home.latitude := snd (center f);
     Home.longitude := fst (center f);
     Home.address := place_name f |}.

(** [searchLocations], lines 580-610.  [query.length] counts UTF-16 code
    units. *)
Definition searchLocations (currentLocation : option Home.Coord) (query : string)
    (resp : GeocodeResponse) (s : SearchState) : SearchState :=
  if (utf16Length query <? 3)%nat then
    mkSearchState (searchQuery s) (isSearchFilterActive s) [] false
      (searchToasts s) (geocodeRequests s)
  else
    let reqs := geocodeRequests s ++ [mkGeocodeRequest query currentLocation] in
    match resp with
    | GeocodeRejects =>
        mkSearchState (searchQuery s) (isSearchFilterActive s) (searchResults s)
          (showSearchResults s)
          (searchToasts s ++ [Home.mkToast Home.TError "Failed to search locations"]) reqs
    | GeocodeResolves features =>
        mkSearchState (searchQuery s) (isSearchFilterActive s) (toResult <$> features)
          true (searchToasts s) reqs
    end.

(** *** The draggable bottom sheets, lines 652-776

    Pointer coordinates and heights are finite numbers, carried as
    rationals.  [offsetHeight] is read from the element when an event is
    handled, so the handlers take it as an argument: [None] is a [ref] whose
    [current] is null. *)

(** The three refs of a sheet, its height state, and the inline [height] and
    [transition] the handlers write on the element ([None]: not written). *)
Record Sheet : Type := mkSheet {
  isDragging : bool;
  startY : Q;
  initialSheetHeight : Q;
  sheetHeight : Q;
  shown : bool;
  styleHeight : option Q;
  styleTransition : option string;
}.

(** [window.innerHeight], or [None] where there is no [window]. *)
Definition MIN_HEIGHT : Q := 120%Q.

Definition MAX_HEIGHT (innerHeight : option Q) : Q :=
  match innerHeight with Some h => (h * (85 # 100))%Q | None => 600%Q end.

Definition MID_HEIGHT (innerHeight : option Q) : Q :=
  match innerHeight with Some h => (h * (1 # 2))%Q | None => 400%Q end.

Definition MIN_FILTER_HEIGHT (innerHeight : option Q) : Q :=
  match innerHeight with Some h => (h * (45 # 100))%Q | None => 360%Q end.

Definition MAX_FILTER_HEIGHT (innerHeight : option Q) : Q :=
  match innerHeight with Some h => (h * (95 # 100))%Q | None => 760%Q end.

Definition MID_FILTER_HEIGHT (innerHeight : option Q) : Q :=
  match innerHeight with Some h => (h * (6 # 10))%Q | None => 520%Q end.

(** [a > b] on finite numbers. *)
Definition Qgtb (a b : Q) : bool := negb (Qle_bool a b).

(** [onDragStart], lines 672-679 (the pointer capture is not modelled). *)
Definition onDragStart (offsetHeight : option Q) (clientY : Q) (s : Sheet) : Sheet :=
  match offsetHeight with
  | None => s
  | Some h =>
      mkSheet true clientY h (sheetHeight s) (shown s) (styleHeight s) (Some "none")
  end.

(** [onDragMove], lines 681-687; [mounted] is [listSheetRef.current] being
    set. *)
Definition onDragMove (innerHeight : option Q) (mounted : bool) (clientY : Q)
    (s : Sheet) : Sheet :=
  if negb (isDragging s) || negb mounted then s
  else
    let deltaY := (startY s - clientY)%Q in
    let newHeight := (initialSheetHeight s + deltaY)%Q in
    let newHeight := Qmin (Qmax newHeight MIN_HEIGHT) (MAX_HEIGHT innerHeight) in
    mkSheet (isDragging s) (startY s) (initialSheetHeight s) (sheetHeight s) (shown s)
      (Some newHeight) (styleTransition s).

(** [onDragEnd], lines 689-697. *)
Definition onDragEnd (innerHeight : option Q) (offsetHeight : option Q) (s : Sheet)
    : Sheet :=
  match offsetHeight with
  | None => s
  | Some finalHeight =>
      if negb (isDragging s) then s
      else
        let target :=
          if Qgtb finalHeight (MID_HEIGHT innerHeight) then MAX_HEIGHT innerHeight
          else if Qgtb finalHeight MIN_HEIGHT
                  && Qle_bool finalHeight (MID_HEIGHT innerHeight)
               then MIN_HEIGHT
               else MIN_HEIGHT in
        mkSheet false (startY s) (initialSheetHeight s) target (shown s) (styleHeight s)
          (Some "height 0.3s ease-out")
  end.

(** [openListSheet], lines 712-717; [height] is [None] when the argument is
    not a number. *)
Definition openListSheet (innerHeight : option Q) (height : option Q) (mounted : bool)
    (s : Sheet) : Sheet :=
  let target :=
    match height with
    | Some h => Qmin (Qmax h MIN_HEIGHT) (MAX_HEIGHT innerHeight)
    | None => MIN_HEIGHT
    end in
  mkSheet (isDragging s) (startY s) (initialSheetHeight s) target true
    (if mounted then Some target else styleHeight s) (styleTransition s).

(** [onFilterDragStart], [onFilterDragMove] and [onFilterDragEnd], lines
    739-763, on the refs and state of the filter sheet. *)
Definition onFilterDragStart (offsetHeight : option Q) (clientY : Q) (s : Sheet) : Sheet :=
  match offsetHeight with
  | None => s
  | Some h =>
      mkSheet true clientY h (sheetHeight s) (shown s) (styleHeight s) (Some "none")
  end.

Definition onFilterDragMove (innerHeight : option Q) (mounted : bool) (clientY : Q)
    (s : Sheet) : Sheet :=
  if negb (isDragging s) || negb mounted then s
  else
    let deltaY := (startY s - clientY)%Q in
    let newHeight := (initialSheetHeight s + deltaY)%Q in
    let newHeight :=
      Qmin (Qmax newHeight (MIN_FILTER_HEIGHT innerHeight)) (MAX_FILTER_HEIGHT innerHeight) in
    mkSheet (isDragging s) (startY s) (initialSheetHeight s) (sheetHeight s) (shown s)
      (Some newHeight) (styleTransition s).

Definition onFilterDragEnd (innerHeight : option Q) (offsetHeight : option Q) (s : Sheet)
    : Sheet :=
  match offsetHeight with
  | None => s
  | Some finalHeight =>
      if negb (isDragging s) then s
      else
        let target :=
          if Qgtb finalHeight (MID_FILTER_HEIGHT innerHeight)
          then MAX_FILTER_HEIGHT innerHeight
          else MIN_FILTER_HEIGHT innerHeight in
        mkSheet false (startY s) (initialSheetHeight s) target (shown s) (styleHeight s)
          (Some "height 0.3s ease-out")
  end.

End HomeControls.

(** ** The [debounce] utility, Home.tsx lines 34-40

    Time is the clock in milliseconds.  A debounced function holds at most
    one pending timer; [fired] logs the calls of the wrapped function with
    the time they are due.  A timer due at or before the time of an event has
    run when the event is handled. *)

Module Debounce.

Section WithArgs.
Context {A : Type}.

Record Debounced : Type := mkDebounced {
  timeout : option (Z * A);
  fired : list (Z * A);
}.

Definition idle : Debounced := {| timeout := None; fired := [] |}.

(** The clock reaches [now]: a due timer runs [func(...args)]. *)
Definition elapse (now : Z) (d : Debounced) : Debounced :=
  match timeout d with
  | Some (due, args) =>
      if (due <=? now)%Z then {| timeout := None; fired := fired d ++ [(due, args)] |}
      else d
  | None => d
  end.

(** A call of the debounced function at time [now]:
    [clearTimeout(timeout); timeout = setTimeout(() => func(...args), wait)]. *)
Definition call (wait : Z) (now : Z) (args : A) (d : Debounced) : Debounced :=
  {| timeout := Some ((now + wait)%Z, args); fired := fired (elapse now d) |}.

(** A sequence of calls, each with its time. *)
Definition calls (wait : Z) (cs : list (Z * A)) (d : Debounced) : Debounced :=
  fold_left (fun d c => call wait (fst c) (snd c) d) cs d.

End WithArgs.

Arguments Debounced A : clear implicits.

End Debounce.

(** ** ParkingDetails.tsx: [handleBookNow], lines 1478-1502 *)

Module Booking.

Section WithRuntime.
Context `{rt : JsRuntime}.

(** What a click on [Book Now] does: one notification, or the navigation to
    the vehicle form with its hand-off state. *)
Inductive Outcome : Type :=
  | Notify (lv : Home.ToastLevel) (msg : string)
  | Navigate (path : string) (spaceId userId : string).

Definition msgLogIn : string := "Please log in to book the parking space.".

Definition msgNotVerified : string :=
  "Your account is not verified. Please complete your verification to book the parking space.".

Definition msgNoUserId : string := "Could not determine your user ID.".

(** [handleBookNow] for the displayed [space]; [user] is [None] when the
    navigation state carried none. *)
Definition handleBookNow (user : option JsObject) (space : JsObject) : Outcome :=
  match user with
  | None => Notify Home.TInfo msgLogIn
  | Some u =>
      if negb (truthy (get u "isVerified")) then Notify Home.TInfo msgNotVerified
      else
        let sid := ParkingDetails.displayedId space in
        let uidRaw := js_coalesce (get u "_id") (get u "id") in
        if negb (truthy uidRaw) then Notify Home.TError msgNoUserId
        else Navigate "/vehicle-details" (ToString sid) (ToString uidRaw)
  end.

End WithRuntime.

End Booking.

(** ** ParkingDetails.tsx: the screen with its notifications

    The displayed space together with the notifications the screen has
    shown, oldest first.  The socket handler of lines 1442-1459 calls
    [setSpace] at most; [handleBookNow] is the only function of the screen
    that calls [toast]. *)

Module DetailScreen.

Section WithRuntime.
Context `{rt : JsRuntime}.

Record State : Type := mkState {
  space : JsObject;
  toasts : list Home.Toast;
}.


(** A click on [Book Now]: the notification it shows, if any. *)
Definition onBookNow (user : option JsObject) (s : State) : State :=
  match Booking.handleBookNow user (space s) with
  | Booking.Notify lv msg => mkState (space s) (toasts s ++ [Home.mkToast lv msg])
  | Booking.Navigate _ _ _ => s
  end.

End WithRuntime.

End DetailScreen.

(** ** Front.tsx: the landing page's search selection, lines 103-145 *)

Module Front.

(** The page's state with its notifications and the selections reported to
    the parent through [onLocationSelect], oldest first.  [parkingSpaces]
    holds whatever the service resolved to. *)
Record State : Type := mkState {
  parkingSpaces : Home.MaybeArray;
  isSearchOpen : bool;
  toasts : list Home.Toast;
  reported : list Home.GeocodingResult;
}.

Definition msgFetchFailed : string := "Failed to fetch parking spaces.".

Definition msgSelectFailed : string :=
  "Failed to fetch parking spaces for the selected location.".

Definition msgNoneNearby : string :=
  "No nearby parking spaces available at the selected location.".

Definition toast (lv : Home.ToastLevel) (msg : string) (s : State) : State :=
  mkState (parkingSpaces s) (isSearchOpen s) (toasts s ++ [Home.mkToast lv msg])
    (reported s).

(** [fetchNearbyParkingSpaces], lines 103-110. *)
Definition fetchNearbyParkingSpaces (nearby : Home.Response) (s : State) : State :=
  match nearby with
  | Home.Rejects => toast Home.TError msgFetchFailed s
  | Home.Resolves spaces => mkState spaces (isSearchOpen s) (toasts s) (reported s)
  end.

(** [spaces.length === 0] after [setParkingSpaces(spaces)], lines 135-138:
    reading [length] of [null] or [undefined] throws into the [catch]; a
    value that is neither an array nor a string is taken to have no
    [length] property. *)
Definition afterSpacesSet (spaces : Home.MaybeArray) (s : State) : State :=
  match spaces with
  | Home.ArrayOf [] => toast Home.TInfo msgNoneNearby s
  | Home.ArrayOf (_ :: _) => s
  | Home.NotArray v =>
      if nullish v then toast Home.TError msgSelectFailed s
      else match v with
           | JStr "" => toast Home.TInfo msgNoneNearby s
           | _ => s
           end
  end.

(** [handleLocationSelect], lines 130-145; [hasCallback] is the
    [onLocationSelect] prop being given. *)
Definition handleLocationSelect (hasCallback : bool) (result : Home.GeocodingResult)
    (nearby : Home.Response) (s : State) : State :=
  let s :=
    match nearby with
    | Home.Rejects => toast Home.TError msgSelectFailed s
    | Home.Resolves spaces =>
        afterSpacesSet spaces (mkState spaces (isSearchOpen s) (toasts s) (reported s))
    end in
  mkState (parkingSpaces s) false (toasts s)
    (if hasCallback then reported s ++ [result] else reported s).

End Front.

(** ** SearchOverlayProps.tsx: the search overlay *)

Module SearchOverlay.

Record Result : Type := mkResult {
  latitude : JsNumber;
  longitude : JsNumber;
  label : string;
}.

(** The overlay's state and, oldest first, the lists handed to the parent
    through the [setResults] prop. *)
Record State : Type := mkState {
  query : string;
  results : list Result;
  loading : bool;
  handedUp : list (list Result);
}.

Definition initialState : State :=
  {| query := ""; results := []; loading := false; handedUp := [] |}.

(** [updateResults], lines 19-22; [hasSetResults] is the prop being given. *)
Definition updateResults (hasSetResults : bool) (r : list Result) (s : State) : State :=
  mkState (query s) r (loading s)
    (if hasSetResults then handedUp s ++ [r] else handedUp s).

(** The effect of lines 24-29, run when [isOpen] changes. *)
Definition onOpenChange (hasSetResults : bool) (isOpen : bool) (s : State) : State :=
  if negb isOpen then
    updateResults hasSetResults []
      (mkState "" (results s) (loading s) (handedUp s))
  else s.

(** [handleSearch], lines 31-39: [found] is [None] when [searchLocation]
    rejects; the [finally] block runs either way. *)
Definition handleSearch (hasSetResults : bool) (found : option (list Result))
    (s : State) : State :=
  let s := mkState (query s) (results s) true (handedUp s) in
  let s :=
    match found with
    | Some r => updateResults hasSetResults r s
    | None => s
    end in
  mkState (query s) (results s) false (handedUp s).

Definition setQuery (q : string) (s : State) : State :=
  mkState q (results s) (loading s) (handedUp s).

End SearchOverlay.

(** ** Splash.tsx: the splash screen's timers, lines 13-22

    One run of the effect, for fixed props.  A timer's callback runs at the
    time the timer is due. *)

Module Splash.

Record State : Type := mkState {
  hidden : bool;
  timer : option Z;
  fadeTimer : option Z;
  finished : list Z;
}.

(** The effect starts at [now]: [setTimeout(..., duration)]. *)
Definition mount (now duration : Z) : State :=
  {| hidden := false; timer := Some (now + duration)%Z; fadeTimer := None;
     finished := [] |}.

(** The clock reaches [now].  The outer callback hides the splash and starts
    the 400 ms timer; the inner one calls [onFinish] when the prop is
    given, logged with the time of the call. *)
Definition elapse (hasOnFinish : bool) (now : Z) (s : State) : State :=
  let s :=
    match timer s with
    | Some due =>
        if (due <=? now)%Z
        then mkState true None (Some (due + 400)%Z) (finished s)
        else s
    | None => s
    end in
  match fadeTimer s with
  | Some due =>
      if (due <=? now)%Z
      then mkState (hidden s) (timer s) None
             (if hasOnFinish then finished s ++ [due] else finished s)
      else s
  | None => s
  end.

(** The cleanup of the effect: [clearTimeout(timer)], the outer timer only. *)
Definition cleanup (s : State) : State :=
  mkState (hidden s) None (fadeTimer s) (finished s).

End Splash.

(** ** The claims as the specification words them

    Where the code departs from a sentence of the specification, the
    sentence is written down here next to the code's definition, and the two
    are compared below. *)

(** Section 4.2: a record passes when its lowercased status is
    ["submitted"] and [isOnline === true]. *)
Definition approvedAsStated `{rt : JsRuntime} (s : JsObject) : bool :=
  String.eqb (toLowerCase (ToString (js_or (get s "status") (JStr "")))) "submitted"
  && match get s "isOnline" with JBool true => true | _ => false end.

(** The status an event carries, as lowercased text; empty when it carries
    none. *)
Definition eventStatus `{rt : JsRuntime} (data : JsObject) : string :=
  toLowerCase (ToString (js_or (get data "status") (JStr ""))).

(** The online flag of an event: true when the property is absent. *)
Definition eventOnline (data : JsObject) : bool :=
  match get data "isOnline" with
  | JUndefined => true
  | v => truthy v
  end.

(** Section 4.3, step 2: the available-spot count of an event is its
    [availableSpots] when that is numeric, otherwise its [available]. *)
Definition resolvedCountAsStated (data : JsObject) : JsValue :=
  if is_number (get data "availableSpots") then get data "availableSpots"
  else get data "available".

(** A count that is a number and at most 0. *)
Definition countAtMostZero (v : JsValue) : bool :=
  match v with
  | JNum (Fin q) => Qle_bool q 0
  | JNum NegInf => true
  | _ => false
  end.

(** A time window is active: a start and an end have been chosen. *)
Definition windowSet (start end_ : option string) : bool :=
  match start, end_ with
  | Some s, Some e => negb (String.eqb s "") && negb (String.eqb e "")
  | _, _ => false
  end.

(** Section 4.3, step 4: the removal condition.  The event carries a
    non-empty status other than ["submitted"], or its online flag is false,
    or a time window is active and the resolved count is at most 0. *)
Definition removalConditionAsStated `{rt : JsRuntime} (start end_ : option string)
    (data : JsObject) : bool :=
  (negb (String.eqb (eventStatus data) "")
   && negb (String.eqb (eventStatus data) "submitted"))
  || negb (eventOnline data)
  || (windowSet start end_ && countAtMostZero (resolvedCountAsStated data)).


(** Section 4.3, step 1: the identifier of an event in string form, read
    from [parkingId], [_id] or [id], the first of them that is set. *)
Definition eventIdentifier `{rt : JsRuntime} (data : JsObject) : string :=
  if truthy (get data "parkingId") then ToString (get data "parkingId")
  else if truthy (get data "_id") then ToString (get data "_id")
  else ToString (get data "id").

(** The identifier of a listed space in string form: its [_id], a string or
    a boxed identifier converted to its text, otherwise its [id] when that
    is a string.  A space with neither has no identifier. *)
Definition identifierText `{rt : JsRuntime} (s : JsObject) : option string :=
  if truthy (get s "_id") then Some (ToString (get s "_id"))
  else match get s "id" with
       | JStr x => Some x
       | _ => None
       end.

(** A space is matched by stringified identifier. *)
Definition identifiedBy `{rt : JsRuntime} (pid : string) (s : JsObject) : bool :=
  match identifierText s with
  | Some x => String.eqb x pid
  | None => false
  end.

(** [l'] is [l] without its first entry that satisfies [p]; it is [l] when no
    entry does. *)
Definition firstMatchRemoved (p : JsObject -> bool) (l l' : list JsObject) : Prop :=
  (exists (i : nat) (s : JsObject),
      l !! i = Some s /\ p s = true
      /\ (forall (j : nat) (t : JsObject), (j < i)%nat -> l !! j = Some t -> p t = false)
      /\ l' = take i l ++ drop (S i) l)
  \/ ((forall s : JsObject, s ∈ l -> p s = false) /\ l' = l).

(** [l'] is [l] with its first entry that satisfies [p] merged with the event
    [data]: the entry's [availableSpots] is [n], the properties of [data]
    win, the entry's other properties stay, and so do all other entries. *)
Definition firstMatchMerged (p : JsObject -> bool) (data : JsObject) (n : JsNumber)
    (l l' : list JsObject) : Prop :=
  length l' = length l
  /\ exists (i : nat) (e e' : JsObject),
       l !! i = Some e /\ p e = true
       /\ (forall (j : nat) (t : JsObject), (j < i)%nat -> l !! j = Some t -> p t = false)
       /\ l' !! i = Some e'
       /\ e' !! "availableSpots" = Some (JNum n)
       /\ (forall (k : string) (v : JsValue), data !! k = Some v -> e' !! k = Some v)
       /\ (forall k : string, data !! k = None -> e' !! k = e !! k)
       /\ (forall j : nat, j <> i -> l' !! j = l !! j).



(** A fetch fails when the call rejects or when its result is a value that
    cannot be mapped over. *)
Definition failsToLoad `{rt : JsRuntime} (resp : Home.Response) : bool :=
  match resp with
  | Home.Rejects => true
  | Home.Resolves v =>
      match Home.mapWithPrice v with None => true | Some _ => false end
  end.

(** The first half of [loadDefaultParkingMarkers] delivers when the service
    has [getAllSpaces] and it resolves to a non-empty array. *)
Definition listingDelivers (hasGetAll : bool) (all : Home.Response) : bool :=
  hasGetAll
  && match all with
     | Home.Resolves (Home.ArrayOf (_ :: _)) => true
     | _ => false
     end.

(** The actions that change the amenity and price settings. *)
Definition isFilterAction (a : Home.Action) : bool :=
  match a with
  | Home.FilterToggle _ | Home.PriceRangeChange _ _ | Home.ClearAllFilters => true
  | _ => false
  end.

(** The state between two actions: the effect has run, so the filtered
    collection is the full one. *)
Definition settled (st : Home.State) : Prop :=
  Home.filteredSpaces st = Home.parkingSpaces st /\ Home.spacesReplaced st = false.

(** What every handler leaves for the effect to settle. *)
Definition pending (st : Home.State) : Prop :=
  Home.spacesReplaced st = true \/ Home.filteredSpaces st = Home.parkingSpaces st.

(** Two states that agree on everything except the filter settings. *)
Definition sameButFilters (st1 st2 : Home.State) : Prop :=
  st2 = Home.setFilters (Home.filters st2) st1.

(** ** The removal test of the realtime handler

    What the three updaters of the handler test before they remove, lines
    199 and 209 (243 and 253; 278 and 281), with the count the handler
    itself resolves at line 188. *)
Definition removalCondition `{rt : JsRuntime} (start end_ : option string)
    (data : JsObject) : bool :=
  (negb (String.eqb (eventStatus data) "")
   && negb (String.eqb (eventStatus data) "submitted"))
  || negb (eventOnline data)
  || (Home.windowActive start end_
      && Home.numberAtMostZero (Home.resolveAvailableSpots data)).

(** The events whose only ground for removal is a count of 0 carried in
    [available]: neither the status nor the online flag asks for the
    removal, [availableSpots] is not numeric, and [available] is the number
    0.  Line 188 resolves their count with [||], which skips the 0. *)
Definition zeroAvailableOnly `{rt : JsRuntime} (data : JsObject) : bool :=
  negb (negb (String.eqb (eventStatus data) "")
        && negb (String.eqb (eventStatus data) "submitted"))
  && eventOnline data
  && negb (is_number (get data "availableSpots"))
  && match get data "available" with
     | JNum (Fin q) => Qeq_bool q 0
     | _ => false
     end.

(** ** Auxiliary notions for the further properties *)

(** The pointer moves of one drag, in order. *)
Definition dragMoves (w : option Q) (ys : list Q) (s : HomeControls.Sheet)
    : HomeControls.Sheet :=
  fold_left (fun s y => HomeControls.onDragMove w true y s) ys s.

Definition filterDragMoves (w : option Q) (ys : list Q) (s : HomeControls.Sheet)
    : HomeControls.Sheet :=
  fold_left (fun s y => HomeControls.onFilterDragMove w true y s) ys s.

(** Calls that follow a call at time [t], each less than [wait] after the one
    before. *)
Fixpoint burst {A : Type} (wait t : Z) (cs : list (Z * A)) : Prop :=
  match cs with
  | [] => True
  | c :: rest => (t <= fst c < t + wait)%Z /\ burst wait (fst c) rest
  end.

(** Calls that follow a call at time [t], each at least [wait] after the one
    before. *)
Fixpoint spaced {A : Type} (wait t : Z) (cs : list (Z * A)) : Prop :=
  match cs with
  | [] => True
  | c :: rest => (t + wait <= fst c)%Z /\ spaced wait (fst c) rest
  end.

(** The actions after which spaces are loaded from the service. *)
Definition isLoadAction (a : Home.Action) : bool :=
  match a with
  | Home.Init _ _ _ _ | Home.GoToCurrentLocation _ _ _
  | Home.SearchByCurrentLocation _ _ _ | Home.ClearSearch _ _ _
  | Home.LocationSelect _ _ | Home.ApplyTimeFilter _ _ | Home.ClearTimeFilter _ => true
  | _ => false
  end.

(** The time window and the online-only flag a call of the service carries. *)
Definition requestWindow (r : Home.Request)
    : option string * option string * option bool :=
  match r with
  | Home.GetAllSpaces s e o => (s, e, o)
  | Home.GetNearbySpaces _ _ s e o => (s, e, o)
  end.

(** The mount effect, which runs once, before every other action. *)
Definition isMount (a : Home.Action) : bool :=
  match a with
  | Home.Init _ _ _ _ => true
  | _ => false
  end.

(** The location the mount effect settles on. *)
Definition locatedAt (geo : Home.Geolocation) : Home.Coord :=
  match geo with
  | Home.GeoPosition c => c
  | Home.GeoUnavailable | Home.GeoFailed => Home.defaultLocation
  end.

(** A listed space is approved and priced. *)
Definition presentable `{rt : JsRuntime} (s : JsObject) : Prop :=
  Home.approved s = true /\ nullish (get s "__price") = false.

(** What the listing shows after a load: approved, priced spaces, with a free
    spot when the time window of the state is active. *)
Definition wellListed `{rt : JsRuntime} (st : Home.State) : Prop :=
  Forall (fun s => presentable s
                   /\ (Home.windowActive (Home.startTime st) (Home.endTime st) = true ->
                       Home.hasSpots s = true))
    (Home.parkingSpaces st).

(** What the user does with the search overlay. *)
Inductive OverlayEvent : Type :=
  | OverlayOpenChange (isOpen : bool)
  | OverlaySearch (found : option (list SearchOverlay.Result))
  | OverlaySetQuery (q : string).

Definition overlayStep (hasSetResults : bool) (s : SearchOverlay.State)
    (e : OverlayEvent) : SearchOverlay.State :=
  match e with
  | OverlayOpenChange isOpen => SearchOverlay.onOpenChange hasSetResults isOpen s
  | OverlaySearch found => SearchOverlay.handleSearch hasSetResults found s
  | OverlaySetQuery q => SearchOverlay.setQuery q s
  end.

(** * Properties *)

(** Closed conjunctions of equations are decided conjunct by conjunct. *)
Ltac compute_each :=
  cbv zeta; repeat match goal with |- _ /\ _ => split end; vm_compute; reflexivity.

(** ** Arithmetic of the price summary *)

Section Rounding.
Local Open Scope Q_scope.

Lemma Qsgn_pos q : 0 < q -> Qsgn q = 1%Z.
Proof.
  destruct q as [n d]. unfold Qlt, Qsgn. simpl. intros Hq.
  destruct n; simpl in *; lia.
Qed.

Lemma Qsgn_zero q : q == 0 -> Qsgn q = 0%Z.
Proof.
  destruct q as [n d]. unfold Qeq, Qsgn. simpl. intros Hq.
  destruct n; simpl in *; lia.
Qed.

Lemma round2_nonneg q :
  0 <= q -> round2 q == inject_Z (Qfloor (q * 100 + (1 # 2))) / 100.
Proof.
  intros Hq. unfold round2.
  destruct (Qlt_le_dec 0 q) as [Hpos | Hle].
  - rewrite (Qsgn_pos _ Hpos). rewrite Qabs_pos by exact Hq.
    rewrite Z.mul_1_l. rewrite (Qmake_Qdiv _ 100). reflexivity.
  - assert (Hz : q == 0) by lra.
    rewrite (Qsgn_zero _ Hz). rewrite Z.mul_0_l.
    assert (Hf : Qfloor (q * 100 + (1 # 2)) = 0%Z).
    { rewrite Hz. reflexivity. }
    rewrite Hf. reflexivity.
Qed.

Lemma Qfloor_half_bound z (k : Z) :
  z < inject_Z k + (1 # 2) -> (Qfloor z <= k)%Z.
Proof.
  intros Hz. destruct (Z_le_gt_dec (Qfloor z) k) as [Hle | Hgt]; [exact Hle | exfalso].
  assert (Hk : (k + 1 <= Qfloor z)%Z) by lia.
  rewrite Zle_Qle in Hk. rewrite inject_Z_plus in Hk.
  pose proof (Qfloor_le z) as Hf. change (inject_Z 1) with 1 in Hk. lra.
Qed.

Lemma Qabs_nonneg_big x :
  0 <= x -> Qle_bool (inject_Z (10 ^ 21)) (Qabs x) = Qle_bool (inject_Z (10 ^ 21)) x.
Proof.
  intros Hx. apply eq_true_iff_eq. rewrite !Qle_bool_iff.
  rewrite (Qabs_pos x Hx). reflexivity.
Qed.

(** *** Rounding to the nearest double *)

Lemma roundHalfEven_bounds (x : Q) :
  (Qfloor x <= roundHalfEven x <= Qfloor x + 1)%Z.
Proof.
  unfold roundHalfEven. cbv zeta.
  destruct (x - inject_Z (Qfloor x) ?= 1 # 2); [destruct (Z.even _) | | ]; lia.
Qed.

Lemma roundHalfEven_comp (x y : Q) : x == y -> roundHalfEven x = roundHalfEven y.
Proof.
  intros Hxy. unfold roundHalfEven. cbv zeta.
  rewrite (Qfloor_comp x y Hxy).
  assert (Hc : (x - inject_Z (Qfloor y) ?= 1 # 2) = (y - inject_Z (Qfloor y) ?= 1 # 2)).
  { apply Qcompare_comp; [rewrite Hxy; reflexivity | reflexivity]. }
  rewrite Hc. reflexivity.
Qed.

Lemma roundHalfEven_inject (n : Z) : roundHalfEven (inject_Z n) = n.
Proof.
  unfold roundHalfEven. cbv zeta. rewrite Qfloor_Z.
  assert (Hc : (inject_Z n - inject_Z n ?= 1 # 2) = Lt).
  { apply (proj1 (Qlt_alt _ _)). lra. }
  rewrite Hc. reflexivity.
Qed.

Lemma roundHalfEven_mono (x y : Q) : x <= y -> (roundHalfEven x <= roundHalfEven y)%Z.
Proof.
  intros Hxy.
  pose proof (Qfloor_resp_le x y Hxy) as Hf.
  destruct (Z.eq_dec (Qfloor x) (Qfloor y)) as [Heq | Hne].
  - unfold roundHalfEven. cbv zeta. rewrite Heq.
    destruct (Qcompare_spec (x - inject_Z (Qfloor y)) (1 # 2)) as [Hx | Hx | Hx];
      destruct (Qcompare_spec (y - inject_Z (Qfloor y)) (1 # 2)) as [Hy | Hy | Hy];
      try destruct (Z.even (Qfloor y)); try lia; exfalso; lra.
  - pose proof (roundHalfEven_bounds x). pose proof (roundHalfEven_bounds y). lia.
Qed.


Lemma pow2_pos (s : Z) : (0 <= s)%Z -> 0 < inject_Z (2 ^ s).
Proof.
  intros Hs. change 0 with (inject_Z 0). rewrite <- Zlt_Qlt.
  apply Z.pow_pos_nonneg; lia.
Qed.

Lemma doubleShift_nonneg (t : Q) : (0 <= doubleShift t)%Z.
Proof. unfold doubleShift. lia. Qed.

Lemma doubleShift_mono (t1 t2 : Q) :
  t1 <= t2 -> (doubleShift t1 <= doubleShift t2)%Z.
Proof.
  intros Ht. unfold doubleShift.
  pose proof (Z.log2_le_mono _ _ (Qfloor_resp_le t1 t2 Ht)). lia.
Qed.

Lemma doubleShift_upper (t : Q) :
  0 <= t -> t < inject_Z (2 ^ (53 + doubleShift t)).
Proof.
  intros Ht.
  assert (Hf : (0 <= Qfloor t)%Z).
  { change 0%Z with (Qfloor 0). apply Qfloor_resp_le, Ht. }
  pose proof (Qlt_floor t) as Hlt.
  assert (Hz : (Qfloor t + 1 <= 2 ^ (53 + doubleShift t))%Z).
  { unfold doubleShift.
    destruct (Z.eq_dec (Qfloor t) 0%Z) as [-> | Hne].
    - simpl Z.log2. rewrite Z.max_l by lia.
      change (0 + 1)%Z with (2 ^ 0)%Z. apply Z.pow_le_mono_r; lia.
    - pose proof (Z.log2_spec (Qfloor t) ltac:(lia)) as [_ Hhi].
      assert (Hle : (2 ^ Z.succ (Z.log2 (Qfloor t))
                     <= 2 ^ (53 + Z.max 0 (Z.log2 (Qfloor t) - 52)))%Z).
      { apply Z.pow_le_mono_r; lia. }
      lia. }
  rewrite Zle_Qle in Hz. lra.
Qed.

Lemma doubleShift_lower (t : Q) :
  (0 < doubleShift t)%Z -> inject_Z (2 ^ (52 + doubleShift t)) <= t.
Proof.
  unfold doubleShift. intros Hs.
  assert (Hk : (52 < Z.log2 (Qfloor t))%Z) by lia.
  assert (Hpos : (0 < Qfloor t)%Z).
  { destruct (Z_lt_le_dec 0%Z (Qfloor t)) as [H | H]; [exact H | ].
    rewrite (Z.log2_nonpos _ H) in Hk. lia. }
  pose proof (Z.log2_spec (Qfloor t) Hpos) as [Hlo _].
  rewrite Z.max_r by lia.
  replace (52 + (Z.log2 (Qfloor t) - 52))%Z with (Z.log2 (Qfloor t)) by lia.
  rewrite Zle_Qle in Hlo. pose proof (Qfloor_le t). lra.
Qed.

Lemma roundUnits_comp (t t' : Q) : t == t' -> roundUnits t = roundUnits t'.
Proof.
  intros Ht. unfold roundUnits, doubleShift. cbv zeta.
  rewrite (Qfloor_comp t t' Ht).
  f_equal. apply roundHalfEven_comp. rewrite Ht. reflexivity.
Qed.

(** The significand: at most 2^53, and at least 2^52 once the shift is
    positive. *)
Lemma significand_upper (t : Q) :
  0 <= t -> (roundHalfEven (t / inject_Z (2 ^ doubleShift t)) <= 2 ^ 53)%Z.
Proof.
  intros Ht.
  pose proof (pow2_pos (doubleShift t) (doubleShift_nonneg t)) as Hp.
  rewrite <- (roundHalfEven_inject (2 ^ 53)). apply roundHalfEven_mono.
  apply Qle_shift_div_r; [exact Hp | ].
  rewrite <- inject_Z_mult, <- Z.pow_add_r by (pose proof (doubleShift_nonneg t); lia).
  apply Qlt_le_weak, doubleShift_upper, Ht.
Qed.

Lemma significand_lower (t : Q) :
  (0 < doubleShift t)%Z ->
  (2 ^ 52 <= roundHalfEven (t / inject_Z (2 ^ doubleShift t)))%Z.
Proof.
  intros Hs.
  pose proof (pow2_pos (doubleShift t) (doubleShift_nonneg t)) as Hp.
  rewrite <- (roundHalfEven_inject (2 ^ 52)) at 1. apply roundHalfEven_mono.
  apply Qle_shift_div_l; [exact Hp | ].
  rewrite <- inject_Z_mult, <- Z.pow_add_r by lia.
  apply doubleShift_lower, Hs.
Qed.

Lemma significand_nonneg (t : Q) :
  0 <= t -> (0 <= roundHalfEven (t / inject_Z (2 ^ doubleShift t)))%Z.
Proof.
  intros Ht.
  pose proof (pow2_pos (doubleShift t) (doubleShift_nonneg t)) as Hp.
  rewrite <- (roundHalfEven_inject 0%Z) at 1. apply roundHalfEven_mono.
  apply Qle_shift_div_l; [exact Hp | ]. change (inject_Z 0) with 0. lra.
Qed.

Lemma roundUnits_nonneg (t : Q) : 0 <= t -> (0 <= roundUnits t)%Z.
Proof.
  intros Ht. unfold roundUnits. cbv zeta.
  apply Z.mul_nonneg_nonneg; [apply significand_nonneg, Ht | ].
  apply Z.pow_nonneg. lia.
Qed.

Lemma roundUnits_mono (t1 t2 : Q) :
  0 <= t1 -> t1 <= t2 -> (roundUnits t1 <= roundUnits t2)%Z.
Proof.
  intros H1 H12. assert (H2 : 0 <= t2) by lra.
  pose proof (doubleShift_mono t1 t2 H12) as Hs.
  pose proof (doubleShift_nonneg t1) as Hs1.
  unfold roundUnits. cbv zeta.
  destruct (Z.eq_dec (doubleShift t1) (doubleShift t2)) as [Heq | Hne].
  - rewrite Heq. apply Z.mul_le_mono_nonneg_r; [apply Z.pow_nonneg; lia | ].
    apply roundHalfEven_mono.
    pose proof (pow2_pos (doubleShift t2) (doubleShift_nonneg t2)) as Hp.
    apply Qmult_le_compat_r; [exact H12 | ]. apply Qinv_le_0_compat. lra.
  - assert (Hlt : (doubleShift t1 < doubleShift t2)%Z) by lia.
    pose proof (significand_upper t1 H1) as Hu.
    pose proof (significand_lower t2 ltac:(lia)) as Hl.
    pose proof (significand_nonneg t1 H1) as Hn.
    apply Z.le_trans with (2 ^ 53 * 2 ^ doubleShift t1)%Z.
    + apply Z.mul_le_mono_nonneg_r; [apply Z.pow_nonneg; lia | exact Hu].
    + apply Z.le_trans with (2 ^ 52 * 2 ^ doubleShift t2)%Z.
      * rewrite <- !Z.pow_add_r by lia. apply Z.pow_le_mono_r; lia.
      * apply Z.mul_le_mono_nonneg_r; [apply Z.pow_nonneg; lia | exact Hl].
Qed.


Lemma inject_Z_mul_div (m s : Z) :
  (0 <= s)%Z -> inject_Z (m * 2 ^ s) / inject_Z (2 ^ s) == inject_Z m.
Proof.
  intros Hs. pose proof (pow2_pos s Hs) as Hp.
  rewrite inject_Z_mult. field. lra.
Qed.

(** A value of the format is its own rounding. *)
Lemma roundUnits_representable (m s : Z) :
  (0 <= s)%Z -> (0 <= m <= 2 ^ 53)%Z -> ((0 < s)%Z -> (2 ^ 52 <= m)%Z) ->
  roundUnits (inject_Z (m * 2 ^ s)) = (m * 2 ^ s)%Z.
Proof.
  intros Hs [Hm0 Hm53] Hm52.
  unfold roundUnits, doubleShift. cbv zeta. rewrite Qfloor_Z.
  destruct (Z.eq_dec m 0%Z) as [-> | Hne].
  { rewrite Z.mul_0_l. reflexivity. }
  assert (Hmpos : (0 < m)%Z) by lia.
  destruct (Z.eq_dec m (2 ^ 53)%Z) as [-> | Hne53].
  - rewrite <- Z.pow_add_r by lia. rewrite Z.log2_pow2 by lia.
    rewrite Z.max_r by lia.
    replace (53 + s - 52)%Z with (s + 1)%Z by lia.
    replace (2 ^ (53 + s))%Z with (2 ^ 52 * 2 ^ (s + 1))%Z
      by (rewrite <- Z.pow_add_r by lia; f_equal; lia).
    rewrite (roundHalfEven_comp _ _ (inject_Z_mul_div (2 ^ 52) (s + 1) ltac:(lia))).
    rewrite roundHalfEven_inject. reflexivity.
  - assert (Hlog : (Z.log2 m <= 52)%Z).
    { assert (Z.log2 m < 53)%Z by (apply Z.log2_lt_pow2; lia). lia. }
    rewrite Z.log2_mul_pow2 by lia.
    assert (Hshift : Z.max 0 (s + Z.log2 m - 52) = s).
    { destruct (Z.eq_dec s 0%Z) as [-> | Hs0]; [lia | ].
      assert (52 <= Z.log2 m)%Z by (apply Z.log2_le_pow2; [lia | apply Hm52; lia]).
      lia. }
    rewrite Hshift.
    rewrite (roundHalfEven_comp _ _ (inject_Z_mul_div m s Hs)).
    rewrite roundHalfEven_inject. reflexivity.
Qed.

Lemma roundUnits_fixed (t : Q) :
  0 <= t -> roundUnits (inject_Z (roundUnits t)) = roundUnits t.
Proof.
  intros Ht. unfold roundUnits at 2 3. cbv zeta.
  apply roundUnits_representable.
  - apply doubleShift_nonneg.
  - split; [apply significand_nonneg, Ht | apply significand_upper, Ht].
  - apply significand_lower.
Qed.


Lemma doubleScale_pos : 0 < inject_Z doubleScale.
Proof. apply (pow2_pos 1074). lia. Qed.

(** The rounding of a value that is not negative. *)
Lemma roundDouble_nonneg (x : Q) :
  0 <= x ->
  roundDouble x
  = if (2 ^ 2098 <=? roundUnits (x * inject_Z doubleScale))%Z then PosInf
    else Fin (Qred (inject_Z (roundUnits (x * inject_Z doubleScale))
                    / inject_Z doubleScale)).
Proof.
  intros Hx. unfold roundDouble. cbv zeta.
  assert (Habs : Qabs x * inject_Z doubleScale == x * inject_Z doubleScale).
  { rewrite (Qabs_pos x Hx). reflexivity. }
  rewrite (roundUnits_comp _ _ Habs).
  assert (Hle : Qle_bool 0 x = true) by (apply Qle_bool_iff; exact Hx).
  rewrite Hle.
  assert (Hsgn : (Qsgn x * roundUnits (x * inject_Z doubleScale))%Z
                 = roundUnits (x * inject_Z doubleScale)).
  { destruct (Qlt_le_dec 0 x) as [Hpos | Hzero].
    - rewrite (Qsgn_pos x Hpos). lia.
    - assert (Hz : x == 0) by lra.
      assert (Hu : x * inject_Z doubleScale == 0) by (rewrite Hz; ring).
      rewrite (roundUnits_comp _ _ Hu).
      assert (H0 : roundUnits 0 = 0%Z) by (vm_compute; reflexivity).
      rewrite H0. lia. }
  rewrite Hsgn. reflexivity.
Qed.

Lemma roundDouble_mono (x y q : Q) :
  0 <= x -> x <= y -> roundDouble y = Fin q ->
  exists p : Q, roundDouble x = Fin p /\ 0 <= p /\ p <= q.
Proof.
  intros Hx Hxy Hy. assert (Hy0 : 0 <= y) by lra.
  pose proof doubleScale_pos as Hsc.
  rewrite (roundDouble_nonneg y Hy0) in Hy. rewrite (roundDouble_nonneg x Hx).
  assert (Hu : (roundUnits (x * inject_Z doubleScale)
                <= roundUnits (y * inject_Z doubleScale))%Z).
  { apply roundUnits_mono.
    - apply Qmult_le_0_compat; lra.
    - apply Qmult_le_compat_r; lra. }
  assert (Hu0 : (0 <= roundUnits (x * inject_Z doubleScale))%Z).
  { apply roundUnits_nonneg. apply Qmult_le_0_compat; lra. }
  destruct (2 ^ 2098 <=? roundUnits (y * inject_Z doubleScale))%Z eqn:Ey; [discriminate | ].
  injection Hy as <-.
  apply Z.leb_gt in Ey.
  assert (Ex : (2 ^ 2098 <=? roundUnits (x * inject_Z doubleScale))%Z = false)
    by (apply Z.leb_gt; lia).
  rewrite Ex. eexists. split; [reflexivity | ].
  rewrite !Qred_correct. rewrite Zle_Qle in Hu, Hu0. change (inject_Z 0) with 0 in Hu0.
  split.
  - apply Qle_shift_div_l; [exact Hsc | lra].
  - apply Qmult_le_compat_r; [exact Hu | ]. apply Qinv_le_0_compat. lra.
Qed.

Lemma roundDouble_fixed (x p : Q) :
  0 <= x -> roundDouble x = Fin p -> roundDouble p = Fin p /\ 0 <= p.
Proof.
  intros Hx Hp. pose proof doubleScale_pos as Hsc.
  rewrite (roundDouble_nonneg x Hx) in Hp.
  assert (Hu0 : (0 <= roundUnits (x * inject_Z doubleScale))%Z).
  { apply roundUnits_nonneg. apply Qmult_le_0_compat; lra. }
  destruct (2 ^ 2098 <=? roundUnits (x * inject_Z doubleScale))%Z eqn:Ex; [discriminate | ].
  injection Hp as <-.
  set (u := roundUnits (x * inject_Z doubleScale)) in *.
  assert (Hp0 : 0 <= Qred (inject_Z u / inject_Z doubleScale)).
  { rewrite Qred_correct. rewrite Zle_Qle in Hu0. change (inject_Z 0) with 0 in Hu0.
    apply Qle_shift_div_l; [exact Hsc | lra]. }
  split; [ | exact Hp0].
  rewrite (roundDouble_nonneg _ Hp0).
  assert (Hunits : Qred (inject_Z u / inject_Z doubleScale) * inject_Z doubleScale
                   == inject_Z u).
  { rewrite Qred_correct. field. lra. }
  rewrite (roundUnits_comp _ _ Hunits).
  assert (Hfix : roundUnits (inject_Z u) = u).
  { unfold u. apply roundUnits_fixed. apply Qmult_le_0_compat; lra. }
  rewrite Hfix, Ex. reflexivity.
Qed.


Lemma Qsgn_nonpos q : q <= 0 -> (Qsgn q <= 0)%Z.
Proof.
  destruct q as [n d]. unfold Qle, Qsgn. simpl. intros Hq.
  destruct n; simpl in *; lia.
Qed.

(** The rounding of a value that is not positive is not positive. *)
Lemma roundDouble_nonpos (x p : Q) : x <= 0 -> roundDouble x = Fin p -> p <= 0.
Proof.
  intros Hx. unfold roundDouble. cbv zeta. pose proof doubleScale_pos as Hsc.
  destruct (_ <=? _)%Z; [destruct (Qle_bool 0 x); discriminate | ].
  intros [= <-]. rewrite Qred_correct.
  assert (Hu : (0 <= roundUnits (Qabs x * inject_Z doubleScale))%Z).
  { apply roundUnits_nonneg. apply Qmult_le_0_compat; [apply Qabs_nonneg | lra]. }
  pose proof (Qsgn_nonpos x Hx) as Hs.
  assert (Hprod : (Qsgn x * roundUnits (Qabs x * inject_Z doubleScale) <= 0)%Z) by nia.
  rewrite Zle_Qle in Hprod. change (inject_Z 0) with 0 in Hprod.
  apply Qle_shift_div_r; [exact Hsc | lra].
Qed.

Lemma roundDouble_0 : roundDouble 0 = Fin 0.
Proof. vm_compute. reflexivity. Qed.

Lemma roundDouble_1 : roundDouble 1 = Fin 1.
Proof. vm_compute. reflexivity. Qed.

Lemma roundDouble_1e21 : roundDouble (inject_Z (10 ^ 21)) = Fin (inject_Z (10 ^ 21)).
Proof. vm_compute. reflexivity. Qed.

(** *** Two decimals *)

Lemma round2_mono x y : 0 <= x -> x <= y -> 0 <= round2 x /\ round2 x <= round2 y.
Proof.
  intros Hx Hxy. assert (Hy : 0 <= y) by lra.
  rewrite (round2_nonneg x Hx), (round2_nonneg y Hy).
  assert (Hm : (Qfloor (x * 100 + (1 # 2)) <= Qfloor (y * 100 + (1 # 2)))%Z).
  { apply Qfloor_resp_le. lra. }
  assert (Hf0 : (0 <= Qfloor (x * 100 + (1 # 2)))%Z).
  { change 0%Z with (Qfloor 0). apply Qfloor_resp_le. lra. }
  rewrite Zle_Qle in Hm, Hf0. change (inject_Z 0) with 0 in Hf0. split.
  - apply Qle_shift_div_l; lra.
  - apply Qmult_le_compat_r; [exact Hm | ]. apply Qinv_le_0_compat. lra.
Qed.

Lemma round2_below x : 0 <= x -> x < inject_Z (10 ^ 21) -> round2 x <= inject_Z (10 ^ 21).
Proof.
  intros Hx Hn. rewrite (round2_nonneg x Hx).
  assert (Hf : (Qfloor (x * 100 + (1 # 2)) <= 10 ^ 23)%Z).
  { apply Qfloor_half_bound.
    change (inject_Z (10 ^ 23)) with (inject_Z (10 ^ 21) * 100). lra. }
  rewrite Zle_Qle in Hf.
  change (inject_Z (10 ^ 23)) with (inject_Z (10 ^ 21) * 100) in Hf.
  apply Qle_shift_div_r; lra.
Qed.

Lemma Qle_bool_false x y : Qle_bool x y = false -> y < x.
Proof.
  intros Hb. apply Qnot_le_lt. intros Hc. apply Qle_bool_iff in Hc. congruence.
Qed.

(** [+(x.toFixed(2))] of a finite value that is not negative is finite. *)
Lemma toFixed2_finite y :
  0 <= y -> exists q : Q, toFixed2 (Fin y) = Fin q /\ 0 <= q.
Proof.
  intros Hy. unfold toFixed2. rewrite (Qabs_nonneg_big y Hy).
  destruct (Qle_bool (inject_Z (10 ^ 21)) y) eqn:Ey; [exists y; auto | ].
  apply Qle_bool_false in Ey.
  destruct (round2_mono y y Hy ltac:(lra)) as [H0 _].
  destruct (roundDouble_mono (round2 y) (inject_Z (10 ^ 21)) _ H0
              (round2_below y Hy Ey) roundDouble_1e21) as (q & Hq & Hq0 & _).
  exists q. auto.
Qed.

Lemma toFixed2_mono x y q :
  0 <= x -> x <= y -> toFixed2 (Fin y) = Fin q ->
  exists p : Q, toFixed2 (Fin x) = Fin p /\ 0 <= p /\ p <= q.
Proof.
  intros Hx Hxy. assert (Hy : 0 <= y) by lra.
  unfold toFixed2. rewrite (Qabs_nonneg_big x Hx), (Qabs_nonneg_big y Hy).
  destruct (round2_mono x y Hx Hxy) as [Hr0 Hrm].
  destruct (Qle_bool (inject_Z (10 ^ 21)) x) eqn:Ex;
    destruct (Qle_bool (inject_Z (10 ^ 21)) y) eqn:Ey.
  - intros [= <-]. exists x. auto.
  - apply Qle_bool_iff in Ex. apply Qle_bool_false in Ey. exfalso. lra.
  - intros [= <-]. apply Qle_bool_iff in Ey. apply Qle_bool_false in Ex.
    destruct (roundDouble_mono (round2 x) (inject_Z (10 ^ 21)) _ Hr0
                (round2_below x Hx Ex) roundDouble_1e21) as (p & Hp & Hp0 & Hple).
    exists p. repeat split; [exact Hp | exact Hp0 | lra].
  - intros Hq. apply (roundDouble_mono (round2 x) (round2 y) q Hr0 Hrm Hq).
Qed.

Lemma Qsgn_comp x y : x == y -> Qsgn x = Qsgn y.
Proof.
  destruct x as [n d], y as [n' d']. unfold Qeq, Qsgn. simpl. intros Hxy.
  destruct n, n'; simpl in *; try reflexivity; lia.
Qed.

Lemma round2_comp x y : x == y -> round2 x == round2 y.
Proof.
  intros Hxy. unfold round2. rewrite (Qsgn_comp x y Hxy).
  assert (Hf : Qfloor (Qabs x * 100 + (1 # 2)) = Qfloor (Qabs y * 100 + (1 # 2))).
  { apply Qfloor_comp. rewrite Hxy. reflexivity. }
  rewrite Hf. reflexivity.
Qed.

Lemma negb_Qle_bool_iff x y : negb (Qle_bool x y) = true <-> y < x.
Proof.
  rewrite negb_true_iff. split.
  - intros Hb. apply Qnot_le_lt. intros Hc. apply Qle_bool_iff in Hc. congruence.
  - intros Hlt. destruct (Qle_bool x y) eqn:E; [ | reflexivity].
    apply Qle_bool_iff in E. lra.
Qed.

Lemma clamp_spec (d : JsNumber) :
  exists c : Q,
    (if num_isFinite d then Math_max num_zero (Math_min (Fin 100) d) else num_zero) = Fin c
    /\ 0 <= c <= 100
    /\ match d with
       | Fin q => (q < 0 -> c == 0) /\ (0 <= q <= 100 -> c == q) /\ (100 < q -> c == 100)
       | _ => c == 0
       end.
Proof.
  destruct d as [ | | | q]; simpl; try (exists 0; repeat split; lra).
  destruct (Qle_bool 100 q) eqn:E100; simpl.
  - apply Qle_bool_iff in E100. exists 100. repeat split; try lra; intros; lra.
  - assert (Hlt : q < 100) by (apply negb_Qle_bool_iff; rewrite E100; reflexivity).
    destruct (Qle_bool 0 q) eqn:E0.
    + apply Qle_bool_iff in E0. exists q. repeat split; try lra; intros; lra.
    + assert (Hneg : q < 0) by (apply negb_Qle_bool_iff; rewrite E0; reflexivity).
      exists 0. repeat split; try lra; intros; lra.
Qed.

Lemma toFixed2_small q :
  Qabs q < inject_Z (10 ^ 21) -> toFixed2 (Fin q) = roundDouble (round2 q).
Proof.
  intros Hq. unfold toFixed2.
  destruct (Qle_bool (inject_Z (10 ^ 21)) (Qabs q)) eqn:E; [ | reflexivity].
  apply Qle_bool_iff in E. exfalso. lra.
Qed.

Lemma Qsgn_neg q : q < 0 -> Qsgn q = (-1)%Z.
Proof.
  destruct q as [n d]. unfold Qlt, Qsgn. simpl. intros Hq.
  destruct n; simpl in *; lia.
Qed.

Lemma round2_neg q :
  q < 0 -> round2 q == - (inject_Z (Qfloor (- q * 100 + (1 # 2))) / 100).
Proof.
  intros Hq. unfold round2. rewrite (Qsgn_neg _ Hq).
  assert (Hf : Qfloor (Qabs q * 100 + (1 # 2)) = Qfloor (- q * 100 + (1 # 2))).
  { apply Qfloor_comp. rewrite Qabs_neg by lra. reflexivity. }
  rewrite Hf, (Qmake_Qdiv _ 100).
  replace (-1 * Qfloor (- q * 100 + (1 # 2)))%Z with (- Qfloor (- q * 100 + (1 # 2)))%Z by lia.
  rewrite inject_Z_opp. field.
Qed.

(** [round2 q] is a whole number of hundredths within half a hundredth of
    [q]. *)
Lemma round2_nearest q :
  (exists n : Z, round2 q = n # 100) /\ Qabs (round2 q - q) <= 1 # 200.
Proof.
  split; [unfold round2; eauto | ].
  apply Qabs_Qle_condition.
  destruct (Qlt_le_dec q 0) as [Hneg | Hpos].
  - rewrite (round2_neg q Hneg).
    pose proof (Qfloor_le (- q * 100 + (1 # 2))) as Hlo.
    pose proof (Qlt_floor (- q * 100 + (1 # 2))) as Hhi.
    rewrite inject_Z_plus in Hhi. change (inject_Z 1) with 1 in Hhi.
    set (f := inject_Z (Qfloor (- q * 100 + (1 # 2)))) in *.
    assert (Hdiv : f / 100 == f * (1 # 100)) by reflexivity.
    rewrite Hdiv. split; lra.
  - rewrite (round2_nonneg q Hpos).
    pose proof (Qfloor_le (q * 100 + (1 # 2))) as Hlo.
    pose proof (Qlt_floor (q * 100 + (1 # 2))) as Hhi.
    rewrite inject_Z_plus in Hhi. change (inject_Z 1) with 1 in Hhi.
    set (f := inject_Z (Qfloor (q * 100 + (1 # 2)))) in *.
    assert (Hdiv : f / 100 == f * (1 # 100)) by reflexivity.
    rewrite Hdiv. split; lra.
Qed.
End Rounding.

(** ** C7: the price summary *)

Section PriceMeta.
Local Open Scope Q_scope.

(** The base price is a double. *)
Lemma basePriceRaw_double `{rt : JsRuntime} (space : JsObject) (b : Q) :
  Home.basePriceRaw space = Fin b -> 0 <= b -> roundDouble b = Fin b.
Proof.
  unfold Home.basePriceRaw. cbv zeta.
  destruct (ToNumber _) as [ | | | q]; simpl asDouble; simpl truthy;
    try discriminate; try (intros [= <-] _; apply roundDouble_0).
  destruct (roundDouble q) as [ | | | n] eqn:Eq; simpl truthy;
    try discriminate; try (intros [= <-] _; apply roundDouble_0).
  destruct (Qeq_bool n 0) eqn:En; simpl; [intros [= <-] _; apply roundDouble_0 | ].
  intros [= <-] Hn.
  destruct (Qlt_le_dec q 0) as [Hneg | Hpos].
  - exfalso. pose proof (roundDouble_nonpos q n ltac:(lra) Eq) as Hle.
    assert (Hz : n == 0) by lra. apply Qeq_bool_iff in Hz. congruence.
  - apply (roundDouble_fixed q n Hpos Eq).
Qed.

(** C7, as amended.  For every record: the discount percentage [c] is the
    record's discount as a number, clamped to [0, 100], and 0 when that
    number is not finite.  The price summary computes in double precision:
    with [r] the double nearest to [c / 100] and [f] the double nearest to
    [1 - r], and with [b] the base price read from the record (finite,
    before display rounding), the discounted price is the double nearest to
    [b * f], printed with two decimals and read back, and the displayed base
    price is [b] printed with two decimals and read back.  The discount flag
    is set exactly when [c > 0] and the discounted price is below [b].  For
    [b >= 0] both prices are finite, the discounted price is not negative
    and it is at most the displayed base price.  (Printing with two
    decimals rounds to the nearest hundredth, half away from zero, and the
    text is read back as the nearest double; from 1e21 on [toFixed] prints
    the number itself.) *)
Theorem computePriceMeta_spec `{rt : JsRuntime} (space : JsObject) :
  let m := Home.computePriceMeta space in
  let d := asDouble (ToNumber (js_coalesce (get space "discount") (JNum num_zero))) in
  exists c r f : Q,
    discountPercent m = Fin c /\ 0 <= c <= 100
    /\ match d with
       | Fin q => (q < 0 -> c == 0) /\ (0 <= q <= 100 -> c == q) /\ (100 < q -> c == 100)
       | _ => c == 0
       end
    /\ roundDouble (c / 100) = Fin r /\ roundDouble (1 - r) = Fin f /\ 0 <= f <= 1
    /\ forall b : Q, Home.basePriceRaw space = Fin b ->
       discountedPrice m = toFixed2 (roundDouble (b * f))
       /\ basePrice m = toFixed2 (Fin b)
       /\ (hasDiscount m = true <-> 0 < c /\ num_lt (discountedPrice m) (Fin b) = true)
       /\ (0 <= b ->
           exists x p p0 : Q,
             roundDouble (b * f) = Fin x /\ 0 <= x <= b
             /\ discountedPrice m = Fin p /\ basePrice m = Fin p0
             /\ (x < inject_Z (10 ^ 21) -> roundDouble (round2 x) = Fin p)
             /\ (b < inject_Z (10 ^ 21) -> roundDouble (round2 b) = Fin p0)
             /\ 0 <= p /\ p <= p0).
Proof.
  intros m d.
  destruct (clamp_spec d) as (c & Hc & Hrange & Hcases).
  assert (Hq0 : 0 <= c / 100) by (apply Qle_shift_div_l; lra).
  assert (Hq1 : c / 100 <= 1) by (apply Qle_shift_div_r; lra).
  destruct (roundDouble_mono (c / 100) 1 1 Hq0 Hq1 roundDouble_1) as (r & Hr & Hr0 & Hr1).
  destruct (roundDouble_mono (1 - r) 1 1 ltac:(lra) ltac:(lra) roundDouble_1)
    as (f & Hf & Hf0 & Hf1).
  exists c, r, f.
  split; [exact Hc | ]. split; [exact Hrange | ]. split; [exact Hcases | ].
  split; [exact Hr | ]. split; [exact Hf | ]. split; [split; assumption | ].
  intros b Hb.
  assert (Hc' : Home.clampedDiscount space = Fin c) by exact Hc.
  assert (Hdisc : discountedPrice m = toFixed2 (roundDouble (b * f))).
  { subst m. unfold Home.computePriceMeta. rewrite Hb, Hc'.
    cbn [discountedPrice dbl_div_pos].
    change (c / inject_Z 100) with (c / 100). rewrite Hr.
    cbn [dbl_sub]. rewrite Hf. reflexivity. }
  assert (Hbase : basePrice m = toFixed2 (Fin b)).
  { subst m. unfold Home.computePriceMeta. rewrite Hb. reflexivity. }
  split; [exact Hdisc | ]. split; [exact Hbase | ].
  split.
  { assert (Hflag : hasDiscount m
                    = num_gt (Fin c) num_zero && num_lt (discountedPrice m) (Fin b)).
    { subst m. unfold Home.computePriceMeta. rewrite Hb, Hc'. reflexivity. }
    rewrite Hflag, andb_true_iff. unfold num_gt, num_lt at 1, num_zero.
    rewrite negb_Qle_bool_iff. reflexivity. }
  intros Hb0.
  pose proof (basePriceRaw_double space b Hb Hb0) as Hbd.
  assert (Hx0 : 0 <= b * f) by (apply Qmult_le_0_compat; assumption).
  assert (Hxb : b * f <= b).
  { assert (0 <= b * (1 - f)) by (apply Qmult_le_0_compat; lra). lra. }
  destruct (roundDouble_mono (b * f) b b Hx0 Hxb Hbd) as (x & Hx & Hxlo & Hxhi).
  destruct (toFixed2_finite b Hb0) as (p0 & Hp0 & _).
  destruct (toFixed2_mono x b p0 Hxlo Hxhi Hp0) as (p & Hp & Hplo & Hphi).
  exists x, p, p0.
  split; [exact Hx | ]. split; [split; assumption | ].
  rewrite Hdisc, Hbase, Hx.
  split; [exact Hp | ]. split; [exact Hp0 | ].
  split.
  { intros Hsmall. rewrite <- Hp. symmetry. apply toFixed2_small.
    rewrite Qabs_pos by exact Hxlo. exact Hsmall. }
  split.
  { intros Hsmall. rewrite <- Hp0. symmetry. apply toFixed2_small.
    rewrite Qabs_pos by exact Hb0. exact Hsmall. }
  split; assumption.
Qed.

(** C7 at the record priced 0.5 with a discount of 1.  The factor is the
    double below 0.99, the product the double below 0.495, and the
    discounted price the double nearest to 0.49, where exact arithmetic
    would give 0.50; the discount flag is set. *)
Lemma computePriceMeta_spec_witness :
  discountedPrice (Home.computePriceMeta (rt := exampleRuntime)
     {[ "price" := JNum (Fin (1 # 2)); "discount" := JNum (Fin 1) ]})
  = roundDouble (49 # 100)
  /\ basePrice (Home.computePriceMeta (rt := exampleRuntime)
       {[ "price" := JNum (Fin (1 # 2)); "discount" := JNum (Fin 1) ]}) = Fin (1 # 2)
  /\ discountPercent (Home.computePriceMeta (rt := exampleRuntime)
       {[ "price" := JNum (Fin (1 # 2)); "discount" := JNum (Fin 1) ]}) = Fin 1
  /\ hasDiscount (Home.computePriceMeta (rt := exampleRuntime)
       {[ "price" := JNum (Fin (1 # 2)); "discount" := JNum (Fin 1) ]}) = true
  /\ exists p p0 : Q,
       discountedPrice (Home.computePriceMeta (rt := exampleRuntime)
          {[ "price" := JNum (Fin (1 # 2)); "discount" := JNum (Fin 1) ]}) = Fin p
       /\ basePrice (Home.computePriceMeta (rt := exampleRuntime)
            {[ "price" := JNum (Fin (1 # 2)); "discount" := JNum (Fin 1) ]}) = Fin p0
       /\ p <= p0.
Proof.
  split; [vm_compute; reflexivity | ].
  split; [vm_compute; reflexivity | ].
  split; [vm_compute; reflexivity | ].
  split; [vm_compute; reflexivity | ].
  destruct (computePriceMeta_spec (rt := exampleRuntime)
              {[ "price" := JNum (Fin (1 # 2)); "discount" := JNum (Fin 1) ]})
    as (c & r & f & _ & _ & _ & _ & _ & _ & Hb).
  destruct (Hb (1 # 2) ltac:(vm_compute; reflexivity)) as (_ & _ & _ & Hle).
  destruct (Hle ltac:(discriminate)) as (x & p & p0 & _ & _ & Hp & Hp0 & _ & _ & _ & Hpp).
  exists p, p0. split; [exact Hp | ]. split; [exact Hp0 | exact Hpp].
Defined.

(** C7 as stated fails.  A record priced -10 with a discount of 50 has a
    discounted price of -5, above its base price of -10.  A record priced
    0.001 with a discount of 50 shows both prices as 0, yet its discount flag
    is set, because the flag compares with the unrounded base price.  A
    record priced 0.5 with a discount of 1 has the discounted price 0.49,
    where the formula of the claim, 0.5 * (1 - 1 / 100) = 0.495 rounded to
    two decimals, gives 0.50: the code computes the product in doubles. *)
Lemma computePriceMeta_counterexample :
  num_le
    (discountedPrice (Home.computePriceMeta (rt := exampleRuntime)
       {[ "price" := JNum (Fin (-10)); "discount" := JNum (Fin 50) ]}))
    (basePrice (Home.computePriceMeta (rt := exampleRuntime)
       {[ "price" := JNum (Fin (-10)); "discount" := JNum (Fin 50) ]})) = false
  /\ hasDiscount (Home.computePriceMeta (rt := exampleRuntime)
       {[ "price" := JNum (Fin (1 # 1000)); "discount" := JNum (Fin 50) ]}) = true
  /\ num_lt
    (discountedPrice (Home.computePriceMeta (rt := exampleRuntime)
       {[ "price" := JNum (Fin (1 # 1000)); "discount" := JNum (Fin 50) ]}))
    (basePrice (Home.computePriceMeta (rt := exampleRuntime)
       {[ "price" := JNum (Fin (1 # 1000)); "discount" := JNum (Fin 50) ]})) = false
  /\ discountedPrice (Home.computePriceMeta (rt := exampleRuntime)
       {[ "price" := JNum (Fin (1 # 2)); "discount" := JNum (Fin 1) ]})
     = roundDouble (49 # 100)
  /\ round2 ((1 # 2) * (1 - 1 / 100)) == 1 # 2
  /\ num_lt (roundDouble (49 # 100)) (roundDouble (round2 ((1 # 2) * (1 - 1 / 100))))
     = true.
Proof. compute_each. Qed.

End PriceMeta.

(** ** C6: the approval filter *)

Lemma approved_truthy `{rt : JsRuntime} (s : JsObject) :
  Home.approved s
  = String.eqb (toLowerCase (ToString (js_or (get s "status") (JStr "")))) "submitted"
    && truthy (get s "isOnline").
Proof.
  unfold Home.approved. destruct (get s "isOnline"); reflexivity.
Qed.

Lemma filter_sublist {A : Type} (p : A -> bool) (l : list A) :
  sublist (List.filter p l) l.
Proof.
  induction l as [ | x l IH]; simpl.
  - constructor.
  - destruct (p x); [apply sublist_skip | apply sublist_cons]; exact IH.
Qed.

Lemma filter_filter_same {A : Type} (p : A -> bool) (l : list A) :
  List.filter p (List.filter p l) = List.filter p l.
Proof.
  induction l as [ | x l IH]; simpl; [reflexivity | ].
  destruct (p x) eqn:E; simpl; [rewrite E, IH | ]; auto.
Qed.

(** C6, as amended.  A value that is not an array gives the empty list.  An
    array gives exactly its records whose status, as lowercased text, is
    ["submitted"] and whose [isOnline] property is truthy, in their original
    order; a record without [isOnline] is left out.  Filtering twice is
    filtering once, and the empty array gives the empty list. *)
Theorem onlyApproved_spec `{rt : JsRuntime} :
  (forall v : JsValue, Home.onlyApproved (Home.NotArray v) = [])
  /\ (forall l : list JsObject,
        Home.onlyApproved (Home.ArrayOf l)
        = List.filter
            (fun s =>
               String.eqb (toLowerCase (ToString (js_or (get s "status") (JStr ""))))
                          "submitted"
               && truthy (get s "isOnline")) l)
  /\ (forall l : list JsObject, sublist (Home.onlyApproved (Home.ArrayOf l)) l)
  /\ (forall (l : list JsObject) (s : JsObject),
        s !! "isOnline" = None -> s ∉ Home.onlyApproved (Home.ArrayOf l))
  /\ (forall input : Home.MaybeArray,
        Home.onlyApproved (Home.ArrayOf (Home.onlyApproved input))
        = Home.onlyApproved input)
  /\ Home.onlyApproved (Home.ArrayOf []) = [].
Proof.
  split; [reflexivity | ].
  split.
  { intros l. unfold Home.onlyApproved.
    induction l as [ | x l IH]; simpl; [reflexivity | ].
    rewrite approved_truthy, IH. reflexivity. }
  split; [intros l; apply filter_sublist | ].
  split.
  { intros l s Hs Hin. unfold Home.onlyApproved in Hin.
    apply list_elem_of_In, filter_In in Hin. destruct Hin as [_ Hok].
    unfold Home.approved, get in Hok. rewrite Hs in Hok. simpl in Hok.
    rewrite andb_false_r in Hok. discriminate. }
  split; [ | reflexivity].
  intros [v | l]; simpl; [reflexivity | apply filter_filter_same].
Qed.

(** The case of C6 about a missing [isOnline] occurs: a submitted record
    without the property is left out. *)
Lemma onlyApproved_spec_witness :
  ({[ "status" := JStr "submitted" ]} : JsObject)
  ∉ Home.onlyApproved (rt := exampleRuntime)
      (Home.ArrayOf [ {[ "status" := JStr "submitted" ]} ]).
Proof.
  refine (proj1 (proj2 (proj2 (proj2 (onlyApproved_spec (rt := exampleRuntime)))))
            [ {[ "status" := JStr "submitted" ]} ] {[ "status" := JStr "submitted" ]} _).
  vm_compute. reflexivity.
Defined.

(** C6 as stated fails: a record with status ["submitted"] and
    [isOnline: 1] is kept, though its [isOnline] is not [=== true]. *)
Lemma onlyApproved_counterexample :
  Home.onlyApproved (rt := exampleRuntime)
    (Home.ArrayOf [ {[ "status" := JStr "submitted"; "isOnline" := JNum (Fin 1) ]} ])
  = [ {[ "status" := JStr "submitted"; "isOnline" := JNum (Fin 1) ]} ]
  /\ approvedAsStated (rt := exampleRuntime)
       {[ "status" := JStr "submitted"; "isOnline" := JNum (Fin 1) ]} = false.
Proof. split; vm_compute; reflexivity. Qed.

(** ** C3: resolving the available-spot count *)

(** When [availableSpots] is a number, both handlers resolve to it. *)
Lemma resolveAvailableSpots_numeric (data : JsObject) (n : JsNumber) :
  get data "availableSpots" = JNum n ->
  Home.resolveAvailableSpots data = JNum n
  /\ ParkingDetails.resolveAvailableSpots data = JNum n.
Proof.
  intros Hn. unfold Home.resolveAvailableSpots, ParkingDetails.resolveAvailableSpots.
  rewrite Hn. split; reflexivity.
Qed.

(** When [availableSpots] is not a number and [available] is a truthy
    number, both handlers resolve to [available]. *)
Lemma resolveAvailableSpots_available (data : JsObject) (n : JsNumber) :
  is_number (get data "availableSpots") = false ->
  get data "available" = JNum n ->
  truthy (JNum n) = true ->
  Home.resolveAvailableSpots data = JNum n
  /\ ParkingDetails.resolveAvailableSpots data = JNum n.
Proof.
  intros Hs Hn Ht. unfold Home.resolveAvailableSpots, ParkingDetails.resolveAvailableSpots.
  rewrite Hs, Hn. unfold js_or, js_coalesce. rewrite Ht. split; reflexivity.
Qed.

(** C3: the code at the failing input.  For the event
    [{ parkingId: "p1", available: 0 }] the buyer map resolves the count to
    [undefined] (its [||] skips the falsy 0), while the detail screen, with
    [??], resolves it to 0; with a time window active the buyer map thus
    keeps the space [p1] that reports no free spot. *)
Theorem resolveAvailableSpots_zero_available :
  Home.resolveAvailableSpots
    {[ "parkingId" := JStr "p1"; "available" := JNum (Fin 0) ]} = JUndefined
  /\ ParkingDetails.resolveAvailableSpots
       {[ "parkingId" := JStr "p1"; "available" := JNum (Fin 0) ]} = JNum (Fin 0)
  /\ length
       (Home.parkingSpaces
          (Home.handleParkingUpdate (rt := exampleRuntime)
             (Some {[ "parkingId" := JStr "p1"; "available" := JNum (Fin 0) ]})
             (Home.mkState
                [ {[ "_id" := JStr "p1"; "availableSpots" := JNum (Fin 2) ]} ]
                [ {[ "_id" := JStr "p1"; "availableSpots" := JNum (Fin 2) ]} ]
                None None (Some "2030-01-01T10:00") (Some "2030-01-01T12:00")
                Home.initialFilters [] [] false))) = 1%nat.
Proof. vm_compute. repeat split; reflexivity. Qed.

(** ** C1, C2: the realtime reconciler of the buyer map *)

Section Reconciler.
Context `{rt : JsRuntime}.
Import Home.

Lemma findIndex_Some (p : JsObject -> bool) (l : list JsObject) (i : nat) :
  findIndex p l = Some i ->
  exists s : JsObject,
    l !! i = Some s /\ p s = true
    /\ forall (j : nat) (t : JsObject), (j < i)%nat -> l !! j = Some t -> p t = false.
Proof.
  revert i. induction l as [ | x l IH]; intros i Hf; simpl in Hf; [discriminate | ].
  destruct (p x) eqn:Ex.
  - injection Hf as <-. exists x. repeat split; [exact Ex | ]. intros j t Hj. lia.
  - destruct (findIndex p l) as [k | ] eqn:Ek; simpl in Hf; [ | discriminate].
    injection Hf as <-. destruct (IH k eq_refl) as (s & Hs & Hp & Hbefore).
    exists s. repeat split; [exact Hs | exact Hp | ].
    intros [ | j] t Hj Ht; simpl in Ht.
    + injection Ht as <-. exact Ex.
    + apply (Hbefore j t); [lia | exact Ht].
Qed.

Lemma findIndex_None (p : JsObject -> bool) (l : list JsObject) :
  findIndex p l = None -> forall s : JsObject, s ∈ l -> p s = false.
Proof.
  induction l as [ | x l IH]; intros Hf s Hin.
  - inversion Hin.
  - simpl in Hf. destruct (p x) eqn:Ex; [discriminate | ].
    destruct (findIndex p l) eqn:Ek; simpl in Hf; [discriminate | ].
    apply elem_of_cons in Hin as [-> | Hin]; [exact Ex | apply IH; auto].
Qed.

Lemma findIndex_firstMatchRemoved (p : JsObject -> bool) (l : list JsObject) :
  firstMatchRemoved p l
    (match findIndex p l with Some i => delete i l | None => l end).
Proof.
  destruct (findIndex p l) as [i | ] eqn:Ef.
  - left. destruct (findIndex_Some p l i Ef) as (s & Hs & Hp & Hbefore).
    exists i, s. repeat split; try assumption. apply delete_take_drop.
  - right. split; [apply findIndex_None; exact Ef | reflexivity].
Qed.

Lemma incomingOnline_eq (data : JsObject) :
  (if negb (is_undefined (get data "isOnline")) then truthy (get data "isOnline") else true)
  = eventOnline data.
Proof. unfold eventOnline. destruct (get data "isOnline"); reflexivity. Qed.

Lemma offline_selected (data : JsObject) :
  negb (is_undefined (get data "isOnline")) && negb (truthy (get data "isOnline"))
  = negb (eventOnline data).
Proof. unfold eventOnline. destruct (get data "isOnline"); reflexivity. Qed.

Lemma statusTest_selected (data : JsObject) :
  negb (String.eqb (eventStatus data) "")
  && negb (String.eqb (eventStatus data) "submitted") = true ->
  truthy (get data "status")
  && negb (String.eqb (toLowerCase (ToString (get data "status"))) "submitted") = true.
Proof.
  unfold eventStatus, js_or. destruct (truthy (get data "status")) eqn:Ev; simpl.
  - intros Hs. apply andb_true_iff in Hs as [_ Hs]. exact Hs.
  - intros Hs. discriminate.
Qed.

Lemma updateParkingSpaces_removal (start end_ : option string) (data : JsObject)
    (prev : list JsObject) :
  removalCondition start end_ data = true ->
  updateParkingSpaces start end_ data prev
  = match findIndex (matchesId (ToString (eventId data))) prev with
    | Some i => Some (delete i prev)
    | None => None
    end.
Proof.
  unfold removalCondition, updateParkingSpaces. cbv zeta.
  rewrite incomingOnline_eq. fold (eventStatus data).
  destruct (negb (String.eqb (eventStatus data) "")
            && negb (String.eqb (eventStatus data) "submitted")
            || negb (eventOnline data)) eqn:E1.
  - reflexivity.
  - simpl. intros ->. reflexivity.
Qed.

Lemma updateFilteredSpaces_eq (start end_ : option string) (data : JsObject)
    (prev : list JsObject) :
  updateFilteredSpaces start end_ data prev = updateParkingSpaces start end_ data prev.
Proof. reflexivity. Qed.

Lemma updateSelectedSpace_removal (start end_ : option string) (data : JsObject)
    (prev : option JsObject) :
  removalCondition start end_ data = true ->
  updateSelectedSpace start end_ data prev
  = match prev with
    | Some p => if matchesId (ToString (eventId data)) p then None else Some p
    | None => None
    end.
Proof.
  unfold removalCondition, updateSelectedSpace. cbv zeta. intros Hc.
  destruct prev as [p | ]; [ | reflexivity].
  fold (matchesId (ToString (eventId data)) p).
  destruct (matchesId (ToString (eventId data)) p); [ | reflexivity].
  rewrite offline_selected.
  apply orb_true_iff in Hc as [Hc | Hc].
  - apply orb_true_iff in Hc as [Hc | Hc].
    + rewrite (statusTest_selected data Hc). reflexivity.
    + rewrite Hc, orb_true_r. reflexivity.
  - rewrite Hc. destruct (_ || _); reflexivity.
Qed.

(** Under the handler's own test, the first entry the handler matches is
    taken out of both collections and a matching selection is cleared. *)
Lemma handleParkingUpdate_removal (st : State) (data : JsObject) :
  removalCondition (startTime st) (endTime st) data = true ->
  firstMatchRemoved (matchesId (ToString (eventId data)))
    (parkingSpaces st) (parkingSpaces (handleParkingUpdate (Some data) st))
  /\ firstMatchRemoved (matchesId (ToString (eventId data)))
       (filteredSpaces st) (filteredSpaces (handleParkingUpdate (Some data) st))
  /\ selectedSpace (handleParkingUpdate (Some data) st)
     = match selectedSpace st with
       | Some p => if matchesId (ToString (eventId data)) p then None else Some p
       | None => None
       end.
Proof.
  intros Hc. unfold handleParkingUpdate.
  rewrite updateFilteredSpaces_eq, !(updateParkingSpaces_removal _ _ _ _ Hc),
    (updateSelectedSpace_removal _ _ _ _ Hc).
  pose proof (findIndex_firstMatchRemoved (matchesId (ToString (eventId data)))
                (parkingSpaces st)) as Hfull.
  pose proof (findIndex_firstMatchRemoved (matchesId (ToString (eventId data)))
                (filteredSpaces st)) as Hfilt.
  destruct (findIndex _ (parkingSpaces st)); destruct (findIndex _ (filteredSpaces st));
    simpl; repeat split; assumption.
Qed.

(** The handler's identifiers and tests against the specification's. *)
Lemma eventId_eventIdentifier (data : JsObject) :
  ToString (eventId data) = eventIdentifier data.
Proof.
  unfold eventId, eventIdentifier, js_or.
  destruct (truthy (get data "parkingId")) eqn:Ep; [rewrite Ep; reflexivity | ].
  destruct (truthy (get data "_id")); reflexivity.
Qed.

Lemma matchesId_identifiedBy (pid : string) (s : JsObject) :
  matchesId pid s = identifiedBy pid s.
Proof.
  unfold matchesId, spaceId, identifiedBy, identifierText.
  destruct (truthy (get s "_id")).
  - destruct (get s "_id"); reflexivity.
  - destruct (get s "id"); reflexivity.
Qed.

Lemma windowActive_windowSet (start end_ : option string) :
  windowActive start end_ = windowSet start end_.
Proof.
  unfold windowActive, truthyTime, windowSet.
  destruct start as [a | ], end_ as [b | ]; try reflexivity.
  destruct (negb (String.eqb a "")); reflexivity.
Qed.

Lemma numberAtMostZero_countAtMostZero (v : JsValue) :
  numberAtMostZero v = countAtMostZero v.
Proof. destruct v as [ | | | [ | | | q] | | | ]; reflexivity. Qed.

(** Where the stated removal condition holds, the handler's test holds too,
    except for the events that carry their count of 0 in [available]. *)
Lemma removal_asStated (start end_ : option string) (data : JsObject) :
  removalConditionAsStated start end_ data = true ->
  removalCondition start end_ data = negb (zeroAvailableOnly data)
  /\ (zeroAvailableOnly data = true -> windowSet start end_ = true).
Proof.
  unfold removalConditionAsStated, removalCondition, zeroAvailableOnly.
  rewrite windowActive_windowSet,
    (numberAtMostZero_countAtMostZero (resolveAvailableSpots data)).
  unfold resolvedCountAsStated, resolveAvailableSpots, js_or.
  destruct (negb (String.eqb (eventStatus data) "")
            && negb (String.eqb (eventStatus data) "submitted")); simpl;
    [intros _; split; [reflexivity | discriminate] | ].
  destruct (eventOnline data); simpl; [ | intros _; split; [reflexivity | discriminate]].
  destruct (is_number (get data "availableSpots")) eqn:En; simpl;
    [intros ->; split; [reflexivity | discriminate] | ].
  assert (Hns : countAtMostZero (get data "availableSpots") = false).
  { destruct (get data "availableSpots"); reflexivity || discriminate. }
  destruct (get data "available") as [ | | | [ | | | q] | | | ]; simpl;
    rewrite ?andb_false_r; try discriminate.
  - intros ->. split; [reflexivity | discriminate].
  - unfold Qeq_bool, Qle_bool. simpl.
    destruct (windowSet start end_); simpl; [ | discriminate].
    intros Hq. destruct (Qnum q * 1 =? 0 * QDen q)%Z; simpl.
    + split; [exact Hns | reflexivity].
    + split; [exact Hq | discriminate].
Qed.

(** Without the handler's test, no entry leaves a collection. *)
Lemma updateParkingSpaces_kept (start end_ : option string) (data : JsObject)
    (prev : list JsObject) :
  removalCondition start end_ data = false ->
  match updateParkingSpaces start end_ data prev with
  | Some l' => (length prev <= length l')%nat
  | None => True
  end.
Proof.
  unfold removalCondition. intros Hc. apply orb_false_iff in Hc as [Hc Hw].
  unfold updateParkingSpaces. cbv zeta.
  rewrite incomingOnline_eq. fold (eventStatus data). rewrite Hc, Hw. clear Hc Hw.
  destruct (findIndex _ prev) as [i | ].
  - rewrite length_alter. lia.
  - destruct (_ || _); [exact I | ]. simpl. lia.
Qed.

Lemma updateSelectedSpace_kept (start end_ : option string) (data p : JsObject) :
  removalCondition start end_ data = false ->
  truthy (get data "status") = false \/ eventStatus data = "submitted" ->
  exists p' : JsObject, updateSelectedSpace start end_ data (Some p) = Some p'.
Proof.
  unfold removalCondition. intros Hc Hs. apply orb_false_iff in Hc as [Hc Hw].
  apply orb_false_iff in Hc as [_ Ho].
  assert (Hst : truthy (get data "status")
                && negb (String.eqb (toLowerCase (ToString (get data "status")))
                           "submitted") = false).
  { destruct Hs as [Hs | Hs]; [rewrite Hs; reflexivity | ].
    destruct (truthy (get data "status")) eqn:Et; [ | reflexivity].
    unfold eventStatus, js_or in Hs. rewrite Et in Hs. rewrite Hs. reflexivity. }
  unfold updateSelectedSpace. cbv zeta. rewrite offline_selected, Ho, Hst, Hw. simpl.
  destruct (strict_eq_string _ _); eauto.
Qed.

Lemma findIndex_ext (p q : JsObject -> bool) (l : list JsObject) :
  (forall s : JsObject, p s = q s) -> findIndex p l = findIndex q l.
Proof.
  intros Hpq. induction l as [ | x l IH]; simpl; [reflexivity | ].
  rewrite (Hpq x), IH. reflexivity.
Qed.

Lemma firstMatchRemoved_ext (p q : JsObject -> bool) (l l' : list JsObject) :
  (forall s : JsObject, p s = q s) -> firstMatchRemoved p l l' -> firstMatchRemoved q l l'.
Proof.
  intros Hpq [(i & s & Hs & Hp & Hbefore & Hl) | [Hnone Hl]].
  - left. exists i, s. rewrite <- Hpq. repeat split; try assumption.
    intros j t Hj Ht. rewrite <- Hpq. apply (Hbefore j t Hj Ht).
  - right. split; [ | exact Hl]. intros s Hs. rewrite <- Hpq. apply Hnone, Hs.
Qed.

(** Removal as the specification words it: the handler's removal with the
    specification's condition, identifiers and matching. *)
Lemma removal_stated (st : State) (data : JsObject) :
  removalConditionAsStated (startTime st) (endTime st) data = true ->
  zeroAvailableOnly data = false ->
  firstMatchRemoved (identifiedBy (eventIdentifier data))
    (parkingSpaces st) (parkingSpaces (handleParkingUpdate (Some data) st))
  /\ firstMatchRemoved (identifiedBy (eventIdentifier data))
       (filteredSpaces st) (filteredSpaces (handleParkingUpdate (Some data) st))
  /\ selectedSpace (handleParkingUpdate (Some data) st)
     = match selectedSpace st with
       | Some p => if identifiedBy (eventIdentifier data) p then None else Some p
       | None => None
       end.
Proof.
  intros Hs Hz.
  destruct (removal_asStated _ _ data Hs) as [Hc _]. rewrite Hz in Hc.
  destruct (handleParkingUpdate_removal st data Hc) as (Hfull & Hfilt & Hsel).
  rewrite <- eventId_eventIdentifier.
  split; [ | split].
  - apply (firstMatchRemoved_ext _ _ _ _ (matchesId_identifiedBy _) Hfull).
  - apply (firstMatchRemoved_ext _ _ _ _ (matchesId_identifiedBy _) Hfilt).
  - rewrite Hsel. destruct (selectedSpace st) as [p | ]; [ | reflexivity].
    rewrite matchesId_identifiedBy. reflexivity.
Qed.

(** C1.  Where the removal condition of the specification holds (a
    non-empty status other than ["submitted"], or an online flag that is
    false, the flag being true when absent, or a time window active with a
    resolved count, [availableSpots] when numeric and [available]
    otherwise, that is a number at most 0), the handler takes the first
    entry matched by stringified identifier out of the full and out of the
    filtered collection, leaves a collection without such an entry as it
    is, and sets the selected space to null when it has that identifier,
    with one exception.  For an event whose only ground for removal is a
    count of 0 carried in [available], the condition holds, the time window
    is active, and yet no entry leaves either collection and a selected
    space stays selected (for an event without status, or with the status
    ["submitted"]): line 188 resolves the count with [||] and loses the
    0. *)
Theorem handleParkingUpdate_removes (st : State) (data : JsObject) :
  removalConditionAsStated (startTime st) (endTime st) data = true ->
  (zeroAvailableOnly data = false ->
   firstMatchRemoved (identifiedBy (eventIdentifier data))
     (parkingSpaces st) (parkingSpaces (handleParkingUpdate (Some data) st))
   /\ firstMatchRemoved (identifiedBy (eventIdentifier data))
        (filteredSpaces st) (filteredSpaces (handleParkingUpdate (Some data) st))
   /\ selectedSpace (handleParkingUpdate (Some data) st)
      = match selectedSpace st with
        | Some p => if identifiedBy (eventIdentifier data) p then None else Some p
        | None => None
        end)
  /\ (zeroAvailableOnly data = true ->
      windowSet (startTime st) (endTime st) = true
      /\ (length (parkingSpaces st)
          <= length (parkingSpaces (handleParkingUpdate (Some data) st)))%nat
      /\ (length (filteredSpaces st)
          <= length (filteredSpaces (handleParkingUpdate (Some data) st)))%nat
      /\ (truthy (get data "status") = false \/ eventStatus data = "submitted" ->
          forall p : JsObject,
            selectedSpace st = Some p ->
            exists p' : JsObject,
              selectedSpace (handleParkingUpdate (Some data) st) = Some p')).
Proof.
  intros Hs. split; [apply removal_stated; exact Hs | ].
  intros Hz. destruct (removal_asStated _ _ data Hs) as [Hc Hw].
  rewrite Hz in Hc. simpl in Hc.
  split; [apply Hw; exact Hz | ].
  pose proof (updateParkingSpaces_kept _ _ data (parkingSpaces st) Hc) as Hfull.
  pose proof (updateParkingSpaces_kept _ _ data (filteredSpaces st) Hc) as Hfilt.
  unfold handleParkingUpdate. rewrite updateFilteredSpaces_eq.
  destruct (updateParkingSpaces _ _ data (parkingSpaces st));
    destruct (updateParkingSpaces _ _ data (filteredSpaces st)); simpl;
    (split; [lia | split; [lia | ]]);
    intros Hst p Hp; rewrite Hp; apply updateSelectedSpace_kept; assumption.
Qed.

Lemma findIndex_exists (p : JsObject -> bool) (l : list JsObject) :
  (exists s : JsObject, s ∈ l /\ p s = true) -> exists i : nat, findIndex p l = Some i.
Proof.
  intros (s & Hin & Hp). destruct (findIndex p l) as [i | ] eqn:Ef; [eauto | ].
  rewrite (findIndex_None p l Ef s Hin) in Hp. discriminate.
Qed.

Lemma updateParkingSpaces_merge (start end_ : option string) (data : JsObject)
    (n : JsNumber) (prev : list JsObject) (i : nat) :
  data !! "status" = None ->
  data !! "isOnline" = None ->
  data !! "availableSpots" = Some (JNum n) ->
  windowActive start end_ && num_le n num_zero = false ->
  findIndex (matchesId (ToString (eventId data))) prev = Some i ->
  updateParkingSpaces start end_ data prev
  = Some (alter (fun entry => {[ "availableSpots" := JNum n ]} ∪ (data ∪ entry)) i prev).
Proof.
  intros Hs Ho Hn Hw Hi. unfold updateParkingSpaces, resolveAvailableSpots, get.
  rewrite Hs, Ho, Hn, Hi. simpl. rewrite Hw. reflexivity.
Qed.

Lemma alter_firstMatchMerged (p : JsObject -> bool) (data : JsObject) (n : JsNumber)
    (l : list JsObject) (i : nat) :
  data !! "availableSpots" = Some (JNum n) ->
  findIndex p l = Some i ->
  firstMatchMerged p data n l
    (alter (fun entry => {[ "availableSpots" := JNum n ]} ∪ (data ∪ entry)) i l).
Proof.
  intros Hn Hi. destruct (findIndex_Some p l i Hi) as (e & He & Hp & Hbefore).
  split; [apply length_alter | ].
  exists i, e, ({[ "availableSpots" := JNum n ]} ∪ (data ∪ e)).
  split; [exact He | ]. split; [exact Hp | ]. split; [exact Hbefore | ].
  split; [rewrite list_lookup_alter_eq, He; reflexivity | ].
  split; [apply lookup_union_Some_l, lookup_singleton_eq | ].
  split; [ | split].
  - intros k v Hk. destruct (decide (k = "availableSpots")) as [-> | Hne].
    + rewrite Hn in Hk. injection Hk as <-.
      apply lookup_union_Some_l, lookup_singleton_eq.
    + rewrite lookup_union_r by (apply lookup_singleton_ne; congruence).
      apply lookup_union_Some_l. exact Hk.
  - intros k Hk. assert (Hne : k <> "availableSpots") by congruence.
    rewrite lookup_union_r by (apply lookup_singleton_ne; congruence).
    apply lookup_union_r. exact Hk.
  - intros j Hj. apply list_lookup_alter_ne. congruence.
Qed.

(** C2, as amended.  For every event with no [status] and no [isOnline]
    property and a numeric [availableSpots] [n], unless a time window is
    active and [n <= 0]: when the full and the filtered collection each hold
    an entry with the event's identifier, the first such entry of each gets
    [availableSpots = n] and every property of the event, keeps its other
    properties, and the collections keep their length and other entries. *)
Theorem handleParkingUpdate_merges (st : State) (data : JsObject) (n : JsNumber) :
  data !! "status" = None ->
  data !! "isOnline" = None ->
  data !! "availableSpots" = Some (JNum n) ->
  windowActive (startTime st) (endTime st) && num_le n num_zero = false ->
  (exists s : JsObject,
      s ∈ parkingSpaces st /\ matchesId (ToString (eventId data)) s = true) ->
  (exists s : JsObject,
      s ∈ filteredSpaces st /\ matchesId (ToString (eventId data)) s = true) ->
  firstMatchMerged (matchesId (ToString (eventId data))) data n
    (parkingSpaces st) (parkingSpaces (handleParkingUpdate (Some data) st))
  /\ firstMatchMerged (matchesId (ToString (eventId data))) data n
       (filteredSpaces st) (filteredSpaces (handleParkingUpdate (Some data) st)).
Proof.
  intros Hs Ho Hn Hw Hfull Hfilt.
  apply findIndex_exists in Hfull as [i Hi]. apply findIndex_exists in Hfilt as [j Hj].
  unfold handleParkingUpdate.
  rewrite updateFilteredSpaces_eq.
  rewrite (updateParkingSpaces_merge _ _ _ n _ i Hs Ho Hn Hw Hi).
  rewrite (updateParkingSpaces_merge _ _ _ n _ j Hs Ho Hn Hw Hj).
  simpl. split; apply alter_firstMatchMerged; assumption.
Qed.

End Reconciler.

(** C1 at concrete events, with a time window active, two spaces listed
    and the first of them selected.  An event reporting [availableSpots: 0]
    for the first space takes it out of both collections and clears the
    selection; so does an event with the status ["rejected"].  The event
    [{ parkingId: "a", available: 0 }] meets the removal condition as well,
    and the space stays listed and selected, merged with the event. *)
Lemma handleParkingUpdate_removes_witness :
  firstMatchRemoved (identifiedBy (rt := exampleRuntime) "a")
    [ {[ "_id" := JStr "a"; "availableSpots" := JNum (Fin 2) ]};
      {[ "_id" := JStr "b"; "availableSpots" := JNum (Fin 5) ]} ]
    (Home.parkingSpaces
       (Home.handleParkingUpdate (rt := exampleRuntime)
          (Some {[ "parkingId" := JStr "a"; "availableSpots" := JNum (Fin 0) ]})
          (Home.mkState
             [ {[ "_id" := JStr "a"; "availableSpots" := JNum (Fin 2) ]};
               {[ "_id" := JStr "b"; "availableSpots" := JNum (Fin 5) ]} ]
             [ {[ "_id" := JStr "a"; "availableSpots" := JNum (Fin 2) ]};
               {[ "_id" := JStr "b"; "availableSpots" := JNum (Fin 5) ]} ]
             (Some {[ "_id" := JStr "a"; "availableSpots" := JNum (Fin 2) ]})
             None (Some "2030-01-01T10:00") (Some "2030-01-01T12:00")
             Home.initialFilters [] [] false)))
  /\ (let st :=
        Home.mkState
          [ {[ "_id" := JStr "a"; "availableSpots" := JNum (Fin 2) ]};
            {[ "_id" := JStr "b"; "availableSpots" := JNum (Fin 5) ]} ]
          [ {[ "_id" := JStr "a"; "availableSpots" := JNum (Fin 2) ]};
            {[ "_id" := JStr "b"; "availableSpots" := JNum (Fin 5) ]} ]
          (Some {[ "_id" := JStr "a"; "availableSpots" := JNum (Fin 2) ]})
          None (Some "2030-01-01T10:00") (Some "2030-01-01T12:00")
          Home.initialFilters [] [] false in
      let byCount :=
        Home.handleParkingUpdate (rt := exampleRuntime)
          (Some {[ "parkingId" := JStr "a"; "availableSpots" := JNum (Fin 0) ]}) st in
      let byStatus :=
        Home.handleParkingUpdate (rt := exampleRuntime)
          (Some {[ "parkingId" := JStr "a"; "status" := JStr "rejected" ]}) st in
      let byAvailable :=
        Home.handleParkingUpdate (rt := exampleRuntime)
          (Some {[ "parkingId" := JStr "a"; "available" := JNum (Fin 0) ]}) st in
      Home.parkingSpaces byCount
      = [ {[ "_id" := JStr "b"; "availableSpots" := JNum (Fin 5) ]} ]
      /\ Home.filteredSpaces byCount
         = [ {[ "_id" := JStr "b"; "availableSpots" := JNum (Fin 5) ]} ]
      /\ Home.selectedSpace byCount = None
      /\ Home.parkingSpaces byStatus
         = [ {[ "_id" := JStr "b"; "availableSpots" := JNum (Fin 5) ]} ]
      /\ Home.filteredSpaces byStatus
         = [ {[ "_id" := JStr "b"; "availableSpots" := JNum (Fin 5) ]} ]
      /\ Home.selectedSpace byStatus = None
      /\ removalConditionAsStated (rt := exampleRuntime)
           (Some "2030-01-01T10:00") (Some "2030-01-01T12:00")
           {[ "parkingId" := JStr "a"; "available" := JNum (Fin 0) ]} = true
      /\ Home.parkingSpaces byAvailable
         = [ {[ "_id" := JStr "a"; "availableSpots" := JNum (Fin 2);
                "parkingId" := JStr "a"; "available" := JNum (Fin 0) ]};
             {[ "_id" := JStr "b"; "availableSpots" := JNum (Fin 5) ]} ]
      /\ Home.filteredSpaces byAvailable
         = [ {[ "_id" := JStr "a"; "availableSpots" := JNum (Fin 2);
                "parkingId" := JStr "a"; "available" := JNum (Fin 0) ]};
             {[ "_id" := JStr "b"; "availableSpots" := JNum (Fin 5) ]} ]
      /\ Home.selectedSpace byAvailable
         = Some {[ "_id" := JStr "a"; "availableSpots" := JNum (Fin 2);
                   "parkingId" := JStr "a"; "available" := JNum (Fin 0) ]}).
Proof.
  split.
  - refine (proj1 (proj1 (handleParkingUpdate_removes (rt := exampleRuntime)
              (Home.mkState
                 [ {[ "_id" := JStr "a"; "availableSpots" := JNum (Fin 2) ]};
                   {[ "_id" := JStr "b"; "availableSpots" := JNum (Fin 5) ]} ]
                 [ {[ "_id" := JStr "a"; "availableSpots" := JNum (Fin 2) ]};
                   {[ "_id" := JStr "b"; "availableSpots" := JNum (Fin 5) ]} ]
                 (Some {[ "_id" := JStr "a"; "availableSpots" := JNum (Fin 2) ]})
                 None (Some "2030-01-01T10:00") (Some "2030-01-01T12:00")
                 Home.initialFilters [] [] false)
              {[ "parkingId" := JStr "a"; "availableSpots" := JNum (Fin 0) ]} _) _)).
    + vm_compute. reflexivity.
    + vm_compute. reflexivity.
  - compute_each.
Defined.

(** The hypotheses of C2 are met by a count update for a listed space. *)
Lemma handleParkingUpdate_merges_witness :
  firstMatchMerged (Home.matchesId (rt := exampleRuntime) "a")
    {[ "_id" := JStr "a"; "availableSpots" := JNum (Fin 4) ]} (Fin 4)
    [ {[ "_id" := JStr "a"; "title" := JStr "Lot A"; "availableSpots" := JNum (Fin 7) ]} ]
    (Home.parkingSpaces
       (Home.handleParkingUpdate (rt := exampleRuntime)
          (Some {[ "_id" := JStr "a"; "availableSpots" := JNum (Fin 4) ]})
          (Home.mkState
             [ {[ "_id" := JStr "a"; "title" := JStr "Lot A"; "availableSpots" := JNum (Fin 7) ]} ]
             [ {[ "_id" := JStr "a"; "title" := JStr "Lot A"; "availableSpots" := JNum (Fin 7) ]} ]
             None None None None Home.initialFilters [] [] false))).
Proof.
  refine (proj1 (handleParkingUpdate_merges (rt := exampleRuntime)
           (Home.mkState
              [ {[ "_id" := JStr "a"; "title" := JStr "Lot A"; "availableSpots" := JNum (Fin 7) ]} ]
              [ {[ "_id" := JStr "a"; "title" := JStr "Lot A"; "availableSpots" := JNum (Fin 7) ]} ]
              None None None None Home.initialFilters [] [] false)
           {[ "_id" := JStr "a"; "availableSpots" := JNum (Fin 4) ]} (Fin 4) _ _ _ _ _ _)).
  - vm_compute. reflexivity.
  - vm_compute. reflexivity.
  - vm_compute. reflexivity.
  - vm_compute. reflexivity.
  - exists {[ "_id" := JStr "a"; "title" := JStr "Lot A"; "availableSpots" := JNum (Fin 7) ]}.
    split; [apply list_elem_of_here | vm_compute; reflexivity].
  - exists {[ "_id" := JStr "a"; "title" := JStr "Lot A"; "availableSpots" := JNum (Fin 7) ]}.
    split; [apply list_elem_of_here | vm_compute; reflexivity].
Defined.

(** C2 as stated fails: with a time window active, an event with no status,
    no online flag and [availableSpots: 0] for a listed space removes the
    entry, so the number of entries changes. *)
Lemma handleParkingUpdate_merges_counterexample :
  ({[ "_id" := JStr "a"; "availableSpots" := JNum (Fin 0) ]} : JsObject) !! "status" = None
  /\ ({[ "_id" := JStr "a"; "availableSpots" := JNum (Fin 0) ]} : JsObject) !! "isOnline" = None
  /\ Home.parkingSpaces
       (Home.handleParkingUpdate (rt := exampleRuntime)
          (Some {[ "_id" := JStr "a"; "availableSpots" := JNum (Fin 0) ]})
          (Home.mkState
             [ {[ "_id" := JStr "a"; "availableSpots" := JNum (Fin 3) ]} ]
             [ {[ "_id" := JStr "a"; "availableSpots" := JNum (Fin 3) ]} ]
             None None (Some "2030-01-01T10:00") (Some "2030-01-01T12:00")
             Home.initialFilters [] [] false)) = []
  /\ Home.filteredSpaces
       (Home.handleParkingUpdate (rt := exampleRuntime)
          (Some {[ "_id" := JStr "a"; "availableSpots" := JNum (Fin 0) ]})
          (Home.mkState
             [ {[ "_id" := JStr "a"; "availableSpots" := JNum (Fin 3) ]} ]
             [ {[ "_id" := JStr "a"; "availableSpots" := JNum (Fin 3) ]} ]
             None None (Some "2030-01-01T10:00") (Some "2030-01-01T12:00")
             Home.initialFilters [] [] false)) = [].
Proof. vm_compute. repeat split; reflexivity. Qed.


(** ** C10, C4: the detail screen's handler, and dropped payloads *)

Section Details.
Context `{rt : JsRuntime}.




Lemma displayedId_ToString (space : JsObject) :
  ToString (ParkingDetails.displayedId space) = ToString (get space "_id").
Proof.
  unfold ParkingDetails.displayedId.
  destruct (truthy (get space "_id") && is_object (get space "_id")); reflexivity.
Qed.

Lemma details_unchanged_or_patched (data : option JsObject) (space : JsObject) :
  ParkingDetails.handleParkingUpdate data space = space
  \/ exists (d : JsObject) (n : JsNumber),
       data = Some d
       /\ truthy (Home.eventId d) = true
       /\ ParkingDetails.resolveAvailableSpots d = JNum n
       /\ ToString (Home.eventId d) = ToString (get space "_id")
       /\ ParkingDetails.handleParkingUpdate data space
          = <[ "availableSpots" := JNum n ]> space.
Proof.
  destruct data as [d | ]; [ | left; reflexivity].
  unfold ParkingDetails.handleParkingUpdate. cbv zeta.
  destruct (truthy (Home.eventId d)) eqn:Eid; simpl; [ | left; reflexivity].
  destruct (ParkingDetails.resolveAvailableSpots d) as [ | | | n | | | ] eqn:Eav;
    simpl; try (left; reflexivity).
  rewrite displayedId_ToString.
  destruct (String.eqb _ _) eqn:Eeq; [ | left; reflexivity].
  right. exists d, n. apply String.eqb_eq in Eeq. auto.
Qed.

Lemma details_dropped (space data : JsObject) :
  truthy (Home.eventId data) = false
  \/ is_number (ParkingDetails.resolveAvailableSpots data) = false
  \/ ToString (Home.eventId data) <> ToString (get space "_id") ->
  ParkingDetails.handleParkingUpdate (Some data) space = space.
Proof.
  intros Hcase. unfold ParkingDetails.handleParkingUpdate. cbv zeta.
  destruct Hcase as [Hid | [Hn | Hne]].
  - rewrite Hid. reflexivity.
  - rewrite Hn, orb_true_r. reflexivity.
  - rewrite displayedId_ToString.
    destruct (negb _ || negb _); [reflexivity | ].
    destruct (String.eqb _ _) eqn:Eeq; [ | reflexivity].
    apply String.eqb_eq in Eeq. contradiction.
Qed.

(** C10.  The detail screen's handler changes at most the [availableSpots]
    property of the displayed space.  When the event's identifier is truthy,
    its text equals the text of the space's [_id], and the resolved spot
    count is a number [n], the space becomes the same record with
    [availableSpots = n].  When the identifier is falsy, or the resolved
    count is not a number, or the two texts differ, and also for a falsy
    payload, the space is unchanged; whatever the event's status or online
    flag, the space is never removed. *)
Theorem details_handleParkingUpdate_frame (space : JsObject) :
  (forall (data : option JsObject) (k : string),
      k <> "availableSpots" ->
      ParkingDetails.handleParkingUpdate data space !! k = space !! k)
  /\ (forall (data : JsObject) (n : JsNumber),
        truthy (Home.eventId data) = true ->
        ParkingDetails.resolveAvailableSpots data = JNum n ->
        ToString (Home.eventId data) = ToString (get space "_id") ->
        ParkingDetails.handleParkingUpdate (Some data) space
        = <[ "availableSpots" := JNum n ]> space
        /\ ParkingDetails.handleParkingUpdate (Some data) space !! "availableSpots"
           = Some (JNum n))
  /\ (forall data : JsObject,
        truthy (Home.eventId data) = false
        \/ is_number (ParkingDetails.resolveAvailableSpots data) = false
        \/ ToString (Home.eventId data) <> ToString (get space "_id") ->
        ParkingDetails.handleParkingUpdate (Some data) space = space)
  /\ ParkingDetails.handleParkingUpdate None space = space.
Proof.
  split.
  { intros data k Hk.
    destruct (details_unchanged_or_patched data space)
      as [-> | (d & n & _ & _ & _ & _ & ->)]; [reflexivity | ].
    apply lookup_insert_ne. congruence. }
  split.
  { intros data n Hid Hn Heq.
    assert (Hres : ParkingDetails.handleParkingUpdate (Some data) space
                   = <[ "availableSpots" := JNum n ]> space).
    { unfold ParkingDetails.handleParkingUpdate. cbv zeta.
      rewrite Hid, Hn, displayedId_ToString, Heq, String.eqb_refl. reflexivity. }
    split; [exact Hres | ]. rewrite Hres. apply lookup_insert_eq. }
  split; [ | reflexivity].
  intros data Hcase. apply details_dropped. exact Hcase.
Qed.

(** The handler of realtime events itself shows no notification, calls no
    service, and leaves the time window, the location and the filter
    settings of the buyer map alone. *)
Lemma handleParkingUpdate_silent (data : option JsObject) (st : Home.State) :
  Home.toasts (Home.handleParkingUpdate data st) = Home.toasts st
  /\ Home.requests (Home.handleParkingUpdate data st) = Home.requests st
  /\ Home.startTime (Home.handleParkingUpdate data st) = Home.startTime st
  /\ Home.endTime (Home.handleParkingUpdate data st) = Home.endTime st
  /\ Home.filters (Home.handleParkingUpdate data st) = Home.filters st
  /\ Home.currentLocation (Home.handleParkingUpdate data st) = Home.currentLocation st.
Proof.
  destruct data as [d | ]; simpl; [ | repeat split; reflexivity].
  destruct (Home.updateParkingSpaces _ _ d _); destruct (Home.updateFilteredSpaces _ _ d _);
    repeat split; reflexivity.
Qed.


End Details.

(** The cases of C10 occur: a count update for the displayed space, whose
    identifier is a boxed object, rewrites [availableSpots] only. *)
Lemma details_handleParkingUpdate_frame_witness :
  ParkingDetails.handleParkingUpdate (rt := exampleRuntime)
    (Some {[ "parkingId" := JStr "64ab"; "availableSpots" := JNum (Fin 3);
             "status" := JStr "rejected" ]})
    {[ "_id" := JBoxed "64ab"; "title" := JStr "Lot A"; "availableSpots" := JNum (Fin 7) ]}
  = <[ "availableSpots" := JNum (Fin 3) ]>
      {[ "_id" := JBoxed "64ab"; "title" := JStr "Lot A"; "availableSpots" := JNum (Fin 7) ]}.
Proof.
  refine (proj1 (proj1 (proj2 (details_handleParkingUpdate_frame (rt := exampleRuntime)
            {[ "_id" := JBoxed "64ab"; "title" := JStr "Lot A";
               "availableSpots" := JNum (Fin 7) ]}))
            {[ "parkingId" := JStr "64ab"; "availableSpots" := JNum (Fin 3);
               "status" := JStr "rejected" ]} (Fin 3) _ _ _)).
  - vm_compute. reflexivity.
  - vm_compute. reflexivity.
  - vm_compute. reflexivity.
Defined.



(** ** C8: validation of the time window *)

Section TimeWindow.
Context `{rt : JsRuntime}.

Lemma num_lt_inject_Z (a b : Z) :
  num_lt (Fin (inject_Z a)) (Fin (inject_Z b)) = (a <? b)%Z.
Proof.
  unfold num_lt. apply eq_true_iff_eq.
  rewrite negb_Qle_bool_iff, Z.ltb_lt, <- Zlt_Qlt. reflexivity.
Qed.

Lemma num_le_inject_Z (a b : Z) :
  num_le (Fin (inject_Z a)) (Fin (inject_Z b)) = (a <=? b)%Z.
Proof.
  unfold num_le. apply eq_true_iff_eq.
  rewrite Qle_bool_iff, Z.leb_le, <- Zle_Qle. reflexivity.
Qed.

Lemma diffMinutes_lt_30 (a b : Z) :
  num_lt (num_div_pos (num_sub (Fin (inject_Z b)) (Fin (inject_Z a))) 60000) (Fin 30)
  = (b - a <? 1800000)%Z.
Proof.
  unfold num_lt, num_div_pos, num_sub. apply eq_true_iff_eq.
  rewrite negb_Qle_bool_iff, Z.ltb_lt, !Qred_correct.
  rewrite Zlt_Qlt. unfold Z.sub. rewrite inject_Z_plus, inject_Z_opp.
  change (inject_Z 1800000) with (30 * inject_Z 60000)%Q.
  split; intros Hlt.
  - apply (Qmult_lt_r _ _ (inject_Z 60000)) in Hlt; [ | reflexivity].
    rewrite Qmult_comm, Qmult_div_r in Hlt by discriminate. exact Hlt.
  - apply Qlt_shift_div_r; [reflexivity | exact Hlt].
Qed.

Lemma validateTimeSelection_cases (now : Z) (start end_ : string) (a b : Z)
    (st : Home.State) :
  DateParse start = Some a ->
  DateParse end_ = Some b ->
  Home.validateTimeSelection now start end_ st
  = if (a <? now)%Z then (false, Home.toast Home.TError Home.msgPastStart st)
    else if (b <=? a)%Z then (false, Home.toast Home.TError Home.msgEndAfterStart st)
    else if (b - a <? 1800000)%Z
         then (false, Home.toast Home.TError Home.msgMinDuration st)
         else (true, st).
Proof.
  intros Ha Hb. unfold Home.validateTimeSelection. rewrite Ha, Hb. simpl Home.timeValue.
  cbv zeta. rewrite num_lt_inject_Z, num_le_inject_Z, diffMinutes_lt_30. reflexivity.
Qed.

(** A failed validation ends the [Apply Time Filter] handler at once. *)
Lemma applyTimeFilter_invalid (now : Z) (resp : Home.Response) (start end_ : string)
    (st : Home.State) :
  Home.startTime st = Some start ->
  Home.endTime st = Some end_ ->
  start <> "" -> end_ <> "" ->
  fst (Home.validateTimeSelection now start end_ st) = false ->
  Home.applyTimeFilter now resp st = snd (Home.validateTimeSelection now start end_ st).
Proof.
  intros Hs He Hns Hne Hv. unfold Home.applyTimeFilter. rewrite Hs, He.
  unfold Home.windowActive, Home.truthyTime.
  apply String.eqb_neq in Hns, Hne. rewrite Hns, Hne. simpl.
  destruct (Home.validateTimeSelection now start end_ st) as [[ | ] st']; simpl in *;
    [discriminate | reflexivity].
Qed.

(** C8.  For a start and an end that parse to the times [a] and [b]
    (milliseconds), validation at time [now] fails with the past-start
    message when [a < now]; otherwise with the end-after-start message when
    [b <= a]; otherwise with the minimum-duration message when
    [b - a] is under 30 minutes; otherwise it succeeds and notifies
    nothing.  The three messages are distinct.  When the validation of the
    chosen window fails, the [Apply Time Filter] handler stops there: it
    issues no service call and leaves the space collections as they are.  In
    particular a start one hour before [now] with an end one hour after it
    fails with the past-start message, and a start not before [now] with an
    end ten minutes later fails with the minimum-duration message. *)
Theorem validateTimeSelection_order (now : Z) (start end_ : string) (a b : Z)
    (st : Home.State) :
  DateParse start = Some a ->
  DateParse end_ = Some b ->
  ((a < now)%Z ->
     Home.validateTimeSelection now start end_ st
     = (false, Home.toast Home.TError Home.msgPastStart st))
  /\ ((now <= a)%Z -> (b <= a)%Z ->
       Home.validateTimeSelection now start end_ st
       = (false, Home.toast Home.TError Home.msgEndAfterStart st))
  /\ ((now <= a)%Z -> (a < b)%Z -> (b - a < 30 * 60000)%Z ->
       Home.validateTimeSelection now start end_ st
       = (false, Home.toast Home.TError Home.msgMinDuration st))
  /\ ((now <= a)%Z -> (30 * 60000 <= b - a)%Z ->
       Home.validateTimeSelection now start end_ st = (true, st))
  /\ (Home.msgPastStart <> Home.msgEndAfterStart
      /\ Home.msgPastStart <> Home.msgMinDuration
      /\ Home.msgEndAfterStart <> Home.msgMinDuration)
  /\ (forall resp : Home.Response,
        Home.startTime st = Some start -> Home.endTime st = Some end_ ->
        start <> "" -> end_ <> "" ->
        fst (Home.validateTimeSelection now start end_ st) = false ->
        Home.requests (Home.applyTimeFilter now resp st) = Home.requests st
        /\ Home.parkingSpaces (Home.applyTimeFilter now resp st) = Home.parkingSpaces st
        /\ Home.filteredSpaces (Home.applyTimeFilter now resp st) = Home.filteredSpaces st)
  /\ ((a = now - 3600000)%Z -> (b = now + 3600000)%Z ->
       Home.validateTimeSelection now start end_ st
       = (false, Home.toast Home.TError Home.msgPastStart st))
  /\ ((now <= a)%Z -> (b = a + 600000)%Z ->
       Home.validateTimeSelection now start end_ st
       = (false, Home.toast Home.TError Home.msgMinDuration st)).
Proof.
  intros Ha Hb. rewrite (validateTimeSelection_cases now start end_ a b st Ha Hb).
  repeat apply conj.
  - intros Hlt. apply Z.ltb_lt in Hlt. rewrite Hlt. reflexivity.
  - intros Hnow Hle. apply Z.ltb_ge in Hnow. apply Z.leb_le in Hle.
    rewrite Hnow, Hle. reflexivity.
  - intros Hnow Hab Hd. change (30 * 60000)%Z with 1800000%Z in Hd.
    apply Z.ltb_ge in Hnow. apply Z.leb_gt in Hab.
    apply Z.ltb_lt in Hd. rewrite Hnow, Hab, Hd. reflexivity.
  - intros Hnow Hd. change (30 * 60000)%Z with 1800000%Z in Hd.
    assert (Hab : (a < b)%Z) by lia.
    apply Z.ltb_ge in Hnow, Hd. apply Z.leb_gt in Hab.
    rewrite Hnow, Hab, Hd. reflexivity.
  - discriminate.
  - discriminate.
  - discriminate.
  - intros resp Hs He Hns Hne Hv.
    rewrite (applyTimeFilter_invalid now resp start end_ st Hs He Hns Hne)
      by (rewrite (validateTimeSelection_cases now start end_ a b st Ha Hb); exact Hv).
    rewrite (validateTimeSelection_cases now start end_ a b st Ha Hb).
    destruct (a <? now)%Z; [repeat split; reflexivity | ].
    destruct (b <=? a)%Z; [repeat split; reflexivity | ].
    destruct (b - a <? 1800000)%Z; repeat split; reflexivity.
  - intros -> ->. assert (Hlt : (now - 3600000 <? now)%Z = true) by (apply Z.ltb_lt; lia).
    rewrite Hlt. reflexivity.
  - intros Hnow ->. apply Z.ltb_ge in Hnow. rewrite Hnow.
    assert (H1 : (a + 600000 <=? a)%Z = false) by (apply Z.leb_gt; lia).
    assert (H2 : (a + 600000 - a <? 1800000)%Z = true) by (apply Z.ltb_lt; lia).
    rewrite H1, H2. reflexivity.
Qed.

End TimeWindow.

(** The hypotheses of C8 are met: at 09:00 on 1 January 2030 (UTC), a window
    from 10:00 to 10:10 is refused as too short. *)
Lemma validateTimeSelection_order_witness :
  Home.validateTimeSelection (rt := exampleRuntime) 1893488400000
    "2030-01-01T10:00" "2030-01-01T10:10" Home.initialState
  = (false, Home.toast Home.TError Home.msgMinDuration Home.initialState).
Proof.
  refine (proj2 (proj2 (proj2 (proj2 (proj2 (proj2 (proj2
            (validateTimeSelection_order (rt := exampleRuntime) 1893488400000
               "2030-01-01T10:00" "2030-01-01T10:10" 1893492000000 1893492600000
               Home.initialState _ _))))))) _ _).
  - vm_compute. reflexivity.
  - vm_compute. reflexivity.
  - lia.
  - reflexivity.
Defined.

(** ** C9, C5: the collections across the component's actions *)

(** Case analysis on every scrutinee left in the goal. *)
Ltac break_matches :=
  repeat match goal with
         | |- context [match ?x with _ => _ end] => destruct x
         end.

Section Collections.
Context `{rt : JsRuntime}.
Import Home.

Lemma syncFilteredSpaces_settles (st : State) :
  pending st -> settled (syncFilteredSpaces st).
Proof.
  unfold pending, settled, syncFilteredSpaces.
  destruct (spacesReplaced st) eqn:E; simpl; intros [Hp | Hp];
    try discriminate; auto.
Qed.

Lemma handleParkingUpdate_pending (data : option JsObject) (st : State) :
  settled st -> pending (handleParkingUpdate data st).
Proof.
  intros [Heq Hr]. unfold pending, handleParkingUpdate.
  destruct data as [d | ]; [ | right; exact Heq].
  rewrite updateFilteredSpaces_eq, Heq.
  destruct (updateParkingSpaces _ _ d (parkingSpaces st)); simpl; auto.
Qed.

Lemma validateTimeSelection_outcome (now : Z) (start end_ : string) (st : State) :
  validateTimeSelection now start end_ st = (true, st)
  \/ exists msg : string,
       validateTimeSelection now start end_ st = (false, toast TError msg st).
Proof.
  unfold validateTimeSelection. cbv zeta.
  destruct (num_lt _ _); [right; eauto | ].
  destruct (num_le _ _); [right; eauto | ].
  destruct (num_lt _ _); [right; eauto | left; reflexivity].
Qed.

Lemma loadDefaultParkingMarkers_pending (c : Coord) (g : bool) (all nearby : Response)
    (st : State) :
  pending st -> pending (loadDefaultParkingMarkers c g all nearby st).
Proof.
  unfold pending, loadDefaultParkingMarkers, loadNearbyMarkers. intros Hp.
  destruct g; [destruct all as [ | [v | [ | x l]]] | ]; destruct nearby; simpl; auto.
Qed.

Lemma handler_pending (a : Action) (st : State) :
  settled st -> pending (handler a st).
Proof.
  intros Hs. assert (Hp : pending st) by (right; apply Hs).
  destruct a; simpl handler.
  - unfold init. destruct geo; apply loadDefaultParkingMarkers_pending; exact Hp.
  - unfold handleGoToCurrentLocation. destruct (currentLocation st);
      [apply loadDefaultParkingMarkers_pending | ]; exact Hp.
  - unfold handleSearchByCurrentLocation. destruct (currentLocation st);
      [apply loadDefaultParkingMarkers_pending | ]; exact Hp.
  - unfold clearSearch. destruct (currentLocation st);
      [apply loadDefaultParkingMarkers_pending | ]; exact Hp.
  - unfold pending, handleLocationSelect in *. destruct nearby as [ | v]; simpl; auto.
    destruct (mapWithPrice v); simpl; auto.
    destruct (filterByWindow _ _); simpl; auto.
  - assert (Hproceed : forall st', pending st' -> pending (applyTimeFilterFetch resp st')).
    { intros st' Hp'. unfold pending, applyTimeFilterFetch in *.
      destruct resp as [ | v]; simpl; auto.
      destruct (mapWithPrice v); simpl; auto. }
    unfold applyTimeFilter.
    destruct (startTime st) as [s | ]; [ | apply Hproceed; exact Hp].
    destruct (endTime st) as [e | ]; [ | apply Hproceed; exact Hp].
    destruct (windowActive (Some s) (Some e)); [ | apply Hproceed; exact Hp].
    destruct (validateTimeSelection_outcome now s e st) as [-> | [msg ->]].
    + apply Hproceed; exact Hp.
    + exact Hp.
  - unfold pending, clearTimeFilter in *. destruct resp as [ | v]; simpl; auto.
    destruct (mapWithPrice v); simpl; auto.
  - unfold pending, changeStartTime in *. break_matches; simpl; auto.
  - exact Hp.
  - apply handleParkingUpdate_pending. exact Hs.
  - exact Hp.
  - exact Hp.
  - exact Hp.
  - exact Hp.
Qed.

Lemma step_settled (st : State) (a : Action) : settled st -> settled (step st a).
Proof.
  intros Hs. apply syncFilteredSpaces_settles, handler_pending. exact Hs.
Qed.

Lemma run_settled (actions : list Action) (st : State) :
  settled st -> settled (run actions st).
Proof.
  revert st. induction actions as [ | a actions IH]; intros st Hs; simpl.
  - exact Hs.
  - apply IH, step_settled. exact Hs.
Qed.

Lemma initialState_settled : settled initialState.
Proof. split; reflexivity. Qed.

End Collections.

(** The filter settings never reach the collections. *)

Section NonInterference.
Context `{rt : JsRuntime}.
Import Home.

(** The verdict of the validation does not depend on the state. *)
Lemma validateTimeSelection_verdict (now : Z) (start end_ : string) :
  exists verdict : option string,
    forall st : State,
      validateTimeSelection now start end_ st
      = match verdict with
        | None => (true, st)
        | Some msg => (false, toast TError msg st)
        end.
Proof.
  unfold validateTimeSelection. cbv zeta.
  destruct (num_lt _ _); [exists (Some msgPastStart); reflexivity | ].
  destruct (num_le _ _); [exists (Some msgEndAfterStart); reflexivity | ].
  destruct (num_lt _ _); [exists (Some msgMinDuration); reflexivity | ].
  exists None. reflexivity.
Qed.

Lemma handler_sameButFilters (a : Action) (st1 st2 : State) :
  sameButFilters st1 st2 ->
  sameButFilters (handler a st1)
    (if isFilterAction a then st2 else handler a st2).
Proof.
  unfold sameButFilters. intros ->. destruct st1 as [ps fs sel loc s e f t r sr].
  generalize (filters st2). intros f2. clear st2.
  destruct a; simpl isFilterAction; cbv iota; simpl handler.
  7: { unfold clearTimeFilter, windowRequest. simpl. break_matches; reflexivity. }
  6: { unfold applyTimeFilter, applyTimeFilterFetch, windowRequest, filterByWindow. simpl.
       destruct s as [s | ]; [destruct e as [e | ] | ].
       - destruct (validateTimeSelection_verdict now s e) as [[msg | ] Hv];
           rewrite !Hv; simpl; break_matches; reflexivity.
       - break_matches; reflexivity.
       - break_matches; reflexivity. }
  all: unfold init, handleGoToCurrentLocation, handleSearchByCurrentLocation, clearSearch,
      loadDefaultParkingMarkers, loadNearbyMarkers, handleLocationSelect, changeStartTime,
      changeEndTime, handleParkingUpdate, handleFilterToggle, handlePriceRangeChange,
      clearAllFilters, filterByWindow;
    simpl; break_matches; reflexivity.
Qed.

Lemma step_sameButFilters (a : Action) (st1 st2 : State) :
  spacesReplaced st1 = false ->
  sameButFilters st1 st2 ->
  sameButFilters (step st1 a) (if isFilterAction a then st2 else step st2 a).
Proof.
  intros Hr Hs. apply (handler_sameButFilters a) in Hs. unfold step.
  assert (Hsync : forall u v, sameButFilters u v ->
                    sameButFilters (syncFilteredSpaces u) (syncFilteredSpaces v)).
  { unfold sameButFilters, syncFilteredSpaces. intros u v ->.
    destruct u; simpl. destruct spacesReplaced0; reflexivity. }
  destruct (isFilterAction a) eqn:Ea.
  - assert (Hid : syncFilteredSpaces (handler a st1) = handler a st1).
    { unfold syncFilteredSpaces.
      destruct a; try discriminate; simpl; rewrite Hr; reflexivity. }
    rewrite Hid. exact Hs.
  - apply Hsync. exact Hs.
Qed.

Lemma run_sameButFilters (actions : list Action) (st1 st2 : State) :
  settled st1 ->
  sameButFilters st1 st2 ->
  sameButFilters (run actions st1)
    (run (List.filter (fun a => negb (isFilterAction a)) actions) st2).
Proof.
  revert st1 st2. induction actions as [ | a actions IH]; intros st1 st2 Hst Hs; simpl.
  - exact Hs.
  - apply (step_sameButFilters a) in Hs; [ | apply Hst].
    apply (step_settled _ a) in Hst.
    destruct (isFilterAction a); simpl; apply IH; assumption.
Qed.

(** C9.  After any sequence of actions from the initial state (loads, search
    selections, time-filter changes, realtime events, selections, filter
    changes), the filtered collection equals the full collection.  The
    amenity and price settings play no part: the two collections are the
    ones reached by the same sequence with every filter change left out. *)
Theorem filteredSpaces_mirrors_parkingSpaces (actions : list Action) :
  filteredSpaces (run actions initialState) = parkingSpaces (run actions initialState)
  /\ parkingSpaces (run actions initialState)
     = parkingSpaces
         (run (List.filter (fun a => negb (isFilterAction a)) actions) initialState)
  /\ filteredSpaces (run actions initialState)
     = filteredSpaces
         (run (List.filter (fun a => negb (isFilterAction a)) actions) initialState).
Proof.
  split; [apply (run_settled actions initialState initialState_settled) | ].
  assert (Hs : sameButFilters (run actions initialState)
                 (run (List.filter (fun a => negb (isFilterAction a)) actions) initialState)).
  { apply run_sameButFilters; [apply initialState_settled | reflexivity]. }
  unfold sameButFilters in Hs. rewrite Hs. split; reflexivity.
Qed.

End NonInterference.

(** Failed fetches. *)

Section FetchFailure.
Context `{rt : JsRuntime}.
Import Home.

Lemma syncFilteredSpaces_idle (st : State) :
  spacesReplaced st = false -> syncFilteredSpaces st = st.
Proof. unfold syncFilteredSpaces. intros ->. reflexivity. Qed.

Lemma handleLocationSelect_failure (result : GeocodingResult) (nearby : Response)
    (st : State) :
  failsToLoad nearby = true ->
  handleLocationSelect result nearby st
  = toast TError msgSelectFailed
      (issue (GetNearbySpaces (latitude result) (longitude result)
                (startTime st) (endTime st) (Some true)) st).
Proof.
  unfold failsToLoad, handleLocationSelect. destruct nearby as [ | v]; [reflexivity | ].
  destruct (mapWithPrice v); [discriminate | reflexivity].
Qed.

Lemma applyTimeFilterFetch_failure (resp : Response) (st : State) :
  failsToLoad resp = true ->
  applyTimeFilterFetch resp st
  = toast TError msgApplyFailed
      (issue (windowRequest st (startTime st) (endTime st) (Some true)) st).
Proof.
  unfold failsToLoad, applyTimeFilterFetch. destruct resp as [ | v]; [reflexivity | ].
  destruct (mapWithPrice v); [discriminate | reflexivity].
Qed.

Lemma applyTimeFilter_failure (now : Z) (resp : Response) (st : State) :
  failsToLoad resp = true ->
  exists (msg : string) (reqs : list Request),
    applyTimeFilter now resp st
    = mkState (parkingSpaces st) (filteredSpaces st) (selectedSpace st)
        (currentLocation st) (startTime st) (endTime st) (filters st)
        (toasts st ++ [mkToast TError msg]) reqs (spacesReplaced st).
Proof.
  intros Hf. unfold applyTimeFilter.
  assert (Hfetch : exists (msg : string) (reqs : list Request),
            applyTimeFilterFetch resp st
            = mkState (parkingSpaces st) (filteredSpaces st) (selectedSpace st)
                (currentLocation st) (startTime st) (endTime st) (filters st)
                (toasts st ++ [mkToast TError msg]) reqs (spacesReplaced st)).
  { rewrite (applyTimeFilterFetch_failure resp st Hf). eexists _, _. reflexivity. }
  destruct (startTime st) as [s | ] eqn:Es; [ | exact Hfetch].
  destruct (endTime st) as [e | ] eqn:Ee; [ | exact Hfetch].
  destruct (windowActive (Some s) (Some e)); [ | exact Hfetch].
  destruct (validateTimeSelection_outcome now s e st) as [-> | [msg ->]].
  - exact Hfetch.
  - exists msg, (requests st). unfold toast. rewrite Es, Ee. reflexivity.
Qed.

Lemma loadDefaultParkingMarkers_failure (c : Coord) (g : bool) (all : Response)
    (st : State) :
  listingDelivers g all = false ->
  parkingSpaces (loadDefaultParkingMarkers c g all Rejects st) = []
  /\ spacesReplaced (loadDefaultParkingMarkers c g all Rejects st) = true
  /\ toasts (loadDefaultParkingMarkers c g all Rejects st)
     = toasts st ++ [mkToast TError msgLoadFailed].
Proof.
  unfold listingDelivers, loadDefaultParkingMarkers, loadNearbyMarkers.
  destruct g; simpl; [ | repeat split; reflexivity].
  destruct all as [ | [v | [ | x l]]]; simpl; intros Hd;
    try discriminate; repeat split; reflexivity.
Qed.

(** C5, as amended.  From a state between two actions: when the fetch of a
    search selection or of [Apply Time Filter] fails (the call rejects, or
    its result cannot be mapped), the full and the filtered collection keep
    their contents and an error notification is shown.  When
    [loadDefaultParkingMarkers] fails, that is when the listing delivers no
    non-empty array and the nearby call rejects, be it on the first load or
    on a later reload around the current location, the error notification is
    shown and both collections become empty. *)
Theorem fetch_failure_outcome (st : State) :
  settled st ->
  (forall (result : GeocodingResult) (nearby : Response),
      failsToLoad nearby = true ->
      parkingSpaces (step st (LocationSelect result nearby)) = parkingSpaces st
      /\ filteredSpaces (step st (LocationSelect result nearby)) = filteredSpaces st
      /\ toasts (step st (LocationSelect result nearby))
         = toasts st ++ [mkToast TError msgSelectFailed])
  /\ (forall (now : Z) (resp : Response),
        failsToLoad resp = true ->
        parkingSpaces (step st (ApplyTimeFilter now resp)) = parkingSpaces st
        /\ filteredSpaces (step st (ApplyTimeFilter now resp)) = filteredSpaces st
        /\ exists msg : string,
             toasts (step st (ApplyTimeFilter now resp))
             = toasts st ++ [mkToast TError msg])
  /\ (forall (c : Coord) (g : bool) (all : Response),
        listingDelivers g all = false ->
        parkingSpaces (syncFilteredSpaces (loadDefaultParkingMarkers c g all Rejects st)) = []
        /\ filteredSpaces (syncFilteredSpaces (loadDefaultParkingMarkers c g all Rejects st)) = []
        /\ toasts (syncFilteredSpaces (loadDefaultParkingMarkers c g all Rejects st))
           = toasts st ++ [mkToast TError msgLoadFailed])
  /\ (forall (c : Coord) (g : bool) (all : Response),
        currentLocation st = Some c ->
        listingDelivers g all = false ->
        parkingSpaces (step st (GoToCurrentLocation g all Rejects)) = []
        /\ filteredSpaces (step st (GoToCurrentLocation g all Rejects)) = []
        /\ toasts (step st (GoToCurrentLocation g all Rejects))
           = toasts st ++ [mkToast TError msgLoadFailed]).
Proof.
  intros [Heq Hr].
  assert (Hload : forall (c : Coord) (g : bool) (all : Response),
            listingDelivers g all = false ->
            parkingSpaces (syncFilteredSpaces (loadDefaultParkingMarkers c g all Rejects st)) = []
            /\ filteredSpaces (syncFilteredSpaces (loadDefaultParkingMarkers c g all Rejects st)) = []
            /\ toasts (syncFilteredSpaces (loadDefaultParkingMarkers c g all Rejects st))
               = toasts st ++ [mkToast TError msgLoadFailed]).
  { intros c g all Hd.
    destruct (loadDefaultParkingMarkers_failure c g all st Hd) as (Hp & Hrep & Ht).
    unfold syncFilteredSpaces. rewrite Hrep. simpl. auto. }
  split; [ | split; [ | split; [exact Hload | ]]].
  - intros result nearby Hf. unfold step. simpl handler.
    rewrite (handleLocationSelect_failure result nearby st Hf).
    rewrite syncFilteredSpaces_idle by exact Hr. repeat split; reflexivity.
  - intros now resp Hf. unfold step. simpl handler.
    destruct (applyTimeFilter_failure now resp st Hf) as (msg & reqs & ->).
    rewrite syncFilteredSpaces_idle by exact Hr. simpl.
    repeat split; try reflexivity. exists msg. reflexivity.
  - intros c g all Hc Hd. unfold step. simpl handler.
    unfold handleGoToCurrentLocation. rewrite Hc. apply Hload. exact Hd.
Qed.

End FetchFailure.

(** The hypothesis of C5 is met by a state that lists two spaces, with one
    of them selected: a search selection whose fetch rejects, and an
    [Apply Time Filter] whose fetch rejects, leave both collections with
    the two spaces and add the notification of the failure. *)
Lemma fetch_failure_outcome_witness :
  Home.parkingSpaces
    (Home.step (rt := exampleRuntime)
       (Home.mkState
          [ {[ "_id" := JStr "a"; "status" := JStr "submitted"; "isOnline" := JBool true ]};
            {[ "_id" := JStr "b"; "status" := JStr "submitted"; "isOnline" := JBool true ]} ]
          [ {[ "_id" := JStr "a"; "status" := JStr "submitted"; "isOnline" := JBool true ]};
            {[ "_id" := JStr "b"; "status" := JStr "submitted"; "isOnline" := JBool true ]} ]
          (Some {[ "_id" := JStr "a"; "status" := JStr "submitted";
                   "isOnline" := JBool true ]})
          (Some (Home.mkCoord (Fin 28) (Fin 77))) None None Home.initialFilters [] [] false)
       (Home.LocationSelect (Home.mkGeocodingResult (Fin 28) (Fin 77) "Delhi, India")
          Home.Rejects))
  = [ {[ "_id" := JStr "a"; "status" := JStr "submitted"; "isOnline" := JBool true ]};
      {[ "_id" := JStr "b"; "status" := JStr "submitted"; "isOnline" := JBool true ]} ]
  /\ Home.filteredSpaces
       (Home.step (rt := exampleRuntime)
          (Home.mkState
             [ {[ "_id" := JStr "a"; "status" := JStr "submitted"; "isOnline" := JBool true ]};
               {[ "_id" := JStr "b"; "status" := JStr "submitted"; "isOnline" := JBool true ]} ]
             [ {[ "_id" := JStr "a"; "status" := JStr "submitted"; "isOnline" := JBool true ]};
               {[ "_id" := JStr "b"; "status" := JStr "submitted"; "isOnline" := JBool true ]} ]
             (Some {[ "_id" := JStr "a"; "status" := JStr "submitted";
                      "isOnline" := JBool true ]})
             (Some (Home.mkCoord (Fin 28) (Fin 77))) None None Home.initialFilters [] []
             false)
          (Home.LocationSelect (Home.mkGeocodingResult (Fin 28) (Fin 77) "Delhi, India")
             Home.Rejects))
     = [ {[ "_id" := JStr "a"; "status" := JStr "submitted"; "isOnline" := JBool true ]};
         {[ "_id" := JStr "b"; "status" := JStr "submitted"; "isOnline" := JBool true ]} ]
  /\ Home.toasts
       (Home.step (rt := exampleRuntime)
          (Home.mkState
             [ {[ "_id" := JStr "a"; "status" := JStr "submitted"; "isOnline" := JBool true ]};
               {[ "_id" := JStr "b"; "status" := JStr "submitted"; "isOnline" := JBool true ]} ]
             [ {[ "_id" := JStr "a"; "status" := JStr "submitted"; "isOnline" := JBool true ]};
               {[ "_id" := JStr "b"; "status" := JStr "submitted"; "isOnline" := JBool true ]} ]
             (Some {[ "_id" := JStr "a"; "status" := JStr "submitted";
                      "isOnline" := JBool true ]})
             (Some (Home.mkCoord (Fin 28) (Fin 77))) None None Home.initialFilters [] []
             false)
          (Home.LocationSelect (Home.mkGeocodingResult (Fin 28) (Fin 77) "Delhi, India")
             Home.Rejects))
     = [Home.mkToast Home.TError Home.msgSelectFailed]
  /\ Home.parkingSpaces
       (Home.step (rt := exampleRuntime)
          (Home.mkState
             [ {[ "_id" := JStr "a"; "status" := JStr "submitted"; "isOnline" := JBool true ]};
               {[ "_id" := JStr "b"; "status" := JStr "submitted"; "isOnline" := JBool true ]} ]
             [ {[ "_id" := JStr "a"; "status" := JStr "submitted"; "isOnline" := JBool true ]};
               {[ "_id" := JStr "b"; "status" := JStr "submitted"; "isOnline" := JBool true ]} ]
             (Some {[ "_id" := JStr "a"; "status" := JStr "submitted";
                      "isOnline" := JBool true ]})
             (Some (Home.mkCoord (Fin 28) (Fin 77))) None None Home.initialFilters [] []
             false)
          (Home.ApplyTimeFilter 1893488400000 Home.Rejects))
     = [ {[ "_id" := JStr "a"; "status" := JStr "submitted"; "isOnline" := JBool true ]};
         {[ "_id" := JStr "b"; "status" := JStr "submitted"; "isOnline" := JBool true ]} ].
Proof.
  pose proof (fetch_failure_outcome (rt := exampleRuntime)
                (Home.mkState
                   [ {[ "_id" := JStr "a"; "status" := JStr "submitted";
                        "isOnline" := JBool true ]};
                     {[ "_id" := JStr "b"; "status" := JStr "submitted";
                        "isOnline" := JBool true ]} ]
                   [ {[ "_id" := JStr "a"; "status" := JStr "submitted";
                        "isOnline" := JBool true ]};
                     {[ "_id" := JStr "b"; "status" := JStr "submitted";
                        "isOnline" := JBool true ]} ]
                   (Some {[ "_id" := JStr "a"; "status" := JStr "submitted";
                            "isOnline" := JBool true ]})
                   (Some (Home.mkCoord (Fin 28) (Fin 77))) None None Home.initialFilters
                   [] [] false)
                (conj eq_refl eq_refl)) as (Hselect & Happly & _).
  destruct (Hselect (Home.mkGeocodingResult (Fin 28) (Fin 77) "Delhi, India") Home.Rejects
              eq_refl) as (Hp & Hf & Ht).
  destruct (Happly 1893488400000 Home.Rejects eq_refl) as (Hp' & _).
  split; [exact Hp | ]. split; [exact Hf | ]. split; [exact Ht | exact Hp'].
Defined.

(** C5 as stated fails.  A first load lists one space; a later press of the
    current-location button, during which both service calls reject, empties
    the full and the filtered collection. *)
Lemma fetch_failure_counterexample :
  length
    (Home.parkingSpaces
       (Home.run (rt := exampleRuntime)
          [ Home.Init (Home.GeoPosition (Home.mkCoord (Fin 28) (Fin 77))) true
              (Home.Resolves
                 (Home.ArrayOf
                    [ {[ "_id" := JStr "a"; "status" := JStr "submitted";
                         "isOnline" := JBool true ]} ]))
              Home.Rejects ]
          Home.initialState)) = 1%nat
  /\ Home.parkingSpaces
       (Home.run (rt := exampleRuntime)
          [ Home.Init (Home.GeoPosition (Home.mkCoord (Fin 28) (Fin 77))) true
              (Home.Resolves
                 (Home.ArrayOf
                    [ {[ "_id" := JStr "a"; "status" := JStr "submitted";
                         "isOnline" := JBool true ]} ]))
              Home.Rejects;
            Home.GoToCurrentLocation true Home.Rejects Home.Rejects ]
          Home.initialState) = []
  /\ Home.filteredSpaces
       (Home.run (rt := exampleRuntime)
          [ Home.Init (Home.GeoPosition (Home.mkCoord (Fin 28) (Fin 77))) true
              (Home.Resolves
                 (Home.ArrayOf
                    [ {[ "_id" := JStr "a"; "status" := JStr "submitted";
                         "isOnline" := JBool true ]} ]))
              Home.Rejects;
            Home.GoToCurrentLocation true Home.Rejects Home.Rejects ]
          Home.initialState) = [].
Proof. vm_compute. repeat split; reflexivity. Qed.

(** * Further properties of the code *)

(** ** The realtime handler of the buyer map: what an event leaves alone *)

Section ReconcilerFrame.
Context `{rt : JsRuntime}.
Import Home.

(** The four shapes of a list update. *)
Lemma updateParkingSpaces_shape (start end_ : option string) (data : JsObject)
    (prev : list JsObject) :
  updateParkingSpaces start end_ data prev = None
  \/ (exists i : nat,
        findIndex (matchesId (ToString (eventId data))) prev = Some i
        /\ (updateParkingSpaces start end_ data prev = Some (delete i prev)
            \/ exists f : JsObject -> JsObject,
                 updateParkingSpaces start end_ data prev = Some (alter f i prev)))
  \/ (findIndex (matchesId (ToString (eventId data))) prev = None
      /\ updateParkingSpaces start end_ data prev = Some (withPrice data :: prev)).
Proof.
  unfold updateParkingSpaces. cbv zeta.
  destruct (findIndex (matchesId (ToString (eventId data))) prev) as [i | ] eqn:Ei.
  - destruct (_ || _); [right; left; exists i; auto | ].
    destruct (_ && _); [right; left; exists i; auto | ].
    right; left. exists i. split; [reflexivity | right; eauto].
  - destruct (_ || _); [left; reflexivity | ].
    destruct (_ && _); [left; reflexivity | ].
    destruct (_ || _); [left; reflexivity | ].
    right; right. auto.
Qed.

Lemma filter_delete_other (q : JsObject -> bool) (l : list JsObject) (i : nat)
    (e : JsObject) :
  l !! i = Some e -> q e = false -> List.filter q (delete i l) = List.filter q l.
Proof.
  revert i. induction l as [ | x l IH]; intros [ | i] Hi Hq; simpl in *; try discriminate.
  - injection Hi as ->. rewrite Hq. reflexivity.
  - rewrite (IH i Hi Hq). reflexivity.
Qed.

Lemma filter_sublist_alter (q : JsObject -> bool) (f : JsObject -> JsObject)
    (l : list JsObject) (i : nat) (e : JsObject) :
  l !! i = Some e -> q e = false -> sublist (List.filter q l) (alter f i l).
Proof.
  revert i. induction l as [ | x l IH]; intros [ | i] Hi Hq; simpl in *; try discriminate.
  - injection Hi as ->. rewrite Hq. apply sublist_cons, filter_sublist.
  - destruct (q x); [apply sublist_skip | apply sublist_cons]; apply (IH i Hi Hq).
Qed.

Lemma length_delete_at (l : list JsObject) (i : nat) (e : JsObject) :
  l !! i = Some e -> S (length (delete i l)) = length l.
Proof.
  revert i. induction l as [ | x l IH]; intros [ | i] Hi; simpl in *; try discriminate.
  - reflexivity.
  - rewrite (IH i Hi). reflexivity.
Qed.

Lemma updateParkingSpaces_frame (start end_ : option string) (data : JsObject)
    (prev l' : list JsObject) :
  updateParkingSpaces start end_ data prev = Some l' ->
  sublist
    (List.filter (fun s => negb (matchesId (ToString (eventId data)) s)) prev) l'
  /\ (length l' = length prev \/ S (length l') = length prev
      \/ length l' = S (length prev)).
Proof.
  intros Hu.
  destruct (updateParkingSpaces_shape start end_ data prev)
    as [Hn | [(i & Hi & [Hd | [f Ha]]) | [Hi Hins]]]; rewrite Hu in *.
  - discriminate.
  - injection Hd as ->. destruct (findIndex_Some _ _ _ Hi) as (e & He & Hm & _).
    split.
    + rewrite <- (filter_delete_other _ prev i e He) by (rewrite Hm; reflexivity).
      apply filter_sublist.
    + right; left. apply (length_delete_at prev i e He).
  - injection Ha as ->. destruct (findIndex_Some _ _ _ Hi) as (e & He & Hm & _).
    split.
    + apply (filter_sublist_alter _ f prev i e He). rewrite Hm. reflexivity.
    + left. apply length_alter.
  - injection Hins as ->. split.
    + apply sublist_cons, filter_sublist.
    + right; right. reflexivity.
Qed.

(** X1.  Whatever the event, the spaces whose identifier differs from the
    event's stay in the full and in the filtered collection, unaltered and
    in their order; each of the two collections gains or loses at most one
    entry; and a selected space with another identifier stays selected,
    unchanged. *)
Theorem handleParkingUpdate_frame (data : JsObject) (st : State) :
  sublist
    (List.filter (fun s => negb (matchesId (ToString (eventId data)) s)) (parkingSpaces st))
    (parkingSpaces (handleParkingUpdate (Some data) st))
  /\ sublist
       (List.filter (fun s => negb (matchesId (ToString (eventId data)) s))
          (filteredSpaces st))
       (filteredSpaces (handleParkingUpdate (Some data) st))
  /\ (length (parkingSpaces (handleParkingUpdate (Some data) st)) <= S (length (parkingSpaces st))
      /\ length (parkingSpaces st) <= S (length (parkingSpaces (handleParkingUpdate (Some data) st))))%nat
  /\ (length (filteredSpaces (handleParkingUpdate (Some data) st))
       <= S (length (filteredSpaces st))
      /\ length (filteredSpaces st)
         <= S (length (filteredSpaces (handleParkingUpdate (Some data) st))))%nat
  /\ (forall p : JsObject,
        selectedSpace st = Some p ->
        matchesId (ToString (eventId data)) p = false ->
        selectedSpace (handleParkingUpdate (Some data) st) = Some p).
Proof.
  unfold handleParkingUpdate. rewrite updateFilteredSpaces_eq.
  destruct (updateParkingSpaces _ _ data (parkingSpaces st)) as [l1 | ] eqn:E1;
    destruct (updateParkingSpaces _ _ data (filteredSpaces st)) as [l2 | ] eqn:E2; simpl.
  all: repeat match goal with
         | H : updateParkingSpaces _ _ _ _ = Some _ |- _ =>
             apply updateParkingSpaces_frame in H; destruct H as [? ?]
         end.
  all: split; [try assumption; apply filter_sublist | ].
  all: split; [try assumption; apply filter_sublist | ].
  all: split; [lia | ].
  all: split; [lia | ].
  all: intros p Hp Hm; rewrite Hp; unfold updateSelectedSpace; cbv zeta;
    fold (matchesId (ToString (eventId data)) p); rewrite Hm; reflexivity.
Qed.

End ReconcilerFrame.

(** ** The realtime handler of the buyer map: insertion and redelivery *)

Section ReconcilerUpsert.
Context `{rt : JsRuntime}.
Import Home.

Lemma get_withPrice_other (s : JsObject) (k : string) :
  k <> "__price" -> get (withPrice s) k = get s k.
Proof.
  intros Hk. unfold get, withPrice. rewrite lookup_insert_ne by congruence. reflexivity.
Qed.

Lemma withPrice_priced (s : JsObject) : nullish (get (withPrice s) "__price") = false.
Proof.
  unfold get at 1. unfold withPrice. rewrite lookup_insert_eq. simpl.
  unfold js_coalesce. destruct (nullish (get s "__price")) eqn:E; [reflexivity | exact E].
Qed.

Lemma findIndex_all_false (p : JsObject -> bool) (l : list JsObject) :
  (forall s : JsObject, s ∈ l -> p s = false) -> findIndex p l = None.
Proof.
  induction l as [ | x l IH]; intros Hall; simpl; [reflexivity | ].
  rewrite (Hall x) by apply list_elem_of_here.
  rewrite IH; [reflexivity | ]. intros s Hs. apply Hall. apply list_elem_of_further, Hs.
Qed.

(** The gate before an insertion, when the removal condition is false. *)
Lemma insertGate_open (start end_ : option string) (data : JsObject) :
  removalCondition start end_ data = false ->
  truthy (get data "status") = false \/ eventStatus data = "submitted" ->
  (truthy (get data "status")
   && negb (String.eqb (toLowerCase (ToString (get data "status"))) "submitted")
   || negb (is_undefined (get data "isOnline")) && negb (truthy (get data "isOnline")))
  = false
  /\ windowActive start end_ && numberAtMostZero (resolveAvailableSpots data) = false.
Proof.
  unfold removalCondition. intros Hc Hs.
  apply orb_false_iff in Hc as [Hc Hw]. apply orb_false_iff in Hc as [_ Ho].
  split; [ | exact Hw].
  rewrite offline_selected, Ho, orb_false_r.
  destruct Hs as [Hs | Hs]; [rewrite Hs; reflexivity | ].
  destruct (truthy (get data "status")) eqn:Et; [ | reflexivity].
  unfold eventStatus, js_or in Hs. rewrite Et in Hs. rewrite Hs. reflexivity.
Qed.

Lemma updateParkingSpaces_insert (start end_ : option string) (data : JsObject)
    (prev : list JsObject) :
  removalCondition start end_ data = false ->
  truthy (get data "status") = false \/ eventStatus data = "submitted" ->
  findIndex (matchesId (ToString (eventId data))) prev = None ->
  updateParkingSpaces start end_ data prev = Some (withPrice data :: prev).
Proof.
  intros Hc Hs Hi.
  destruct (insertGate_open start end_ data Hc Hs) as [Hg Hw].
  unfold removalCondition in Hc.
  apply orb_false_iff in Hc as [Hc _].
  unfold updateParkingSpaces. cbv zeta.
  rewrite incomingOnline_eq. fold (eventStatus data).
  rewrite Hc, Hw, Hi, Hg. reflexivity.
Qed.

(** X2.  An event that does not meet the removal condition, whose status is
    absent (falsy) or ["submitted"], and whose identifier no listed space
    has, is put at the front of the full and of the filtered collection:
    the new entry carries every property of the event and a price summary
    (the event's own [__price], or the computed one), and the entries
    already listed follow unchanged. *)
Theorem handleParkingUpdate_inserts (data : JsObject) (st : State) :
  removalCondition (startTime st) (endTime st) data = false ->
  truthy (get data "status") = false \/ eventStatus data = "submitted" ->
  (forall s : JsObject,
      s ∈ parkingSpaces st -> matchesId (ToString (eventId data)) s = false) ->
  (forall s : JsObject,
      s ∈ filteredSpaces st -> matchesId (ToString (eventId data)) s = false) ->
  parkingSpaces (handleParkingUpdate (Some data) st) = withPrice data :: parkingSpaces st
  /\ filteredSpaces (handleParkingUpdate (Some data) st)
     = withPrice data :: filteredSpaces st
  /\ (forall (k : string) (v : JsValue),
        k <> "__price" -> data !! k = Some v -> withPrice data !! k = Some v)
  /\ nullish (get (withPrice data) "__price") = false
  /\ (nullish (get data "__price") = true ->
      get (withPrice data) "__price" = JPrice (computePriceMeta data)).
Proof.
  intros Hc Hs Hfull Hfilt.
  unfold handleParkingUpdate. rewrite updateFilteredSpaces_eq.
  rewrite (updateParkingSpaces_insert _ _ data (parkingSpaces st) Hc Hs
             (findIndex_all_false _ _ Hfull)).
  rewrite (updateParkingSpaces_insert _ _ data (filteredSpaces st) Hc Hs
             (findIndex_all_false _ _ Hfilt)).
  simpl. split; [reflexivity | ]. split; [reflexivity | ].
  split.
  { intros k v Hk Hv. unfold withPrice. rewrite lookup_insert_ne by congruence. exact Hv. }
  split; [apply withPrice_priced | ].
  intros Hn. unfold get at 1. unfold withPrice. rewrite lookup_insert_eq. simpl.
  unfold js_coalesce. rewrite Hn. reflexivity.
Qed.

Lemma handleParkingUpdate_window (data : option JsObject) (st : State) :
  startTime (handleParkingUpdate data st) = startTime st
  /\ endTime (handleParkingUpdate data st) = endTime st.
Proof.
  destruct data as [d | ]; simpl; [ | split; reflexivity].
  destruct (updateParkingSpaces _ _ d _); destruct (updateFilteredSpaces _ _ d _);
    split; reflexivity.
Qed.

(** X3.  An event that names its space through [parkingId] only (it has no
    [_id] and no [id] property) is never recognised again: when it is
    eligible and no listed space has its identifier, each delivery puts one
    more copy at the front of the full collection. *)
Theorem handleParkingUpdate_redelivery_duplicates (data : JsObject) (st : State) :
  data !! "_id" = None ->
  data !! "id" = None ->
  removalCondition (startTime st) (endTime st) data = false ->
  truthy (get data "status") = false \/ eventStatus data = "submitted" ->
  (forall s : JsObject,
      s ∈ parkingSpaces st -> matchesId (ToString (eventId data)) s = false) ->
  parkingSpaces (handleParkingUpdate (Some data) (handleParkingUpdate (Some data) st))
  = withPrice data :: withPrice data :: parkingSpaces st.
Proof.
  intros Hid1 Hid2 Hc Hs Hfull.
  assert (Hnew : matchesId (ToString (eventId data)) (withPrice data) = false).
  { unfold matchesId, spaceId. rewrite !get_withPrice_other by discriminate.
    unfold get. rewrite Hid1, Hid2. reflexivity. }
  assert (Hone : parkingSpaces (handleParkingUpdate (Some data) st)
                 = withPrice data :: parkingSpaces st).
  { unfold handleParkingUpdate.
    rewrite (updateParkingSpaces_insert _ _ data (parkingSpaces st) Hc Hs
               (findIndex_all_false _ _ Hfull)).
    destruct (updateFilteredSpaces _ _ data (filteredSpaces st)); reflexivity. }
  destruct (handleParkingUpdate_window (Some data) st) as [Hst He].
  unfold handleParkingUpdate at 1. rewrite Hst, He, Hone.
  rewrite (updateParkingSpaces_insert _ _ data (withPrice data :: parkingSpaces st) Hc Hs).
  - destruct (updateFilteredSpaces _ _ data _); reflexivity.
  - apply findIndex_all_false. intros s Hin.
    apply elem_of_cons in Hin as [-> | Hin]; [exact Hnew | apply Hfull, Hin].
Qed.

Lemma updateParkingSpaces_merge_any (start end_ : option string) (data : JsObject)
    (prev : list JsObject) (i : nat) :
  removalCondition start end_ data = false ->
  findIndex (matchesId (ToString (eventId data))) prev = Some i ->
  updateParkingSpaces start end_ data prev
  = Some (alter (fun entry =>
                   spread (spread entry data) (spotsPatch (resolveAvailableSpots data)))
            i prev).
Proof.
  intros Hc Hi. unfold removalCondition in Hc.
  apply orb_false_iff in Hc as [Hc Hw].
  unfold updateParkingSpaces. cbv zeta.
  rewrite incomingOnline_eq. fold (eventStatus data). rewrite Hc, Hw, Hi. reflexivity.
Qed.

Lemma findIndex_alter_same (p : JsObject -> bool) (f : JsObject -> JsObject)
    (l : list JsObject) (i : nat) :
  findIndex p l = Some i ->
  (forall e : JsObject, p e = true -> p (f e) = true) ->
  findIndex p (alter f i l) = Some i.
Proof.
  revert i. induction l as [ | x l IH]; intros i Hi Hf; simpl in Hi; [discriminate | ].
  destruct (p x) eqn:Ex.
  - injection Hi as <-. simpl. rewrite (Hf x Ex). reflexivity.
  - destruct (findIndex p l) as [k | ] eqn:Ek; simpl in Hi; [ | discriminate].
    injection Hi as <-. cbn [alter list_alter findIndex]. rewrite Ex.
    rewrite (IH k eq_refl Hf). reflexivity.
Qed.

Lemma merge_twice (data patch e : JsObject) :
  spread (spread (spread (spread e data) patch) data) patch
  = spread (spread e data) patch.
Proof.
  unfold spread. apply map_eq. intros k.
  rewrite !lookup_union.
  destruct (patch !! k), (data !! k), (e !! k); reflexivity.
Qed.

(** X4.  For an event that names its space through a string [_id] (its
    [parkingId] is absent or falsy) and does not meet the removal condition:
    once it has been merged into the listed space, delivering it again
    leaves the collection as it is. *)
Theorem updateParkingSpaces_redelivery_idempotent (start end_ : option string)
    (data : JsObject) (prev merged : list JsObject) (i : string) (n : nat) :
  truthy (get data "parkingId") = false ->
  data !! "_id" = Some (JStr i) ->
  i <> "" ->
  removalCondition start end_ data = false ->
  findIndex (matchesId (ToString (eventId data))) prev = Some n ->
  updateParkingSpaces start end_ data prev = Some merged ->
  updateParkingSpaces start end_ data merged = Some merged.
Proof.
  intros Hpid Hid Hne Hc Hn Hm.
  rewrite (updateParkingSpaces_merge_any start end_ data prev n Hc Hn) in Hm.
  injection Hm as <-.
  assert (Hpidtext : ToString (eventId data) = i).
  { unfold eventId, js_or, get. rewrite Hid. unfold get in Hpid. rewrite Hpid. simpl.
    apply String.eqb_neq in Hne. rewrite Hne. reflexivity. }
  assert (Hkeep : forall e : JsObject,
            matchesId (ToString (eventId data)) e = true ->
            matchesId (ToString (eventId data))
              (spread (spread e data) (spotsPatch (resolveAvailableSpots data))) = true).
  { intros e _. rewrite Hpidtext. unfold matchesId, spaceId, get, spread.
    assert (Hl : (spotsPatch (resolveAvailableSpots data) ∪ (data ∪ e)) !! "_id"
                 = Some (JStr i)).
    { rewrite lookup_union_r.
      - apply lookup_union_Some_l. exact Hid.
      - unfold spotsPatch. destruct (is_number _); [ | apply lookup_empty].
        apply lookup_singleton_ne. discriminate. }
    rewrite Hl. simpl. apply String.eqb_neq in Hne. rewrite Hne. simpl.
    apply String.eqb_refl. }
  rewrite (updateParkingSpaces_merge_any start end_ data _ n Hc
             (findIndex_alter_same _ _ prev n Hn Hkeep)).
  f_equal. rewrite list_alter_alter_eq. apply list_alter_ext; [ | reflexivity].
  intros e _. apply merge_twice.
Qed.

Lemma selected_merge_agrees (data e : JsObject) :
  is_number (get data "availableSpots") = true \/ data !! "availableSpots" = None ->
  spread (spread e (spotsPatch (resolveAvailableSpots data))) data
  = spread (spread e data) (spotsPatch (resolveAvailableSpots data)).
Proof.
  intros Hn. unfold spread. apply map_eq. intros k. rewrite !lookup_union.
  destruct (decide (k = "availableSpots")) as [-> | Hk].
  - destruct Hn as [Hn | Hn].
    + assert (Hr : resolveAvailableSpots data = get data "availableSpots").
      { unfold resolveAvailableSpots. rewrite Hn. reflexivity. }
      rewrite Hr. unfold spotsPatch. rewrite Hn, lookup_singleton_eq.
      unfold get in *. destruct (data !! "availableSpots") as [v | ]; [ | discriminate].
      simpl. destruct (e !! "availableSpots"); reflexivity.
    + rewrite Hn.
      destruct (spotsPatch (resolveAvailableSpots data) !! "availableSpots"),
        (e !! "availableSpots"); reflexivity.
  - assert (Hp : spotsPatch (resolveAvailableSpots data) !! k = None).
    { unfold spotsPatch. destruct (is_number (resolveAvailableSpots data));
        [apply lookup_singleton_ne; congruence | apply lookup_empty]. }
    rewrite Hp. destruct (data !! k), (e !! k); reflexivity.
Qed.

(** X5.  When the selected space is the listed space an event is merged
    into, the selection stays a copy of the listed entry: after an event
    that does not meet the removal condition, whose status is absent or
    ["submitted"] and whose [availableSpots] is a number or absent, the
    selected space equals the merged entry of the full collection. *)
Theorem handleParkingUpdate_selection_follows (data p : JsObject) (st : State) (n : nat) :
  removalCondition (startTime st) (endTime st) data = false ->
  truthy (get data "status") = false \/ eventStatus data = "submitted" ->
  is_number (get data "availableSpots") = true \/ data !! "availableSpots" = None ->
  findIndex (matchesId (ToString (eventId data))) (parkingSpaces st) = Some n ->
  parkingSpaces st !! n = Some p ->
  selectedSpace st = Some p ->
  parkingSpaces (handleParkingUpdate (Some data) st) !! n
  = selectedSpace (handleParkingUpdate (Some data) st)
  /\ exists p' : JsObject, selectedSpace (handleParkingUpdate (Some data) st) = Some p'.
Proof.
  intros Hc Hs Hnum Hn Hp Hsel.
  destruct (findIndex_Some _ _ _ Hn) as (e & He & Hm & _).
  rewrite Hp in He. injection He as <-.
  destruct (insertGate_open _ _ data Hc Hs) as [Hg Hw].
  assert (Hselected : selectedSpace (handleParkingUpdate (Some data) st)
            = Some (spread (spread p data) (spotsPatch (resolveAvailableSpots data)))).
  { unfold handleParkingUpdate.
    destruct (updateParkingSpaces _ _ data _); destruct (updateFilteredSpaces _ _ data _);
      simpl; rewrite Hsel; unfold updateSelectedSpace; cbv zeta;
      fold (matchesId (ToString (eventId data)) p); rewrite Hm, Hg, Hw;
      rewrite (selected_merge_agrees data p Hnum); reflexivity. }
  split; [ | eauto]. rewrite Hselected.
  unfold handleParkingUpdate.
  rewrite (updateParkingSpaces_merge_any _ _ data (parkingSpaces st) n Hc Hn).
  destruct (updateFilteredSpaces _ _ data _); simpl;
    rewrite list_lookup_alter_eq, Hp; reflexivity.
Qed.

End ReconcilerUpsert.

(** ** What a load leaves in the collection *)

Section Loads.
Context `{rt : JsRuntime}.
Import Home.

Lemma approved_withPrice (s : JsObject) : approved (withPrice s) = approved s.
Proof. unfold approved. rewrite !get_withPrice_other by discriminate. reflexivity. Qed.

Lemma hasSpots_withPrice (s : JsObject) : hasSpots (withPrice s) = hasSpots s.
Proof. unfold hasSpots. rewrite get_withPrice_other by discriminate. reflexivity. Qed.

Lemma presentable_fmap_onlyApproved (spaces : MaybeArray) :
  Forall presentable (withPrice <$> onlyApproved spaces).
Proof.
  apply Forall_fmap, Forall_forall. intros s Hs. unfold onlyApproved in Hs.
  destruct spaces as [v | l]; [inversion Hs | ].
  apply list_elem_of_In, filter_In in Hs as [_ Hs].
  split; [rewrite approved_withPrice; exact Hs | apply withPrice_priced].
Qed.

Lemma presentable_onlyApproved_fmap (l : list JsObject) :
  Forall presentable (onlyApproved (ArrayOf (withPrice <$> l))).
Proof.
  apply Forall_forall. intros s Hs. unfold onlyApproved in Hs.
  apply list_elem_of_In, filter_In in Hs as [Hin Hs].
  split; [exact Hs | ].
  apply list_elem_of_In, list_elem_of_fmap in Hin as (s0 & -> & _). apply withPrice_priced.
Qed.

Lemma filterByWindow_spec (st : State) (l : list JsObject) :
  Forall presentable l ->
  Forall (fun s => presentable s
                   /\ (windowActive (startTime st) (endTime st) = true -> hasSpots s = true))
    (filterByWindow st l).
Proof.
  intros Hl. unfold filterByWindow.
  destruct (windowActive (startTime st) (endTime st)) eqn:Ew.
  - apply Forall_forall. intros s Hs. apply list_elem_of_In, filter_In in Hs as [Hin Hs].
    split; [ | intros _; exact Hs].
    rewrite Forall_forall in Hl. apply Hl, list_elem_of_In, Hin.
  - eapply Forall_impl; [exact Hl | ]. intros s Hs. split; [exact Hs | discriminate].
Qed.

Lemma wellListed_intro (st' st0 : State) (l : list JsObject) :
  parkingSpaces st' = filterByWindow st0 l ->
  startTime st' = startTime st0 ->
  endTime st' = endTime st0 ->
  Forall presentable l ->
  wellListed st'.
Proof.
  intros Hp Hs He Hl. unfold wellListed. rewrite Hp, Hs, He.
  apply filterByWindow_spec, Hl.
Qed.

Lemma wellListed_empty (st : State) : parkingSpaces st = [] -> wellListed st.
Proof. intros Hp. unfold wellListed. rewrite Hp. constructor. Qed.

Lemma loadNearbyMarkers_wellListed (c : Coord) (nearby : Response) (st : State) :
  wellListed (loadNearbyMarkers c nearby st).
Proof.
  unfold loadNearbyMarkers. destruct nearby as [ | spaces].
  - apply wellListed_empty. reflexivity.
  - eapply wellListed_intro; [reflexivity | reflexivity | reflexivity | ].
    apply presentable_fmap_onlyApproved.
Qed.

Lemma loadDefaultParkingMarkers_wellListed (c : Coord) (g : bool) (all nearby : Response)
    (st : State) :
  wellListed (loadDefaultParkingMarkers c g all nearby st).
Proof.
  unfold loadDefaultParkingMarkers.
  destruct g; [ | apply loadNearbyMarkers_wellListed].
  destruct all as [ | [v | [ | x l]]]; try apply loadNearbyMarkers_wellListed.
  eapply wellListed_intro; [reflexivity | reflexivity | reflexivity | ].
  apply presentable_fmap_onlyApproved.
Qed.

Lemma mapWithPrice_fmap (v : MaybeArray) (l : list JsObject) :
  mapWithPrice v = Some l -> exists l0 : list JsObject, l = withPrice <$> l0.
Proof.
  destruct v as [x | l0]; simpl.
  - destruct (truthy x); [discriminate | ]. intros [= <-]. exists []. reflexivity.
  - intros [= <-]. eauto.
Qed.

Lemma applyTimeFilterFetch_wellListed (resp : Response) (st : State) :
  parkingSpaces (applyTimeFilterFetch resp st) = parkingSpaces st
  \/ wellListed (applyTimeFilterFetch resp st).
Proof.
  unfold applyTimeFilterFetch. destruct resp as [ | v]; [left; reflexivity | ].
  destruct (mapWithPrice v) as [l | ] eqn:El; [right | left; reflexivity].
  destruct (mapWithPrice_fmap v l El) as [l0 ->].
  eapply wellListed_intro; [reflexivity | reflexivity | reflexivity | ].
  apply presentable_onlyApproved_fmap.
Qed.

(** X6.  After any action that loads spaces (the first load, a reload around
    the current location, a search selection, applying or clearing the time
    filter), the full collection is either the one before the action or
    holds only spaces that pass the approval filter, carry a price summary,
    and, when the time window of the resulting state is active, have
    [Number(availableSpots) > 0]. *)
Theorem loads_list_only_visible_spaces (a : Action) (st : State) :
  isLoadAction a = true ->
  parkingSpaces (handler a st) = parkingSpaces st \/ wellListed (handler a st).
Proof.
  destruct a; simpl; intros Hload; try discriminate.
  - right. unfold init. destruct geo; apply loadDefaultParkingMarkers_wellListed.
  - unfold handleGoToCurrentLocation. destruct (currentLocation st);
      [right; apply loadDefaultParkingMarkers_wellListed | left; reflexivity].
  - unfold handleSearchByCurrentLocation. destruct (currentLocation st);
      [right; apply loadDefaultParkingMarkers_wellListed | left; reflexivity].
  - unfold clearSearch. destruct (currentLocation st);
      [right; apply loadDefaultParkingMarkers_wellListed | left; reflexivity].
  - unfold handleLocationSelect. destruct nearby as [ | v]; [left; reflexivity | ].
    destruct (mapWithPrice v) as [l | ] eqn:El; [right | left; reflexivity].
    destruct (mapWithPrice_fmap v l El) as [l0 ->].
    destruct (filterByWindow _ _) eqn:Ef.
    + apply wellListed_empty. reflexivity.
    + eapply wellListed_intro; [simpl; symmetry; exact Ef | reflexivity | reflexivity | ].
      apply presentable_onlyApproved_fmap.
  - unfold applyTimeFilter.
    destruct (startTime st) as [s | ] eqn:Es; [ | apply applyTimeFilterFetch_wellListed].
    destruct (endTime st) as [e | ] eqn:Ee; [ | apply applyTimeFilterFetch_wellListed].
    destruct (windowActive (Some s) (Some e)); [ | apply applyTimeFilterFetch_wellListed].
    destruct (validateTimeSelection_outcome now s e st) as [-> | [msg ->]].
    + apply applyTimeFilterFetch_wellListed.
    + left. reflexivity.
  - unfold clearTimeFilter. destruct resp as [ | v]; [left; reflexivity | ].
    destruct (mapWithPrice v) as [l | ] eqn:El; [right | left; reflexivity].
    destruct (mapWithPrice_fmap v l El) as [l0 ->].
    unfold wellListed. simpl.
    eapply Forall_impl; [apply presentable_onlyApproved_fmap | ].
    intros s Hs. split; [exact Hs | discriminate].
Qed.

(** X7.  Changing the start time never leaves a window whose end is at or
    before the start: when the new start is not empty and parses to [a],
    an end time that is still set afterwards and parses to [b] has
    [a < b]. *)
Theorem changeStartTime_keeps_end_after_start (newStartTime e : string) (a b : Z)
    (st : State) :
  newStartTime <> "" ->
  DateParse newStartTime = Some a ->
  endTime (changeStartTime newStartTime st) = Some e ->
  e <> "" ->
  DateParse e = Some b ->
  (a < b)%Z
  /\ startTime (changeStartTime newStartTime st) = Some newStartTime.
Proof.
  intros Hne Ha He Hene Hb. unfold changeStartTime in *.
  destruct (endTime st) as [e0 | ] eqn:E0; [ | simpl in He; congruence].
  apply String.eqb_neq in Hne. rewrite Hne in *. simpl negb in *.
  destruct (negb (String.eqb e0 "")) eqn:Ee0; simpl in *.
  - destruct (num_le (timeValue (DateParse e0)) (timeValue (DateParse newStartTime))) eqn:Ele;
      simpl in He.
    + injection He as <-. contradiction.
    + rewrite E0 in He. injection He as ->. rewrite Ha, Hb in Ele. unfold timeValue in Ele.
      rewrite num_le_inject_Z in Ele. apply Z.leb_gt in Ele. split; [exact Ele | reflexivity].
  - rewrite E0 in He. injection He as ->. apply negb_false_iff, String.eqb_eq in Ee0.
    contradiction.
Qed.

End Loads.

(** ** The filter badge, the location search and the bottom sheets *)

Section Controls.
Import HomeControls.
Local Open Scope Q_scope.

(** X8.  The filter badge: clearing all filters brings the count to 0;
    toggling an amenity moves the count by exactly one and toggling it again
    restores the filter settings; toggles of two amenities commute; choosing
    a price range makes the count at least 1; the count never exceeds 6. *)
Theorem getActiveFilterCount_badge (st : Home.State) :
  getActiveFilterCount (Home.filters (Home.clearAllFilters st)) = 0%nat
  /\ (forall a : Home.Amenity,
        Home.filters (Home.handleFilterToggle a (Home.handleFilterToggle a st))
        = Home.filters st)
  /\ (forall a : Home.Amenity,
        getActiveFilterCount (Home.filters (Home.handleFilterToggle a st))
        = S (getActiveFilterCount (Home.filters st))
        \/ S (getActiveFilterCount (Home.filters (Home.handleFilterToggle a st)))
           = getActiveFilterCount (Home.filters st))
  /\ (forall a b : Home.Amenity,
        Home.filters (Home.handleFilterToggle a (Home.handleFilterToggle b st))
        = Home.filters (Home.handleFilterToggle b (Home.handleFilterToggle a st)))
  /\ (forall min max : JsNumber,
        (1 <= getActiveFilterCount (Home.filters (Home.handlePriceRangeChange min max st)))%nat)
  /\ (getActiveFilterCount (Home.filters st) <= 6)%nat.
Proof.
  destruct st as [ps fs sel loc s e [[c sec ch cc w] pr act] t r sr].
  split; [reflexivity | ].
  split; [intros []; simpl; rewrite negb_involutive; reflexivity | ].
  split.
  { intros []; destruct c, sec, ch, cc, w, act; simpl; auto. }
  split; [intros [] []; reflexivity | ].
  split.
  { intros min max. destruct c, sec, ch, cc, w; apply Nat.leb_le; reflexivity. }
  destruct c, sec, ch, cc, w, act; apply Nat.leb_le; reflexivity.
Qed.

(** X9.  The location search: a query shorter than three UTF-16 code units
    empties and hides the result list without calling the geocoder; a longer
    query calls it once, and then a failure keeps the results on screen and
    shows one error notification, while an answer shows one result per
    feature, in order, with the latitude and longitude read from the
    feature's [[longitude, latitude]] pair.  For a query of ASCII characters
    the length is the number of characters. *)
Theorem searchLocations_outcomes (loc : option Home.Coord) (query : string)
    (resp : GeocodeResponse) (s : SearchState) :
  ((utf16Length query < 3)%nat ->
     searchResults (searchLocations loc query resp s) = []
     /\ showSearchResults (searchLocations loc query resp s) = false
     /\ geocodeRequests (searchLocations loc query resp s) = geocodeRequests s
     /\ searchToasts (searchLocations loc query resp s) = searchToasts s)
  /\ ((3 <= utf16Length query)%nat ->
      geocodeRequests (searchLocations loc query resp s)
      = geocodeRequests s ++ [mkGeocodeRequest query loc]
      /\ match resp with
         | GeocodeRejects =>
             searchResults (searchLocations loc query resp s) = searchResults s
             /\ showSearchResults (searchLocations loc query resp s) = showSearchResults s
             /\ searchToasts (searchLocations loc query resp s)
                = searchToasts s ++ [Home.mkToast Home.TError "Failed to search locations"]
         | GeocodeResolves features =>
             length (searchResults (searchLocations loc query resp s)) = length features
             /\ showSearchResults (searchLocations loc query resp s) = true
             /\ searchToasts (searchLocations loc query resp s) = searchToasts s
             /\ forall (i : nat) (f : Feature),
                  features !! i = Some f ->
                  exists r : Home.GeocodingResult,
                    searchResults (searchLocations loc query resp s) !! i = Some r
                    /\ Home.longitude r = fst (center f)
                    /\ Home.latitude r = snd (center f)
                    /\ Home.address r = place_name f
         end)
  /\ (Forall (fun c : ascii => (nat_of_ascii c < 128)%nat) (String.list_ascii_of_string query) ->
      utf16Length query = String.length query).
Proof.
  unfold searchLocations. split; [ | split].
  3: { induction query as [ | c q IH]; intros Hall; [reflexivity | ].
       simpl in Hall. inversion Hall as [ | ? ? Hc Hq]; subst.
       simpl. rewrite (IH Hq). unfold codeUnits.
       apply Nat.ltb_lt in Hc. rewrite Hc. reflexivity. }
  all: intros Hlen.
  - apply Nat.ltb_lt in Hlen. rewrite Hlen. repeat split; reflexivity.
  - apply Nat.ltb_ge in Hlen. rewrite Hlen. split; [destruct resp; reflexivity | ].
    destruct resp as [ | features]; simpl; [repeat split; reflexivity | ].
    split; [apply length_fmap | ]. split; [reflexivity | ]. split; [reflexivity | ].
    intros i f Hf. exists (toResult f). rewrite list_lookup_fmap, Hf.
    repeat split; reflexivity.
Qed.

(** Clamping between two bounds. *)
Lemma clamp_range (x lo hi : Q) :
  Qmin (Qmax x lo) hi <= hi /\ (lo <= hi -> lo <= Qmin (Qmax x lo) hi).
Proof.
  split; [apply Q.le_min_r | ].
  intros Hlh. apply Q.min_glb; [apply Q.le_max_r | exact Hlh].
Qed.

(** Where a clamped value lands. *)
Lemma clamp_cases (x lo hi : Q) :
  (lo <= x <= hi -> Qmin (Qmax x lo) hi == x)
  /\ (hi <= x -> Qmin (Qmax x lo) hi == hi)
  /\ (x <= lo -> lo <= hi -> Qmin (Qmax x lo) hi == lo).
Proof.
  split; [ | split].
  - intros [Hl Hh]. rewrite Q.max_l by exact Hl. apply Q.min_l. exact Hh.
  - intros Hh. apply Q.min_r. apply Qle_trans with x; [exact Hh | apply Q.le_max_l].
  - intros Hl Hlh. rewrite Q.max_r by exact Hl. apply Q.min_l. exact Hlh.
Qed.

(** X10.  While a sheet is dragged, each pointer move sets the height of the
    element to the height at the start of the drag plus the upward travel
    of the pointer, limited to the maximum height and, when the minimum
    does not exceed the maximum, to the minimum: the sum itself when it lies
    between the bounds, the maximum when it is at or above it, the minimum
    when it is at or below it.  The height depends on the latest pointer
    position only, and the stored sheet height is not touched.  The filter
    sheet follows the same rule with its own bounds, whose minimum never
    exceeds its maximum for a window of non-negative height. *)
Theorem sheet_drag_height_in_range (w : option Q) (y : Q) (s : Sheet) :
  isDragging s = true ->
  (exists h : Q,
      styleHeight (onDragMove w true y s) = Some h
      /\ h <= MAX_HEIGHT w
      /\ (MIN_HEIGHT <= MAX_HEIGHT w -> MIN_HEIGHT <= h)
      /\ (MIN_HEIGHT <= initialSheetHeight s + (startY s - y) <= MAX_HEIGHT w ->
          h == initialSheetHeight s + (startY s - y))
      /\ (MAX_HEIGHT w <= initialSheetHeight s + (startY s - y) -> h == MAX_HEIGHT w)
      /\ (initialSheetHeight s + (startY s - y) <= MIN_HEIGHT ->
          MIN_HEIGHT <= MAX_HEIGHT w -> h == MIN_HEIGHT))
  /\ (exists h : Q,
        styleHeight (onFilterDragMove w true y s) = Some h
        /\ h <= MAX_FILTER_HEIGHT w
        /\ (match w with Some wh => 0 <= wh | None => True end ->
            MIN_FILTER_HEIGHT w <= h)
        /\ (MIN_FILTER_HEIGHT w <= initialSheetHeight s + (startY s - y)
            <= MAX_FILTER_HEIGHT w ->
            h == initialSheetHeight s + (startY s - y))
        /\ (MAX_FILTER_HEIGHT w <= initialSheetHeight s + (startY s - y) ->
            h == MAX_FILTER_HEIGHT w)
        /\ (initialSheetHeight s + (startY s - y) <= MIN_FILTER_HEIGHT w ->
            match w with Some wh => 0 <= wh | None => True end ->
            h == MIN_FILTER_HEIGHT w))
  /\ (forall y' : Q, onDragMove w true y' (onDragMove w true y s) = onDragMove w true y' s)
  /\ (forall y' : Q,
        onFilterDragMove w true y' (onFilterDragMove w true y s)
        = onFilterDragMove w true y' s)
  /\ sheetHeight (onDragMove w true y s) = sheetHeight s
  /\ sheetHeight (onFilterDragMove w true y s) = sheetHeight s.
Proof.
  intros Hd. unfold onDragMove, onFilterDragMove. rewrite Hd. simpl.
  assert (Hbounds : match w with Some wh => 0 <= wh | None => True end ->
                    MIN_FILTER_HEIGHT w <= MAX_FILTER_HEIGHT w).
  { destruct w as [wh | ]; simpl; [intros Hw; nra | discriminate]. }
  split.
  { eexists. split; [reflexivity | ].
    destruct (clamp_range (initialSheetHeight s + (startY s - y)) MIN_HEIGHT (MAX_HEIGHT w))
      as [Hhi Hlo].
    destruct (clamp_cases (initialSheetHeight s + (startY s - y)) MIN_HEIGHT (MAX_HEIGHT w))
      as (Hin & Habove & Hbelow).
    repeat split; assumption. }
  split.
  { eexists. split; [reflexivity | ].
    destruct (clamp_range (initialSheetHeight s + (startY s - y))
                (MIN_FILTER_HEIGHT w) (MAX_FILTER_HEIGHT w)) as [Hhi Hlo].
    destruct (clamp_cases (initialSheetHeight s + (startY s - y))
                (MIN_FILTER_HEIGHT w) (MAX_FILTER_HEIGHT w)) as (Hin & Habove & Hbelow).
    split; [exact Hhi | ]. split; [intros Hw; apply Hlo, Hbounds, Hw | ].
    split; [exact Hin | ]. split; [exact Habove | ].
    intros Hx Hw. apply Hbelow; [exact Hx | apply Hbounds, Hw]. }
  repeat split; reflexivity.
Qed.

End Controls.

(** ** Releasing a sheet *)

Section SheetRelease.
Import HomeControls.
Local Open Scope Q_scope.

Lemma dragMoves_dragging (w : option Q) (ys : list Q) (s : Sheet) :
  isDragging (dragMoves w ys s) = isDragging s
  /\ sheetHeight (dragMoves w ys s) = sheetHeight s
  /\ shown (dragMoves w ys s) = shown s.
Proof.
  unfold dragMoves. revert s. induction ys as [ | y ys IH]; intros s; simpl; [auto | ].
  destruct (IH (onDragMove w true y s)) as (Hd & Hh & Hs). rewrite Hd, Hh, Hs.
  unfold onDragMove. destruct (negb (isDragging s) || negb true); auto.
Qed.

Lemma filterDragMoves_dragging (w : option Q) (ys : list Q) (s : Sheet) :
  isDragging (filterDragMoves w ys s) = isDragging s
  /\ sheetHeight (filterDragMoves w ys s) = sheetHeight s
  /\ shown (filterDragMoves w ys s) = shown s.
Proof.
  unfold filterDragMoves. revert s. induction ys as [ | y ys IH]; intros s; simpl; [auto | ].
  destruct (IH (onFilterDragMove w true y s)) as (Hd & Hh & Hs). rewrite Hd, Hh, Hs.
  unfold onFilterDragMove. destruct (negb (isDragging s) || negb true); auto.
Qed.

Lemma dragMoves_idle (w : option Q) (ys : list Q) (s : Sheet) :
  isDragging s = false -> dragMoves w ys s = s /\ filterDragMoves w ys s = s.
Proof.
  intros Hd. unfold dragMoves, filterDragMoves.
  split; induction ys as [ | y ys IH]; simpl; try reflexivity.
  - unfold onDragMove at 2. rewrite Hd. simpl. exact IH.
  - unfold onFilterDragMove at 2. rewrite Hd. simpl. exact IH.
Qed.

Lemma onDragEnd_over (w : option Q) (off : Q) (off' : option Q) (m : bool) (y : Q)
    (d : Sheet) :
  isDragging d = true ->
  onDragEnd w off' (onDragEnd w (Some off) d) = onDragEnd w (Some off) d
  /\ onDragMove w m y (onDragEnd w (Some off) d) = onDragEnd w (Some off) d.
Proof.
  intros Hd. unfold onDragMove. unfold onDragEnd at 2 3 4 6. rewrite Hd. simpl.
  split; [destruct off'; reflexivity | reflexivity].
Qed.

Lemma onFilterDragEnd_over (w : option Q) (off : Q) (off' : option Q) (m : bool) (y : Q)
    (d : Sheet) :
  isDragging d = true ->
  onFilterDragEnd w off' (onFilterDragEnd w (Some off) d) = onFilterDragEnd w (Some off) d
  /\ onFilterDragMove w m y (onFilterDragEnd w (Some off) d)
     = onFilterDragEnd w (Some off) d.
Proof.
  intros Hd. unfold onFilterDragMove. unfold onFilterDragEnd at 2 3 4 6. rewrite Hd. simpl.
  split; [destruct off'; reflexivity | reflexivity].
Qed.

(** X11.  A complete drag of a sheet (pointer down on the mounted sheet, any
    pointer moves, release) ends with the sheet at one of two heights: the
    maximum when the height of the element at the release is above the
    middle height, the minimum otherwise, whatever was shown during the
    drag; the drag is over, so that a second release and later pointer
    moves change nothing.  The list sheet and the filter sheet follow the
    same rule, each with its own heights. *)
Theorem sheet_release_snaps (w : option Q) (h0 y0 off : Q) (ys : list Q) (s : Sheet) :
  sheetHeight (onDragEnd w (Some off) (dragMoves w ys (onDragStart (Some h0) y0 s)))
  = (if Qgtb off (MID_HEIGHT w) then MAX_HEIGHT w else MIN_HEIGHT)
  /\ sheetHeight
       (onFilterDragEnd w (Some off)
          (filterDragMoves w ys (onFilterDragStart (Some h0) y0 s)))
     = (if Qgtb off (MID_FILTER_HEIGHT w) then MAX_FILTER_HEIGHT w
        else MIN_FILTER_HEIGHT w)
  /\ (forall (off' : option Q) (m : bool) (y : Q),
        onDragEnd w off'
          (onDragEnd w (Some off) (dragMoves w ys (onDragStart (Some h0) y0 s)))
        = onDragEnd w (Some off) (dragMoves w ys (onDragStart (Some h0) y0 s))
        /\ onDragMove w m y
             (onDragEnd w (Some off) (dragMoves w ys (onDragStart (Some h0) y0 s)))
           = onDragEnd w (Some off) (dragMoves w ys (onDragStart (Some h0) y0 s)))
  /\ (forall (off' : option Q) (m : bool) (y : Q),
        onFilterDragEnd w off'
          (onFilterDragEnd w (Some off)
             (filterDragMoves w ys (onFilterDragStart (Some h0) y0 s)))
        = onFilterDragEnd w (Some off)
            (filterDragMoves w ys (onFilterDragStart (Some h0) y0 s))
        /\ onFilterDragMove w m y
             (onFilterDragEnd w (Some off)
                (filterDragMoves w ys (onFilterDragStart (Some h0) y0 s)))
           = onFilterDragEnd w (Some off)
               (filterDragMoves w ys (onFilterDragStart (Some h0) y0 s))).
Proof.
  destruct (dragMoves_dragging w ys (onDragStart (Some h0) y0 s)) as (Hd & _ & _).
  destruct (filterDragMoves_dragging w ys (onFilterDragStart (Some h0) y0 s)) as (Hfd & _ & _).
  change (isDragging (onDragStart (Some h0) y0 s)) with true in Hd.
  change (isDragging (onFilterDragStart (Some h0) y0 s)) with true in Hfd.
  split.
  { unfold onDragEnd. rewrite Hd. simpl.
    destruct (Qgtb off (MID_HEIGHT w)); [reflexivity | ].
    destruct (_ && _); reflexivity. }
  split.
  { unfold onFilterDragEnd. rewrite Hfd. reflexivity. }
  split.
  - intros off' m y. apply onDragEnd_over. exact Hd.
  - intros off' m y. apply onFilterDragEnd_over. exact Hfd.
Qed.

(** X12.  Pointer events reach a sheet only through a pointer down on the
    mounted element: from a state that is not in a drag, a pointer down on
    an unmounted sheet, any pointer moves and a release leave the state of
    either sheet as it is. *)
Theorem sheet_ignores_stray_pointer_events (w : option Q) (y0 : Q) (off : option Q)
    (ys : list Q) (s : Sheet) :
  isDragging s = false ->
  onDragEnd w off (dragMoves w ys (onDragStart None y0 s)) = s
  /\ onFilterDragEnd w off (filterDragMoves w ys (onFilterDragStart None y0 s)) = s
  /\ onDragEnd w off (dragMoves w ys s) = s
  /\ onFilterDragEnd w off (filterDragMoves w ys s) = s.
Proof.
  intros Hd. simpl.
  destruct (dragMoves_idle w ys s Hd) as [-> ->].
  unfold onDragEnd, onFilterDragEnd. rewrite Hd. simpl.
  destruct off; repeat split; reflexivity.
Qed.

(** X13.  [openListSheet] shows the list at the requested height limited to
    the maximum and, when the minimum does not exceed the maximum, to the
    minimum; without a numeric height it opens at the minimum. *)
Theorem openListSheet_height (w : option Q) (height : option Q) (mounted : bool)
    (s : Sheet) :
  shown (openListSheet w height mounted s) = true
  /\ (height = None -> sheetHeight (openListSheet w height mounted s) = MIN_HEIGHT)
  /\ (forall h : Q,
        height = Some h ->
        sheetHeight (openListSheet w height mounted s) <= MAX_HEIGHT w
        /\ (MIN_HEIGHT <= MAX_HEIGHT w ->
            MIN_HEIGHT <= sheetHeight (openListSheet w height mounted s))
        /\ (MIN_HEIGHT <= h <= MAX_HEIGHT w ->
            sheetHeight (openListSheet w height mounted s) == h))
  /\ (mounted = true ->
      styleHeight (openListSheet w height mounted s)
      = Some (sheetHeight (openListSheet w height mounted s))).
Proof.
  split; [reflexivity | ]. split; [intros ->; reflexivity | ].
  split.
  - intros h ->. simpl.
    destruct (clamp_range h MIN_HEIGHT (MAX_HEIGHT w)) as [Hhi Hlo].
    split; [exact Hhi | ]. split; [exact Hlo | ].
    intros [Hl Hh]. rewrite Q.max_l by exact Hl. apply Q.min_l. exact Hh.
  - intros ->. reflexivity.
Qed.

End SheetRelease.

(** ** The debounce utility *)

Section Debouncing.
Context {A : Type}.
Import Debounce.

Lemma last_cons_default (c : Z * A) (cs : list (Z * A)) (d : Z * A) :
  List.last (c :: cs) d = List.last cs c.
Proof.
  revert c d. induction cs as [ | c' cs IH]; intros c d; [reflexivity | ].
  change (List.last (c :: c' :: cs) d) with (List.last (c' :: cs) d).
  rewrite (IH c' d). symmetry. apply (IH c' c).
Qed.

Lemma removelast_fmap_last {B : Type} (g : Z * A -> B) (c : Z * A) (cs : list (Z * A)) :
  List.removelast (g <$> (c :: cs)) ++ [g (List.last cs c)] = g <$> (c :: cs).
Proof.
  revert c. induction cs as [ | c' cs IH]; intros c; [reflexivity | ].
  change (List.removelast (g <$> c :: c' :: cs))
    with (g c :: List.removelast (g <$> c' :: cs)).
  rewrite last_cons_default, <- app_comm_cons.
  change (g <$> c :: c' :: cs) with (g c :: (g <$> c' :: cs)).
  f_equal. apply (IH c').
Qed.

Lemma calls_burst (wait t : Z) (a : A) (cs : list (Z * A)) (d : Debounced A) :
  timeout d = Some ((t + wait)%Z, a) ->
  burst wait t cs ->
  fired (calls wait cs d) = fired d
  /\ timeout (calls wait cs d)
     = Some ((fst (List.last cs (t, a)) + wait)%Z, snd (List.last cs (t, a))).
Proof.
  unfold calls. revert t a d. induction cs as [ | [t' a'] cs IH]; intros t a d Ht Hb.
  - simpl. auto.
  - destruct Hb as [[Hle Hlt] Hb]. simpl in Hle, Hlt, Hb. simpl fold_left.
    assert (Hcall : fired (call wait t' a' d) = fired d).
    { unfold call, elapse. rewrite Ht. simpl.
      destruct (t + wait <=? t')%Z eqn:E; [apply Z.leb_le in E; lia | reflexivity]. }
    destruct (IH t' a' (call wait t' a' d) eq_refl Hb) as [Hf Hto].
    rewrite Hf, Hcall. split; [reflexivity | ].
    rewrite Hto, last_cons_default. reflexivity.
Qed.

Lemma calls_spaced (wait t : Z) (a : A) (cs : list (Z * A)) (d : Debounced A) :
  timeout d = Some ((t + wait)%Z, a) ->
  spaced wait t cs ->
  fired (calls wait cs d)
  = fired d ++ List.removelast ((fun c => ((fst c + wait)%Z, snd c)) <$> ((t, a) :: cs))
  /\ timeout (calls wait cs d)
     = Some ((fst (List.last cs (t, a)) + wait)%Z, snd (List.last cs (t, a))).
Proof.
  unfold calls. revert t a d. induction cs as [ | [t' a'] cs IH]; intros t a d Ht Hs.
  - simpl. rewrite app_nil_r. auto.
  - destruct Hs as [Hle Hs]. simpl in Hle, Hs. simpl fold_left.
    assert (Hcall : fired (call wait t' a' d) = fired d ++ [((t + wait)%Z, a)]).
    { unfold call, elapse. rewrite Ht. simpl.
      destruct (t + wait <=? t')%Z eqn:E; [reflexivity | apply Z.leb_gt in E; lia]. }
    destruct (IH t' a' (call wait t' a' d) eq_refl Hs) as [Hf Hto].
    rewrite Hf, Hcall, Hto. split.
    + rewrite <- app_assoc. reflexivity.
    + rewrite last_cons_default. reflexivity.
Qed.

(** X14.  Debouncing.  When every call of a debounced function comes less
    than [wait] after the one before, the wrapped function runs once, with
    the arguments of the last call, [wait] after that call, and not
    before.  When every call comes at least [wait] after the one before,
    the wrapped function runs for each call, in order, with that call's
    arguments. *)
Theorem debounce_fires_last_of_burst (wait t0 : Z) (a0 : A) (cs : list (Z * A))
    (now : Z) :
  (burst wait t0 cs ->
     fired (elapse now (calls wait ((t0, a0) :: cs) idle))
     = if (fst (List.last cs (t0, a0)) + wait <=? now)%Z
       then [((fst (List.last cs (t0, a0)) + wait)%Z, snd (List.last cs (t0, a0)))]
       else [])
  /\ (spaced wait t0 cs ->
      (fst (List.last cs (t0, a0)) + wait <= now)%Z ->
      fired (elapse now (calls wait ((t0, a0) :: cs) idle))
      = (fun c => ((fst c + wait)%Z, snd c)) <$> ((t0, a0) :: cs)).
Proof.
  split.
  - intros Hb. unfold calls. simpl fold_left.
    destruct (calls_burst wait t0 a0 cs (call wait t0 a0 idle) eq_refl Hb) as [Hf Hto].
    unfold calls in Hf, Hto. unfold elapse. rewrite Hto.
    destruct (_ <=? now)%Z; simpl; rewrite Hf; reflexivity.
  - intros Hs Hnow. unfold calls. simpl fold_left.
    destruct (calls_spaced wait t0 a0 cs (call wait t0 a0 idle) eq_refl Hs) as [Hf Hto].
    unfold calls in Hf, Hto. unfold elapse. rewrite Hto.
    apply Z.leb_le in Hnow. rewrite Hnow. simpl fired. rewrite Hf.
    change (fired (call wait t0 a0 idle)) with (@nil (Z * A)). simpl app.
    apply (removelast_fmap_last (fun c => ((fst c + wait)%Z, snd c)) (t0, a0) cs).
Qed.

End Debouncing.

(** ** Booking from the detail screen *)

Section BookingHandoff.
Context `{rt : JsRuntime}.
Import Booking.

(** X15.  [Book Now] navigates exactly when a user is present, its
    [isVerified] is truthy and its [_id ?? id] is truthy; the hand-off then
    carries the text of the space's [_id], the very text realtime events are
    matched against on this screen, and the text of the user's identifier.
    In every other case it shows a single notification and does not
    navigate. *)
Theorem handleBookNow_outcomes (user : option JsObject) (space : JsObject) :
  (forall path sid uid : string,
      handleBookNow user space = Navigate path sid uid <->
      exists u : JsObject,
        user = Some u
        /\ truthy (get u "isVerified") = true
        /\ truthy (js_coalesce (get u "_id") (get u "id")) = true
        /\ path = "/vehicle-details"
        /\ sid = ToString (get space "_id")
        /\ sid = ToString (ParkingDetails.displayedId space)
        /\ uid = ToString (js_coalesce (get u "_id") (get u "id")))
  /\ (user = None -> handleBookNow user space = Notify Home.TInfo msgLogIn)
  /\ (forall u : JsObject,
        user = Some u -> truthy (get u "isVerified") = false ->
        handleBookNow user space = Notify Home.TInfo msgNotVerified)
  /\ (forall u : JsObject,
        user = Some u -> truthy (get u "isVerified") = true ->
        truthy (js_coalesce (get u "_id") (get u "id")) = false ->
        handleBookNow user space = Notify Home.TError msgNoUserId).
Proof.
  split.
  { intros path sid uid. unfold handleBookNow. split.
    - destruct user as [u | ]; [ | discriminate].
      destruct (truthy (get u "isVerified")) eqn:Ev; simpl; [ | discriminate].
      destruct (truthy (js_coalesce (get u "_id") (get u "id"))) eqn:Eu; simpl;
        [ | discriminate].
      intros [= <- <- <-]. exists u. rewrite displayedId_ToString. repeat split; auto.
    - intros (u & -> & Hv & Hu & -> & _ & -> & ->). rewrite Hv, Hu. reflexivity. }
  split; [intros ->; reflexivity | ].
  split.
  - intros u -> Hv. unfold handleBookNow. rewrite Hv. reflexivity.
  - intros u -> Hv Hu. unfold handleBookNow. rewrite Hv, Hu. reflexivity.
Qed.

End BookingHandoff.

(** ** The landing page and the search overlay *)

Section Landing.

(** X16.  On the landing page a search selection is always reported to the
    parent (when the callback is given) and always closes the overlay,
    whether the fetch succeeds or not.  A rejected fetch keeps the spaces
    and shows one error notification; a resolved array is stored as it is,
    without any approval filter, with an information notice when it is
    empty. *)
Theorem Front_handleLocationSelect_reports (hasCallback : bool)
    (result : Home.GeocodingResult) (nearby : Home.Response) (s : Front.State) :
  Front.isSearchOpen (Front.handleLocationSelect hasCallback result nearby s) = false
  /\ Front.reported (Front.handleLocationSelect hasCallback result nearby s)
     = (if hasCallback then Front.reported s ++ [result] else Front.reported s)
  /\ (nearby = Home.Rejects ->
      Front.parkingSpaces (Front.handleLocationSelect hasCallback result nearby s)
      = Front.parkingSpaces s
      /\ Front.toasts (Front.handleLocationSelect hasCallback result nearby s)
         = Front.toasts s ++ [Home.mkToast Home.TError Front.msgSelectFailed])
  /\ (forall l : list JsObject,
        nearby = Home.Resolves (Home.ArrayOf l) ->
        Front.parkingSpaces (Front.handleLocationSelect hasCallback result nearby s)
        = Home.ArrayOf l
        /\ Front.toasts (Front.handleLocationSelect hasCallback result nearby s)
           = match l with
             | [] => Front.toasts s ++ [Home.mkToast Home.TInfo Front.msgNoneNearby]
             | _ :: _ => Front.toasts s
             end).
Proof.
  unfold Front.handleLocationSelect. split; [reflexivity | ].
  split.
  { destruct nearby as [ | [v | [ | x l]]]; simpl; try reflexivity.
    destruct (nullish v); simpl; [reflexivity | ].
    destruct v as [ | | | | [ | ] | | ]; reflexivity. }
  split; [intros ->; split; reflexivity | ].
  intros l ->. destruct l; split; reflexivity.
Qed.

(** The overlay between two events: not loading, and, when the parent gave
    [setResults], showing the list it handed up last. *)
Lemma overlay_invariant (hasSetResults : bool) (events : list OverlayEvent) :
  let s := fold_left (overlayStep hasSetResults) events SearchOverlay.initialState in
  SearchOverlay.loading s = false
  /\ (hasSetResults = true ->
      last (SearchOverlay.handedUp s) = Some (SearchOverlay.results s)
      \/ (SearchOverlay.handedUp s = [] /\ SearchOverlay.results s = [])).
Proof.
  cbv zeta.
  assert (Hgen : forall s0,
            SearchOverlay.loading s0 = false
            /\ (hasSetResults = true ->
                last (SearchOverlay.handedUp s0) = Some (SearchOverlay.results s0)
                \/ (SearchOverlay.handedUp s0 = [] /\ SearchOverlay.results s0 = [])) ->
            SearchOverlay.loading (fold_left (overlayStep hasSetResults) events s0) = false
            /\ (hasSetResults = true ->
                last (SearchOverlay.handedUp (fold_left (overlayStep hasSetResults) events s0))
                = Some (SearchOverlay.results (fold_left (overlayStep hasSetResults) events s0))
                \/ (SearchOverlay.handedUp (fold_left (overlayStep hasSetResults) events s0) = []
                    /\ SearchOverlay.results (fold_left (overlayStep hasSetResults) events s0) = []))).
  { induction events as [ | e events IH]; intros s0 Hs0; [exact Hs0 | ].
    simpl. apply IH. destruct Hs0 as [Hl Hm].
    destruct e as [[ | ] | [r | ] | q]; simpl;
      unfold SearchOverlay.onOpenChange, SearchOverlay.handleSearch,
        SearchOverlay.updateResults, SearchOverlay.setQuery; simpl.
    - auto.
    - split; [exact Hl | ]. intros ->. left. apply last_snoc.
    - split; [reflexivity | ]. intros ->. left. apply last_snoc.
    - split; [reflexivity | ]. exact Hm.
    - split; [exact Hl | ]. exact Hm. }
  apply Hgen. split; [reflexivity | ]. intros _. right. split; reflexivity.
Qed.

(** X17.  The search overlay, after any sequence of searches, query edits and
    openings or closings: it is never left in its loading state, even after
    a search that failed; with a [setResults] prop, the list it shows is the
    list it handed to the parent last; a failed search keeps the results;
    and closing it empties the query and the results. *)
Theorem SearchOverlay_results_mirror (hasSetResults : bool) (events : list OverlayEvent) :
  SearchOverlay.loading
    (fold_left (overlayStep hasSetResults) events SearchOverlay.initialState) = false
  /\ (hasSetResults = true ->
      last (SearchOverlay.handedUp
              (fold_left (overlayStep hasSetResults) events SearchOverlay.initialState))
      = Some (SearchOverlay.results
                (fold_left (overlayStep hasSetResults) events SearchOverlay.initialState))
      \/ (SearchOverlay.handedUp
            (fold_left (overlayStep hasSetResults) events SearchOverlay.initialState) = []
          /\ SearchOverlay.results
               (fold_left (overlayStep hasSetResults) events SearchOverlay.initialState)
             = []))
  /\ (forall s : SearchOverlay.State,
        SearchOverlay.results (SearchOverlay.handleSearch hasSetResults None s)
        = SearchOverlay.results s
        /\ SearchOverlay.loading (SearchOverlay.handleSearch hasSetResults None s) = false)
  /\ (forall s : SearchOverlay.State,
        SearchOverlay.query (SearchOverlay.onOpenChange hasSetResults false s) = ""
        /\ SearchOverlay.results (SearchOverlay.onOpenChange hasSetResults false s) = []).
Proof.
  destruct (overlay_invariant hasSetResults events) as [Hl Hm].
  split; [exact Hl | ]. split; [exact Hm | ].
  split; intros s; split; reflexivity.
Qed.

End Landing.

(** ** The splash screen's timers *)

Section SplashTimers.
Import Splash.

(** X18.  The splash screen, for one run of its effect started at [now] with
    a non-negative [duration]: [onFinish] is called at most once, at
    [now + duration + 400] and not before; a cleanup before
    [now + duration] cancels it for good and the splash is never hidden;
    a cleanup after the splash was hidden, before the 400 ms have passed,
    does not cancel it: [onFinish] is still called. *)
Theorem Splash_onFinish_timing (hasOnFinish : bool) (now duration : Z) :
  (0 <= duration)%Z ->
  (forall t : Z,
      finished (elapse hasOnFinish t (mount now duration))
      = if hasOnFinish && (now + duration + 400 <=? t)%Z
        then [(now + duration + 400)%Z] else [])
  /\ (forall t : Z,
        hidden (elapse hasOnFinish t (mount now duration)) = (now + duration <=? t)%Z)
  /\ (forall t1 t2 : Z,
        (t1 <= t2)%Z ->
        elapse hasOnFinish t2 (elapse hasOnFinish t1 (mount now duration))
        = elapse hasOnFinish t2 (mount now duration))
  /\ (forall tu t : Z,
        (tu < now + duration)%Z ->
        finished (elapse hasOnFinish t (cleanup (elapse hasOnFinish tu (mount now duration))))
        = []
        /\ hidden (elapse hasOnFinish t (cleanup (elapse hasOnFinish tu (mount now duration))))
           = false)
  /\ (forall tu t : Z,
        (now + duration <= tu < now + duration + 400)%Z ->
        (now + duration + 400 <= t)%Z ->
        finished (elapse hasOnFinish t (cleanup (elapse hasOnFinish tu (mount now duration))))
        = if hasOnFinish then [(now + duration + 400)%Z] else []).
Proof.
  intros Hd.
  assert (Hcase : forall a b : Z, (a <=? b)%Z = true \/ (a <=? b)%Z = false)
    by (intros a b; destruct (a <=? b)%Z; auto).
  split.
  { intros t. unfold elapse, mount. simpl.
    destruct (now + duration <=? t)%Z eqn:E1; simpl.
    - destruct (now + duration + 400 <=? t)%Z eqn:E2; simpl;
        destruct hasOnFinish; reflexivity.
    - assert (E2 : (now + duration + 400 <=? t)%Z = false)
        by (apply Z.leb_gt; apply Z.leb_gt in E1; lia).
      rewrite E2, andb_false_r. reflexivity. }
  split.
  { intros t. unfold elapse, mount. simpl.
    destruct (now + duration <=? t)%Z eqn:E1; simpl; [ | reflexivity].
    destruct (now + duration + 400 <=? t)%Z; reflexivity. }
  split.
  { intros t1 t2 Ht. unfold elapse, mount. simpl.
    destruct (now + duration <=? t1)%Z eqn:E1; simpl.
    - assert (E1' : (now + duration <=? t2)%Z = true)
        by (apply Z.leb_le; apply Z.leb_le in E1; lia).
      rewrite E1'. simpl.
      destruct (now + duration + 400 <=? t1)%Z eqn:E2; simpl.
      + assert (E2' : (now + duration + 400 <=? t2)%Z = true)
          by (apply Z.leb_le; apply Z.leb_le in E2; lia).
        rewrite E2'. reflexivity.
      + destruct (now + duration + 400 <=? t2)%Z; reflexivity.
    - destruct (now + duration <=? t2)%Z; simpl; [ | reflexivity].
      destruct (now + duration + 400 <=? t2)%Z; reflexivity. }
  split.
  { intros tu t Htu. unfold elapse, cleanup, mount. simpl.
    assert (E1 : (now + duration <=? tu)%Z = false) by (apply Z.leb_gt; lia).
    rewrite E1. simpl. split; reflexivity. }
  intros tu t [Hlo Hhi] Ht. unfold elapse, cleanup, mount. simpl.
  assert (E1 : (now + duration <=? tu)%Z = true) by (apply Z.leb_le; lia).
  assert (E2 : (now + duration + 400 <=? tu)%Z = false) by (apply Z.leb_gt; lia).
  assert (E3 : (now + duration + 400 <=? t)%Z = true) by (apply Z.leb_le; lia).
  rewrite E1. simpl. rewrite E2. simpl. rewrite E3. reflexivity.
Qed.

End SplashTimers.

(** ** The component between its actions *)

Section Actions.
Context `{rt : JsRuntime}.
Import Home.

Lemma validateTimeSelection_location (now : Z) (start end_ : string) (st : State) :
  currentLocation (snd (validateTimeSelection now start end_ st)) = currentLocation st.
Proof.
  destruct (validateTimeSelection_outcome now start end_ st) as [-> | [msg ->]]; reflexivity.
Qed.

Lemma loadDefaultParkingMarkers_location (c : Coord) (g : bool) (all nearby : Response)
    (st : State) :
  currentLocation (loadDefaultParkingMarkers c g all nearby st) = currentLocation st.
Proof.
  unfold loadDefaultParkingMarkers, loadNearbyMarkers. break_matches; reflexivity.
Qed.

Lemma applyTimeFilterFetch_location (resp : Response) (st : State) :
  currentLocation (applyTimeFilterFetch resp st) = currentLocation st.
Proof. unfold applyTimeFilterFetch. break_matches; reflexivity. Qed.

Lemma handler_location (a : Action) (st : State) :
  isMount a = false -> currentLocation (handler a st) = currentLocation st.
Proof.
  destruct a; simpl; intros Hm; try discriminate; try reflexivity.
  - unfold handleGoToCurrentLocation. destruct (currentLocation st) eqn:E;
      [rewrite loadDefaultParkingMarkers_location | ]; exact E || (simpl; exact E).
  - unfold handleSearchByCurrentLocation. destruct (currentLocation st) eqn:E;
      [rewrite loadDefaultParkingMarkers_location | ]; simpl; exact E.
  - unfold clearSearch. destruct (currentLocation st) eqn:E;
      [rewrite loadDefaultParkingMarkers_location | ]; exact E.
  - unfold handleLocationSelect. break_matches; reflexivity.
  - unfold applyTimeFilter.
    destruct (startTime st) as [s | ]; [ | apply applyTimeFilterFetch_location].
    destruct (endTime st) as [e | ]; [ | apply applyTimeFilterFetch_location].
    destruct (windowActive _ _); [ | apply applyTimeFilterFetch_location].
    destruct (validateTimeSelection_outcome now s e st) as [-> | [msg ->]];
      [apply applyTimeFilterFetch_location | reflexivity].
  - unfold clearTimeFilter. break_matches; reflexivity.
  - unfold changeStartTime. break_matches; reflexivity.
  - apply handleParkingUpdate_silent.
Qed.

Lemma syncFilteredSpaces_location (st : State) :
  currentLocation (syncFilteredSpaces st) = currentLocation st.
Proof. unfold syncFilteredSpaces. destruct (spacesReplaced st); reflexivity. Qed.

Lemma run_location (actions : list Action) (st : State) :
  Forall (fun a => isMount a = false) actions ->
  currentLocation (run actions st) = currentLocation st.
Proof.
  unfold run. revert st. induction actions as [ | a actions IH]; intros st Hall;
    [reflexivity | ].
  inversion Hall as [ | ? ? Ha Hrest]; subst. simpl. rewrite (IH _ Hrest).
  unfold step. rewrite syncFilteredSpaces_location. apply handler_location, Ha.
Qed.

(** X19.  Once the mount effect has run, a current location is known in
    every later state: the position the lookup gave, or the default
    location (28.6139, 77.2090) when the lookup was unavailable or failed.
    No later action changes it, so the buttons that reload around the
    current location always find one; a failed lookup shows its
    notification first. *)
Theorem currentLocation_known_after_mount (geo : Geolocation) (g : bool)
    (all nearby : Response) (actions : list Action) (st : State) :
  Forall (fun a => isMount a = false) actions ->
  currentLocation (run actions (step st (Init geo g all nearby))) = Some (locatedAt geo)
  /\ (forall (g' : bool) (all' nearby' : Response),
        handler (GoToCurrentLocation g' all' nearby')
          (run actions (step st (Init geo g all nearby)))
        = loadDefaultParkingMarkers (locatedAt geo) g' all' nearby'
            (run actions (step st (Init geo g all nearby))))
  /\ (geo = GeoFailed ->
      exists ts : list Toast,
        toasts (step st (Init geo g all nearby))
        = toasts st ++ mkToast TError msgEnableLocation :: ts).
Proof.
  intros Hall.
  assert (Hloc : currentLocation (run actions (step st (Init geo g all nearby)))
                 = Some (locatedAt geo)).
  { rewrite (run_location _ _ Hall). unfold step. rewrite syncFilteredSpaces_location.
    simpl. unfold init. destruct geo; rewrite loadDefaultParkingMarkers_location;
      reflexivity. }
  split; [exact Hloc | ]. split.
  - intros g' all' nearby'. simpl. unfold handleGoToCurrentLocation. rewrite Hloc.
    reflexivity.
  - intros ->. unfold step. simpl. unfold init, loadDefaultParkingMarkers, loadNearbyMarkers.
    destruct g; [destruct all as [ | [v | [ | x l]]] | ]; destruct nearby; simpl;
      unfold syncFilteredSpaces; simpl; rewrite <- ?app_assoc; simpl; eauto;
      exists []; reflexivity.
Qed.

Lemma loadDefaultParkingMarkers_requests (c : Coord) (g : bool) (all nearby : Response)
    (st : State) :
  exists rs : list Request,
    requests (loadDefaultParkingMarkers c g all nearby st) = requests st ++ rs
    /\ (1 <= length rs <= 2)%nat
    /\ Forall (fun r => requestWindow r = (startTime st, endTime st, Some true)) rs.
Proof.
  unfold loadDefaultParkingMarkers, loadNearbyMarkers.
  destruct g; [destruct all as [ | [v | [ | x l]]] | ]; destruct nearby; simpl;
    rewrite <- ?app_assoc; simpl;
    (eexists; split; [reflexivity | split; [simpl; lia | repeat constructor]]).
Qed.

Lemma applyTimeFilterFetch_requests (resp : Response) (st : State) :
  exists rs : list Request,
    requests (applyTimeFilterFetch resp st) = requests st ++ rs
    /\ (1 <= length rs <= 2)%nat
    /\ Forall (fun r => requestWindow r = (startTime st, endTime st, Some true)) rs.
Proof.
  unfold applyTimeFilterFetch, windowRequest.
  destruct resp as [ | v]; [ | destruct (mapWithPrice v)]; destruct (currentLocation st);
    simpl; (eexists; split; [reflexivity | split; [simpl; lia | repeat constructor]]).
Qed.

Lemma handler_requests (a : Action) (st : State) :
  exists rs : list Request,
    requests (handler a st) = requests st ++ rs
    /\ (length rs <= 2)%nat
    /\ (isLoadAction a = false -> rs = [])
    /\ Forall (fun r => requestWindow r
                        = match a with
                          | ClearTimeFilter _ => (None, None, None)
                          | _ => (startTime st, endTime st, Some true)
                          end) rs.
Proof.
  assert (Hnone : forall st' : State,
             requests st' = requests st ->
             forall w : option string * option string * option bool,
             exists rs : list Request,
               requests st' = requests st ++ rs /\ (length rs <= 2)%nat
               /\ (isLoadAction a = false -> rs = [])
               /\ Forall (fun r => requestWindow r = w) rs).
  { intros st' Hr w. exists []. rewrite app_nil_r. simpl. repeat split; auto. }
  assert (Hsome : forall (st' : State) (w : option string * option string * option bool),
             isLoadAction a = true ->
             (exists rs : list Request,
                 requests st' = requests st ++ rs /\ (1 <= length rs <= 2)%nat
                 /\ Forall (fun r => requestWindow r = w) rs) ->
             exists rs : list Request,
               requests st' = requests st ++ rs /\ (length rs <= 2)%nat
               /\ (isLoadAction a = false -> rs = [])
               /\ Forall (fun r => requestWindow r = w) rs).
  { intros st' w Hl (rs & Hrs & Hlen & Hw). exists rs.
    repeat split; auto; try lia; congruence. }
  destruct a; simpl; try (apply Hnone; reflexivity).
  - apply Hsome; [reflexivity | ]. unfold init. destruct geo.
    + apply (loadDefaultParkingMarkers_requests c hasGetAll all nearby
               (setCurrentLocation (Some c) st)).
    + apply (loadDefaultParkingMarkers_requests defaultLocation hasGetAll all nearby
               (setCurrentLocation (Some defaultLocation) st)).
    + apply (loadDefaultParkingMarkers_requests defaultLocation hasGetAll all nearby
               (setCurrentLocation (Some defaultLocation)
                  (toast TError msgEnableLocation st))).
  - unfold handleGoToCurrentLocation. destruct (currentLocation st) as [c | ].
    + apply Hsome; [reflexivity | apply loadDefaultParkingMarkers_requests].
    + apply Hnone; reflexivity.
  - unfold handleSearchByCurrentLocation. destruct (currentLocation st) as [c | ].
    + apply Hsome; [reflexivity | ].
      apply (loadDefaultParkingMarkers_requests c hasGetAll all nearby
               (toast TSuccess "Showing parking spaces around you" st)).
    + apply Hnone; reflexivity.
  - unfold clearSearch. destruct (currentLocation st) as [c | ].
    + apply Hsome; [reflexivity | apply loadDefaultParkingMarkers_requests].
    + apply Hnone; reflexivity.
  - apply Hsome; [reflexivity | ]. unfold handleLocationSelect.
    destruct nearby as [ | v]; [ | destruct (mapWithPrice v) as [l | ];
                                   [destruct (filterByWindow _ _) | ]]; simpl;
      (eexists; split; [reflexivity | split; [simpl; lia | repeat constructor]]).
  - unfold applyTimeFilter.
    assert (Hplain := Hsome (applyTimeFilterFetch resp st)
                        (startTime st, endTime st, Some true) eq_refl
                        (applyTimeFilterFetch_requests resp st)).
    destruct (startTime st) as [s | ] eqn:Es; [ | exact Hplain].
    destruct (endTime st) as [e | ] eqn:Ee; [ | exact Hplain].
    destruct (windowActive _ _); [ | exact Hplain].
    destruct (validateTimeSelection_outcome now s e st) as [-> | [msg ->]];
      [exact Hplain | apply Hnone; reflexivity].
  - apply Hsome; [reflexivity | ]. unfold clearTimeFilter, windowRequest.
    destruct resp as [ | v]; [ | destruct (mapWithPrice v) as [l | ]]; simpl;
      destruct (currentLocation st); simpl;
      (eexists; split; [reflexivity | split; [simpl; lia | repeat constructor]]).
  - unfold changeStartTime. break_matches; apply Hnone; reflexivity.
  - apply Hnone; apply handleParkingUpdate_silent.
Qed.

(** X20.  Only the actions that load spaces call the parking service.  Every
    action keeps the calls made so far and adds at most two; a realtime
    event, the selection of a space, a change of a time input and every
    filter action add none.  The [Clear] button asks without a time window;
    every other call carries the time window of the state the action starts
    from, and asks for online spaces only. *)
Theorem only_loads_call_the_service (a : Action) (st : State) :
  exists rs : list Request,
    requests (step st a) = requests st ++ rs
    /\ (length rs <= 2)%nat
    /\ (isLoadAction a = false -> rs = [])
    /\ Forall (fun r => requestWindow r
                        = match a with
                          | ClearTimeFilter _ => (None, None, None)
                          | _ => (startTime st, endTime st, Some true)
                          end) rs.
Proof.
  destruct (handler_requests a st) as (rs & Hr & H).
  exists rs. unfold step, syncFilteredSpaces.
  destruct (spacesReplaced (handler a st)); simpl; rewrite <- Hr; auto.
Qed.

Lemma onlyApproved_fmap_withPrice (l : list JsObject) :
  onlyApproved (ArrayOf (withPrice <$> l)) = withPrice <$> onlyApproved (ArrayOf l).
Proof.
  unfold onlyApproved. induction l as [ | s l IH]; [reflexivity | ].
  cbn [fmap list_fmap List.filter]. rewrite approved_withPrice.
  destruct (approved s); cbn [fmap list_fmap]; [f_equal | ]; exact IH.
Qed.

(** X21.  The loaders agree on an array.  For the same array answer of the
    service and the same time window, a search selection, the
    [Apply Time Filter] fetch and a reload around the current location list
    the same spaces, although two of them annotate before they filter and
    the third filters first; clearing the time filter lists the approved
    spaces without the free-spot test.  They differ on an answer that is
    truthy but no array: the reload empties the list, the search selection
    keeps the list and reports a failure. *)
Theorem loaders_agree_on_arrays (result : GeocodingResult) (c : Coord)
    (l : list JsObject) (st : State) :
  parkingSpaces (handleLocationSelect result (Resolves (ArrayOf l)) st)
  = parkingSpaces (loadNearbyMarkers c (Resolves (ArrayOf l)) st)
  /\ parkingSpaces (applyTimeFilterFetch (Resolves (ArrayOf l)) st)
     = parkingSpaces (loadNearbyMarkers c (Resolves (ArrayOf l)) st)
  /\ parkingSpaces (clearTimeFilter (Resolves (ArrayOf l)) st)
     = withPrice <$> onlyApproved (ArrayOf l)
  /\ (forall v : JsValue,
        truthy v = true ->
        parkingSpaces (loadNearbyMarkers c (Resolves (NotArray v)) st) = []
        /\ parkingSpaces (handleLocationSelect result (Resolves (NotArray v)) st)
           = parkingSpaces st
        /\ toasts (handleLocationSelect result (Resolves (NotArray v)) st)
           = toasts st ++ [mkToast TError msgSelectFailed]).
Proof.
  split.
  { unfold handleLocationSelect, loadNearbyMarkers, mapWithPrice.
    rewrite onlyApproved_fmap_withPrice.
    destruct (filterByWindow _ _) eqn:E; simpl; rewrite <- E; reflexivity. }
  split.
  { unfold applyTimeFilterFetch, loadNearbyMarkers, mapWithPrice.
    rewrite onlyApproved_fmap_withPrice. reflexivity. }
  split.
  { unfold clearTimeFilter, mapWithPrice. simpl. apply onlyApproved_fmap_withPrice. }
  intros v Hv. unfold handleLocationSelect, loadNearbyMarkers, mapWithPrice.
  rewrite Hv. simpl. unfold filterByWindow. simpl.
  destruct (windowActive _ _); repeat split; reflexivity.
Qed.

End Actions.

(** ** Instances

    Each property above that has a precondition, applied to a concrete
    input on the example engine. *)

Lemma handleParkingUpdate_inserts_witness :
  Home.parkingSpaces
    (Home.handleParkingUpdate (rt := exampleRuntime)
       (Some {[ "_id" := JStr "b"; "status" := JStr "submitted"; "isOnline" := JBool true ]})
       (Home.mkState
          [ {[ "_id" := JStr "a"; "status" := JStr "submitted" ]} ]
          [ {[ "_id" := JStr "a"; "status" := JStr "submitted" ]} ]
          None None None None Home.initialFilters [] [] false))
  = Home.withPrice (rt := exampleRuntime)
      {[ "_id" := JStr "b"; "status" := JStr "submitted"; "isOnline" := JBool true ]}
    :: [ {[ "_id" := JStr "a"; "status" := JStr "submitted" ]} ].
Proof.
  refine (proj1 (handleParkingUpdate_inserts (rt := exampleRuntime)
           {[ "_id" := JStr "b"; "status" := JStr "submitted"; "isOnline" := JBool true ]}
           (Home.mkState
              [ {[ "_id" := JStr "a"; "status" := JStr "submitted" ]} ]
              [ {[ "_id" := JStr "a"; "status" := JStr "submitted" ]} ]
              None None None None Home.initialFilters [] [] false) _ _ _ _)).
  - vm_compute. reflexivity.
  - right. vm_compute. reflexivity.
  - intros s Hs. apply list_elem_of_singleton in Hs as ->. vm_compute. reflexivity.
  - intros s Hs. apply list_elem_of_singleton in Hs as ->. vm_compute. reflexivity.
Defined.

Lemma handleParkingUpdate_redelivery_duplicates_witness :
  Home.parkingSpaces
    (Home.handleParkingUpdate (rt := exampleRuntime)
       (Some {[ "parkingId" := JStr "b"; "isOnline" := JBool true ]})
       (Home.handleParkingUpdate (rt := exampleRuntime)
          (Some {[ "parkingId" := JStr "b"; "isOnline" := JBool true ]})
          (Home.mkState
             [ {[ "_id" := JStr "a"; "status" := JStr "submitted" ]} ]
             [ {[ "_id" := JStr "a"; "status" := JStr "submitted" ]} ]
             None None None None Home.initialFilters [] [] false)))
  = Home.withPrice (rt := exampleRuntime)
      {[ "parkingId" := JStr "b"; "isOnline" := JBool true ]}
    :: Home.withPrice (rt := exampleRuntime)
         {[ "parkingId" := JStr "b"; "isOnline" := JBool true ]}
    :: [ {[ "_id" := JStr "a"; "status" := JStr "submitted" ]} ].
Proof.
  refine (handleParkingUpdate_redelivery_duplicates (rt := exampleRuntime)
           {[ "parkingId" := JStr "b"; "isOnline" := JBool true ]}
           (Home.mkState
              [ {[ "_id" := JStr "a"; "status" := JStr "submitted" ]} ]
              [ {[ "_id" := JStr "a"; "status" := JStr "submitted" ]} ]
              None None None None Home.initialFilters [] [] false) _ _ _ _ _).
  - vm_compute. reflexivity.
  - vm_compute. reflexivity.
  - vm_compute. reflexivity.
  - left. vm_compute. reflexivity.
  - intros s Hs. apply list_elem_of_singleton in Hs as ->. vm_compute. reflexivity.
Defined.

Lemma updateParkingSpaces_redelivery_idempotent_witness :
  Home.updateParkingSpaces (rt := exampleRuntime) None None
    {[ "_id" := JStr "a"; "availableSpots" := JNum (Fin 4) ]}
    [ {[ "_id" := JStr "a"; "title" := JStr "Lot A"; "availableSpots" := JNum (Fin 4) ]} ]
  = Some [ {[ "_id" := JStr "a"; "title" := JStr "Lot A"; "availableSpots" := JNum (Fin 4) ]} ].
Proof.
  refine (updateParkingSpaces_redelivery_idempotent (rt := exampleRuntime) None None
           {[ "_id" := JStr "a"; "availableSpots" := JNum (Fin 4) ]}
           [ {[ "_id" := JStr "a"; "title" := JStr "Lot A"; "availableSpots" := JNum (Fin 7) ]} ]
           [ {[ "_id" := JStr "a"; "title" := JStr "Lot A"; "availableSpots" := JNum (Fin 4) ]} ]
           "a" 0 _ _ _ _ _ _).
  - vm_compute. reflexivity.
  - vm_compute. reflexivity.
  - discriminate.
  - vm_compute. reflexivity.
  - vm_compute. reflexivity.
  - vm_compute. reflexivity.
Defined.

Lemma handleParkingUpdate_selection_follows_witness :
  Home.parkingSpaces
    (Home.handleParkingUpdate (rt := exampleRuntime)
       (Some {[ "_id" := JStr "a"; "availableSpots" := JNum (Fin 4) ]})
       (Home.mkState
          [ {[ "_id" := JStr "a"; "title" := JStr "Lot A"; "availableSpots" := JNum (Fin 7) ]} ]
          [ {[ "_id" := JStr "a"; "title" := JStr "Lot A"; "availableSpots" := JNum (Fin 7) ]} ]
          (Some {[ "_id" := JStr "a"; "title" := JStr "Lot A"; "availableSpots" := JNum (Fin 7) ]})
          None None None Home.initialFilters [] [] false)) !! 0%nat
  = Home.selectedSpace
      (Home.handleParkingUpdate (rt := exampleRuntime)
         (Some {[ "_id" := JStr "a"; "availableSpots" := JNum (Fin 4) ]})
         (Home.mkState
            [ {[ "_id" := JStr "a"; "title" := JStr "Lot A"; "availableSpots" := JNum (Fin 7) ]} ]
            [ {[ "_id" := JStr "a"; "title" := JStr "Lot A"; "availableSpots" := JNum (Fin 7) ]} ]
            (Some {[ "_id" := JStr "a"; "title" := JStr "Lot A"; "availableSpots" := JNum (Fin 7) ]})
            None None None Home.initialFilters [] [] false)).
Proof.
  refine (proj1 (handleParkingUpdate_selection_follows (rt := exampleRuntime)
           {[ "_id" := JStr "a"; "availableSpots" := JNum (Fin 4) ]}
           {[ "_id" := JStr "a"; "title" := JStr "Lot A"; "availableSpots" := JNum (Fin 7) ]}
           (Home.mkState
              [ {[ "_id" := JStr "a"; "title" := JStr "Lot A"; "availableSpots" := JNum (Fin 7) ]} ]
              [ {[ "_id" := JStr "a"; "title" := JStr "Lot A"; "availableSpots" := JNum (Fin 7) ]} ]
              (Some {[ "_id" := JStr "a"; "title" := JStr "Lot A"; "availableSpots" := JNum (Fin 7) ]})
              None None None Home.initialFilters [] [] false) 0%nat _ _ _ _ _ _)).
  - vm_compute. reflexivity.
  - left. vm_compute. reflexivity.
  - left. vm_compute. reflexivity.
  - vm_compute. reflexivity.
  - reflexivity.
  - reflexivity.
Defined.

Lemma loads_list_only_visible_spaces_witness :
  Home.parkingSpaces
    (Home.handler (rt := exampleRuntime)
       (Home.ClearTimeFilter
          (Home.Resolves
             (Home.ArrayOf
                [ {[ "_id" := JStr "a"; "status" := JStr "submitted"; "isOnline" := JBool true ]};
                  {[ "_id" := JStr "b"; "status" := JStr "pending" ]} ])))
       Home.initialState)
  = Home.parkingSpaces Home.initialState
  \/ wellListed (rt := exampleRuntime)
       (Home.handler (rt := exampleRuntime)
          (Home.ClearTimeFilter
             (Home.Resolves
                (Home.ArrayOf
                   [ {[ "_id" := JStr "a"; "status" := JStr "submitted";
                        "isOnline" := JBool true ]};
                     {[ "_id" := JStr "b"; "status" := JStr "pending" ]} ])))
          Home.initialState).
Proof.
  refine (loads_list_only_visible_spaces (rt := exampleRuntime)
           (Home.ClearTimeFilter
              (Home.Resolves
                 (Home.ArrayOf
                    [ {[ "_id" := JStr "a"; "status" := JStr "submitted";
                         "isOnline" := JBool true ]};
                      {[ "_id" := JStr "b"; "status" := JStr "pending" ]} ])))
           Home.initialState _).
  reflexivity.
Defined.

Lemma changeStartTime_keeps_end_after_start_witness :
  (1893492000000 < 1893499200000)%Z
  /\ Home.startTime
       (Home.changeStartTime (rt := exampleRuntime) "2030-01-01T10:00"
          (Home.setEndTime (Some "2030-01-01T12:00") Home.initialState))
     = Some "2030-01-01T10:00".
Proof.
  refine (changeStartTime_keeps_end_after_start (rt := exampleRuntime)
           "2030-01-01T10:00" "2030-01-01T12:00" 1893492000000 1893499200000
           (Home.setEndTime (Some "2030-01-01T12:00") Home.initialState) _ _ _ _ _).
  - discriminate.
  - vm_compute. reflexivity.
  - vm_compute. reflexivity.
  - discriminate.
  - vm_compute. reflexivity.
Defined.

Lemma sheet_drag_height_in_range_witness :
  HomeControls.sheetHeight
    (HomeControls.onDragMove (Some 800%Q) true 300%Q
       (HomeControls.onDragStart (Some 120%Q) 500%Q
          (HomeControls.mkSheet false 0%Q 0%Q 120%Q true None None)))
  = HomeControls.sheetHeight
      (HomeControls.onDragStart (Some 120%Q) 500%Q
         (HomeControls.mkSheet false 0%Q 0%Q 120%Q true None None))
  /\ HomeControls.styleHeight
       (HomeControls.onDragMove (Some 800%Q) true 300%Q
          (HomeControls.onDragStart (Some 120%Q) 500%Q
             (HomeControls.mkSheet false 0%Q 0%Q 120%Q true None None)))
     = Some 320%Q
  /\ HomeControls.styleHeight
       (HomeControls.onFilterDragMove (Some 800%Q) true 400%Q
          (HomeControls.onFilterDragStart (Some 360%Q) 500%Q
             (HomeControls.mkSheet false 0%Q 0%Q 360%Q true None None)))
     = Some 460%Q
  /\ HomeControls.styleHeight
       (HomeControls.onFilterDragMove (Some 800%Q) true 0%Q
          (HomeControls.onFilterDragStart (Some 360%Q) 500%Q
             (HomeControls.mkSheet false 0%Q 0%Q 360%Q true None None)))
     = Some (HomeControls.MAX_FILTER_HEIGHT (Some 800%Q)).
Proof.
  split.
  - refine (proj1 (proj2 (proj2 (proj2 (proj2
              (sheet_drag_height_in_range (Some 800%Q) 300%Q
                 (HomeControls.onDragStart (Some 120%Q) 500%Q
                    (HomeControls.mkSheet false 0%Q 0%Q 120%Q true None None)) _)))))).
    reflexivity.
  - compute_each.
Defined.

Lemma sheet_ignores_stray_pointer_events_witness :
  HomeControls.onDragEnd (Some 800%Q) (Some 700%Q)
    (dragMoves (Some 800%Q) [400%Q; 100%Q]
       (HomeControls.onDragStart None 500%Q
          (HomeControls.mkSheet false 0%Q 0%Q 120%Q true None None)))
  = HomeControls.mkSheet false 0%Q 0%Q 120%Q true None None.
Proof.
  refine (proj1 (sheet_ignores_stray_pointer_events (Some 800%Q) 500%Q (Some 700%Q)
                   [400%Q; 100%Q]
                   (HomeControls.mkSheet false 0%Q 0%Q 120%Q true None None) _)).
  reflexivity.
Defined.

Lemma debounce_fires_last_of_burst_witness :
  Debounce.fired
    (Debounce.elapse 600
       (Debounce.calls 300 [(0%Z, "p"); (100%Z, "pa"); (250%Z, "par")] Debounce.idle))
  = [(550%Z, "par")].
Proof.
  refine (proj1 (debounce_fires_last_of_burst 300 0 "p" [(100%Z, "pa"); (250%Z, "par")] 600)
            _).
  simpl. lia.
Defined.

Lemma Splash_onFinish_timing_witness :
  Splash.finished (Splash.elapse true 2400 (Splash.mount 0 2000)) = [2400%Z].
Proof.
  refine (proj1 (Splash_onFinish_timing true 0 2000 _) 2400%Z).
  lia.
Defined.

Lemma currentLocation_known_after_mount_witness :
  Home.currentLocation
    (Home.run (rt := exampleRuntime)
       [ Home.ChangeStartTime "2030-01-01T10:00";
         Home.GoToCurrentLocation false Home.Rejects Home.Rejects ]
       (Home.step (rt := exampleRuntime) Home.initialState
          (Home.Init Home.GeoFailed false Home.Rejects Home.Rejects)))
  = Some Home.defaultLocation.
Proof.
  refine (proj1 (currentLocation_known_after_mount (rt := exampleRuntime) Home.GeoFailed
                   false Home.Rejects Home.Rejects
                   [ Home.ChangeStartTime "2030-01-01T10:00";
                     Home.GoToCurrentLocation false Home.Rejects Home.Rejects ]
                   Home.initialState _)).
  repeat constructor.
Defined.

(** A query of two characters outside ASCII (U+65E5 U+672C, six bytes of
    UTF-8) has two code units and makes no call of the geocoder; a query of
    three letters makes one. *)
Lemma searchLocations_outcomes_witness :
  utf16Length
    (String.string_of_list_ascii (ascii_of_nat <$> [230; 151; 165; 230; 156; 172]%nat))
  = 2%nat
  /\ HomeControls.geocodeRequests
       (HomeControls.searchLocations None
          (String.string_of_list_ascii
             (ascii_of_nat <$> [230; 151; 165; 230; 156; 172]%nat))
          (HomeControls.GeocodeResolves [])
          (HomeControls.mkSearchState "" false [] false [] []))
     = []
  /\ HomeControls.geocodeRequests
       (HomeControls.searchLocations None "del" HomeControls.GeocodeRejects
          (HomeControls.mkSearchState "" false [] false [] []))
     = [HomeControls.mkGeocodeRequest "del" None].
Proof.
  split; [reflexivity | ]. split.
  - refine (proj1 (proj2 (proj2
              (proj1 (searchLocations_outcomes None
                        (String.string_of_list_ascii
                           (ascii_of_nat <$> [230; 151; 165; 230; 156; 172]%nat))
                        (HomeControls.GeocodeResolves [])
                        (HomeControls.mkSearchState "" false [] false [] [])) _)))).
    vm_compute. lia.
  - refine (proj1 (proj1 (proj2 (searchLocations_outcomes None "del"
                                   HomeControls.GeocodeRejects
                                   (HomeControls.mkSearchState "" false [] false [] [])))
                     _)).
    vm_compute. lia.
Defined.
